(** * Bank queue simulation: a shallow embedding of [bank_queue_sim.py]

    The program simulates a bank with [num_tellers] tellers served by one
    queue.  It is written against the [simpy] discrete-event library (an
    environment with an event heap, generator processes, a counted
    [Resource]) and the [random] and [statistics] modules of the Python
    standard library.

    Conventions of the embedding.
    - Python floats are exact rationals ([Q]); rounding is not modelled.
      Orderings are [Qle]/[Qlt]; equalities that the program decides are
      decided with [Qeq_bool]/[Qle_bool].
    - The module-level random generator is a position [random_pos] in a
      stream [draws : nat -> Q]; [draws n] is the value of
      [-log(1.0 - random())] at the n-th call, the quantity that
      [random.expovariate] divides by its rate.
    - Python list objects that outlive a call (the [waiting_times] and
      [service_times] lists referenced from a run's statistics dict) live
      in a heap [gmap loc (list Q)]; dicts are records whose list entries
      are references into that heap.
    - Exceptions are values of [exn]; code that may raise returns
      [result].  The event loop is run with fuel, and running out of fuel
      is a third outcome, distinct from returning and from raising.
    - [math.sqrt] (behind [statistics.stdev] and [** 0.5]) is a parameter. *)

From Stdlib Require Import QArith Lqa ZArith List Lia Bool Sorted.
From stdpp Require Import gmap list.
Import ListNotations.

Set Default Proof Using "Type".
Local Open Scope Q_scope.

(** ** Exceptions and results *)

Inductive exn : Type :=
  | ValueError          (* simpy: bad capacity, bad [until], negative delay *)
  | ZeroDivisionError   (* float division by zero *)
  | StatisticsError     (* statistics.mean / stdev on too few points *)
  | RuntimeError        (* simpy: schedule drained before [until] *)
  | DanglingReference.  (* a heap reference with no object: not a Python state *)

Inductive result (A : Type) : Type :=
  | Ok (a : A)
  | Raise (e : exn).
Arguments Ok {A} a.
Arguments Raise {A} e.

(** [x / y] on floats. *)
Definition float_div (x y : Q) : result Q :=
  if Qeq_bool y 0 then Raise ZeroDivisionError else Ok (x / y).

(** [x < y] on floats, as a boolean. *)
Definition Qlt_bool (x y : Q) : bool := negb (Qle_bool y x).

(** ** The event heap of [simpy.Environment]

    The simulation core ([simpy.Environment], generator processes and
    [simpy.Resource]) is imported by the source and is not part of it.
    Section 3 of the specification gives the event as
    [(time, priority, sequence, action)], totally ordered by that key;
    sections 4.1 to 4.4 give the event queue, the scheduler, the process
    and the resource.  The definitions marked as modelled from the spec
    follow them, and where the specification is silent they follow the
    library the source calls. *)

(** Modelled from the spec: the two priorities of the library's events
    (section 3, lower is earlier); only a process's first resumption and
    the [until] event are urgent. *)

Definition URGENT : nat := 0%nat.
Definition NORMAL : nat := 1%nat.

(** A pending request of the resource: the customer that issued it, with
    the [arrival_time] local of its suspended generator. *)
Record request : Type := {
  req_customer : nat;
  req_arrival_time : Q
}.

(** What dispatching an event resumes. *)
Inductive action : Type :=
  | Initialize_arrivals               (* first resumption of customer_arrivals *)
  | Timeout_arrivals                  (* the timeout yielded at line 67 *)
  | Initialize_customer (id : nat)    (* first resumption of customer *)
  | Request_granted (r : request)     (* the request yielded at line 48 *)
  | Timeout_service (id : nat)        (* the timeout yielded at line 57 *)
  | Release_done                      (* a release; its callback re-examines the queue *)
  | Process_end                       (* a generator ran to exhaustion *)
  | Process_failed (e : exn)          (* a generator raised *)
  | Stop_simulation.                  (* the [until] event of env.run *)

Record event : Type := {
  ev_time : Q;
  ev_priority : nat;
  ev_eid : nat;
  ev_action : action
}.

(** Modelled from the spec: the order of the event queue, missing from
    the source (section 3: events are totally ordered by time, then
    priority, then insertion sequence).  Tuple comparison
    [(time, priority, eid)], lexicographic. *)
Definition key_ltb (a b : event) : bool :=
  match ev_time a ?= ev_time b with
  | Lt => true
  | Gt => false
  | Datatypes.Eq =>
      (ev_priority a <? ev_priority b)%nat
      || ((ev_priority a =? ev_priority b)%nat && (ev_eid a <? ev_eid b)%nat)
  end.

(** Modelled from the spec: the event queue's insertion (section 4.1),
    [heappush] in the library.  The heap is kept as the list of its
    events in pop order. *)
Fixpoint heappush (e : event) (q : list event) : list event :=
  match q with
  | [] => [e]
  | x :: q' => if key_ltb e x then e :: q else x :: heappush e q'
  end.

(** ** The state of one run *)

(** The lines the source prints when [verbose]; recorded here for every
    run as a history of the run, never read by the simulation. *)
Inductive line : Type :=
  | Arrives (id : nat) (t : Q)
  | Starts_service (id : nat) (t : Q) (wait : Q)
  | Leaves (id : nat) (t : Q).

Record state : Type := {
  env_now : Q;                       (* env.now *)
  env_queue : list event;            (* env._queue *)
  env_eid : nat;                     (* env._eid *)
  bank_capacity : Z;                 (* bank.capacity *)
  bank_users : list nat;             (* bank.users, by customer *)
  bank_put_queue : list request;     (* bank.put_queue *)
  gen_customer_id : nat;             (* customer_id of customer_arrivals *)
  random_pos : nat;                  (* position in the random stream *)
  obs_waiting_times : list Q;        (* waiting_times of run_single_simulation *)
  obs_service_times : list Q;        (* service_times of run_single_simulation *)
  verbose_trace : list line
}.

Definition set_now (t : Q) (st : state) : state :=
  {| env_now := t; env_queue := env_queue st; env_eid := env_eid st;
     bank_capacity := bank_capacity st; bank_users := bank_users st;
     bank_put_queue := bank_put_queue st; gen_customer_id := gen_customer_id st;
     random_pos := random_pos st; obs_waiting_times := obs_waiting_times st;
     obs_service_times := obs_service_times st; verbose_trace := verbose_trace st |}.

Definition set_queue (q : list event) (st : state) : state :=
  {| env_now := env_now st; env_queue := q; env_eid := env_eid st;
     bank_capacity := bank_capacity st; bank_users := bank_users st;
     bank_put_queue := bank_put_queue st; gen_customer_id := gen_customer_id st;
     random_pos := random_pos st; obs_waiting_times := obs_waiting_times st;
     obs_service_times := obs_service_times st; verbose_trace := verbose_trace st |}.

Definition set_eid (n : nat) (st : state) : state :=
  {| env_now := env_now st; env_queue := env_queue st; env_eid := n;
     bank_capacity := bank_capacity st; bank_users := bank_users st;
     bank_put_queue := bank_put_queue st; gen_customer_id := gen_customer_id st;
     random_pos := random_pos st; obs_waiting_times := obs_waiting_times st;
     obs_service_times := obs_service_times st; verbose_trace := verbose_trace st |}.

Definition set_users (u : list nat) (st : state) : state :=
  {| env_now := env_now st; env_queue := env_queue st; env_eid := env_eid st;
     bank_capacity := bank_capacity st; bank_users := u;
     bank_put_queue := bank_put_queue st; gen_customer_id := gen_customer_id st;
     random_pos := random_pos st; obs_waiting_times := obs_waiting_times st;
     obs_service_times := obs_service_times st; verbose_trace := verbose_trace st |}.

Definition set_put_queue (p : list request) (st : state) : state :=
  {| env_now := env_now st; env_queue := env_queue st; env_eid := env_eid st;
     bank_capacity := bank_capacity st; bank_users := bank_users st;
     bank_put_queue := p; gen_customer_id := gen_customer_id st;
     random_pos := random_pos st; obs_waiting_times := obs_waiting_times st;
     obs_service_times := obs_service_times st; verbose_trace := verbose_trace st |}.

Definition set_customer_id (n : nat) (st : state) : state :=
  {| env_now := env_now st; env_queue := env_queue st; env_eid := env_eid st;
     bank_capacity := bank_capacity st; bank_users := bank_users st;
     bank_put_queue := bank_put_queue st; gen_customer_id := n;
     random_pos := random_pos st; obs_waiting_times := obs_waiting_times st;
     obs_service_times := obs_service_times st; verbose_trace := verbose_trace st |}.

Definition set_random_pos (n : nat) (st : state) : state :=
  {| env_now := env_now st; env_queue := env_queue st; env_eid := env_eid st;
     bank_capacity := bank_capacity st; bank_users := bank_users st;
     bank_put_queue := bank_put_queue st; gen_customer_id := gen_customer_id st;
     random_pos := n; obs_waiting_times := obs_waiting_times st;
     obs_service_times := obs_service_times st; verbose_trace := verbose_trace st |}.

Definition set_waiting_times (w : list Q) (st : state) : state :=
  {| env_now := env_now st; env_queue := env_queue st; env_eid := env_eid st;
     bank_capacity := bank_capacity st; bank_users := bank_users st;
     bank_put_queue := bank_put_queue st; gen_customer_id := gen_customer_id st;
     random_pos := random_pos st; obs_waiting_times := w;
     obs_service_times := obs_service_times st; verbose_trace := verbose_trace st |}.

Definition set_service_times (s : list Q) (st : state) : state :=
  {| env_now := env_now st; env_queue := env_queue st; env_eid := env_eid st;
     bank_capacity := bank_capacity st; bank_users := bank_users st;
     bank_put_queue := bank_put_queue st; gen_customer_id := gen_customer_id st;
     random_pos := random_pos st; obs_waiting_times := obs_waiting_times st;
     obs_service_times := s; verbose_trace := verbose_trace st |}.

Definition set_trace (t : list line) (st : state) : state :=
  {| env_now := env_now st; env_queue := env_queue st; env_eid := env_eid st;
     bank_capacity := bank_capacity st; bank_users := bank_users st;
     bank_put_queue := bank_put_queue st; gen_customer_id := gen_customer_id st;
     random_pos := random_pos st; obs_waiting_times := obs_waiting_times st;
     obs_service_times := obs_service_times st; verbose_trace := t |}.

(** Modelled from the spec: the event queue's [schedule] (section 4.1),
    [env.schedule(event, priority, delay)] in the library: push under the key
    [(now + delay, priority, next eid)]. *)
Definition schedule (priority : nat) (delay : Q) (a : action) (st : state) : state :=
  set_eid (S (env_eid st))
    (set_queue
       (heappush {| ev_time := env_now st + delay; ev_priority := priority;
                    ev_eid := env_eid st; ev_action := a |}
                 (env_queue st))
       st).

(** [print] of one verbose line. *)
Definition emit (l : line) (st : state) : state :=
  set_trace (verbose_trace st ++ [l]) st.

(** ** The resource: [simpy.Resource] *)

(** Modelled from the spec: the grant step of the server pool, missing
    from the source (section 4.4: a slot is granted when [in_use] is below
    the capacity, to the head of the wait queue).  In the library,
    [_trigger_put] looks at the head of [put_queue] only: [_do_put] grants
    it when a slot is free ([users.append], then [succeed], which schedules
    the request event at [now] with normal priority) and the loop stops
    after that first entry. *)
Definition trigger_put (st : state) : state :=
  match bank_put_queue st with
  | [] => st
  | r :: rest =>
      if (Z.of_nat (length (bank_users st)) <? bank_capacity st)%Z then
        set_put_queue rest
          (schedule NORMAL 0 (Request_granted r)
             (set_users (bank_users st ++ [req_customer r]) st))
      else st
  end.

(** Modelled from the spec: [acquire] of the server pool (section 4.4),
    [bank.request()] in the source: append to [put_queue], then
    [_trigger_put]; the caller is resumed through the event queue even
    when the grant is immediate. *)
Definition bank_request (r : request) (st : state) : state :=
  trigger_put (set_put_queue (bank_put_queue st ++ [r]) st).

(** [users.remove(request)]: drop the first occurrence, if any. *)
Fixpoint list_remove_first (id : nat) (l : list nat) : list nat :=
  match l with
  | [] => []
  | x :: l' => if (x =? id)%nat then l' else x :: list_remove_first id l'
  end.

(** Modelled from the spec: [release] of the server pool (section 4.4),
    [bank.release(request)] in the library, reached through [__exit__] of the [with]
    block: the slot is given back at once and the release event is
    scheduled; only when that event is dispatched does its callback
    [_trigger_put] look at the queue. *)
Definition bank_release (id : nat) (st : state) : state :=
  schedule NORMAL 0 Release_done
    (set_users (list_remove_first id (bank_users st)) st).

(** ** Generator processes *)

(** How a resumption of a generator ends when it does not raise. *)
Inductive suspension : Type :=
  | Suspended    (* stopped at a yield *)
  | Exhausted.   (* ran off the end *)

(** Code that threads a store of type [S] and may raise; what it did to
    the store before raising stays done. *)
Definition proc (S A : Type) : Type := S -> result A * S.

Definition ret {S A} (a : A) : proc S A := fun st => (Ok a, st).

Definition bind {S A B} (m : proc S A) (k : A -> proc S B) : proc S B :=
  fun st =>
    match m st with
    | (Ok a, st') => k a st'
    | (Raise e, st') => (Raise e, st')
    end.

Definition effect {S} (f : S -> S) : proc S unit := fun st => (Ok tt, f st).

Definition lift {S A} (r : result A) : proc S A := fun st => (r, st).

Definition get_now : proc state Q := fun st => (Ok (env_now st), st).

Notation "'let*' x ':=' m 'in' k" := (bind m (fun x => k))
  (at level 10, x name, m at level 100, k at level 200).

(** [with bank.request() as request: body], once the request is held:
    leaving the block, normally or by an exception, releases the slot; a
    generator suspended inside the block keeps it. *)
Definition with_request (id : nat) (body : proc state suspension) : proc state suspension :=
  fun st =>
    match body st with
    | (Ok Suspended, st') => (Ok Suspended, st')
    | (Ok Exhausted, st') => (Ok Exhausted, bank_release id st')
    | (Raise e, st') => (Raise e, bank_release id st')
    end.

(** Modelled from the spec: resuming a process (sections 3 and 4.3),
    [Process._resume] in the library: run the generator to its next yield; exhaustion
    and failure each schedule the process event itself. *)
Definition resume (body : proc state suspension) (st : state) : state :=
  match body st with
  | (Ok Suspended, st') => st'
  | (Ok Exhausted, st') => schedule NORMAL 0 Process_end st'
  | (Raise e, st') => schedule NORMAL 0 (Process_failed e) st'
  end.

Section Simulation.

(** The random stream and the two means of the configuration. *)
Variable draws : nat -> Q.
Variable mean_interarrival : Q.
Variable mean_service_time : Q.

(** [random.expovariate(lambd)]. *)
Definition expovariate (lambd : Q) : proc state Q :=
  fun st =>
    let st' := set_random_pos (S (random_pos st)) st in
    (float_div (draws (random_pos st)) lambd, st').

(** Modelled from the spec: the timer wait of a process (section 4.3),
    [env.timeout(delay)] in the source, yielded by a process that
    resumes with [a]; the library rejects a negative delay. *)
Definition timeout (delay : Q) (a : action) : proc state unit :=
  fun st =>
    if Qlt_bool delay 0 then (Raise ValueError, st)
    else (Ok tt, schedule NORMAL delay a st).

(** [customer_arrivals], from the top of the loop body to the yield. *)
Definition customer_arrivals_loop : proc state suspension :=
  let* lambd := lift (float_div 1 mean_interarrival) in
  let* gap := expovariate lambd in
  let* _ := timeout gap Timeout_arrivals in
  ret Suspended.

(** [customer_arrivals], resumed after the yield: spawn one customer,
    then around the loop. *)
Definition customer_arrivals_resumed : proc state suspension :=
  let* _ := effect (fun st => set_customer_id (S (gen_customer_id st)) st) in
  let* _ := effect (fun st => schedule URGENT 0 (Initialize_customer (gen_customer_id st)) st) in
  customer_arrivals_loop.

(** [customer], lines 43 to 48: note the arrival, issue the request. *)
Definition customer_arrive (id : nat) : proc state suspension :=
  let* arrival_time := get_now in
  let* _ := effect (emit (Arrives id arrival_time)) in
  let* _ := effect (bank_request {| req_customer := id; req_arrival_time := arrival_time |}) in
  ret Suspended.

(** [customer], lines 49 to 57: resumed with the teller granted. *)
Definition customer_start_service (r : request) : proc state suspension :=
  with_request (req_customer r)
    (let* now := get_now in
     let wait := now - req_arrival_time r in
     let* _ := effect (fun st => set_waiting_times (obs_waiting_times st ++ [wait]) st) in
     let* _ := effect (emit (Starts_service (req_customer r) now wait)) in
     let* lambd := lift (float_div 1 mean_service_time) in
     let* service_time := expovariate lambd in
     let* _ := effect (fun st => set_service_times (obs_service_times st ++ [service_time]) st) in
     let* _ := timeout service_time (Timeout_service (req_customer r)) in
     ret Suspended).

(** [customer], lines 58 to 59 and the end of the [with] block. *)
Definition customer_leave (id : nat) : proc state suspension :=
  with_request id
    (let* now := get_now in
     let* _ := effect (emit (Leaves id now)) in
     ret Exhausted).

(** ** The scheduler: [Environment.step] and [Environment.run] *)

Inductive step_result : Type :=
  | Next (st : state)              (* the loop goes on *)
  | Halt (st : state)              (* StopSimulation *)
  | Crash (e : exn) (st : state).  (* an exception leaves env.run *)

Definition step_state (r : step_result) : state :=
  match r with
  | Next st | Halt st | Crash _ st => st
  end.

(** Modelled from the spec: one turn of the scheduler (section 4.2),
    [Environment.step] in the library: pop the earliest event, move the
    clock to it, run its callbacks; an event that carries a failure
    crashes the run. *)
Definition step (st : state) : step_result :=
  match env_queue st with
  | [] => Crash RuntimeError st
  | ev :: q =>
      let st1 := set_queue q (set_now (ev_time ev) st) in
      match ev_action ev with
      | Initialize_arrivals => Next (resume customer_arrivals_loop st1)
      | Timeout_arrivals => Next (resume customer_arrivals_resumed st1)
      | Initialize_customer id => Next (resume (customer_arrive id) st1)
      | Request_granted r => Next (resume (customer_start_service r) st1)
      | Timeout_service id => Next (resume (customer_leave id) st1)
      | Release_done => Next (trigger_put st1)
      | Process_end => Next st1
      | Process_failed e => Crash e st1
      | Stop_simulation => Halt st1
      end
  end.

Inductive outcome : Type :=
  | Stopped (st : state)
  | Crashed (e : exn) (st : state)
  | Out_of_fuel (st : state).

Definition outcome_state (o : outcome) : state :=
  match o with
  | Stopped st | Crashed _ st | Out_of_fuel st => st
  end.

(** Modelled from the spec: the scheduler's loop (section 4.2),
    [while True: self.step()] in the library, with fuel. *)
Fixpoint run_loop (fuel : nat) (st : state) : outcome :=
  match fuel with
  | O => Out_of_fuel st
  | S fuel' =>
      match step st with
      | Next st' => run_loop fuel' st'
      | Halt st' => Stopped st'
      | Crash e st' => Crashed e st'
      end
  end.

(** Modelled from the spec: a fresh scheduler with an empty event queue
    at time 0 (section 2), [simpy.Environment()] in the source, together
    with the run's two empty lists. *)
Definition new_environment (pos : nat) : state :=
  {| env_now := 0; env_queue := []; env_eid := 0%nat;
     bank_capacity := 0%Z; bank_users := []; bank_put_queue := [];
     gen_customer_id := 0%nat; random_pos := pos;
     obs_waiting_times := []; obs_service_times := []; verbose_trace := [] |}.

(** Modelled from the spec: the server pool's constructor (section 3:
    capacity is at least 1), [simpy.Resource(env, capacity)] in the
    source. *)
Definition new_resource (capacity : Z) (st : state) : result state :=
  if (capacity <=? 0)%Z then Raise ValueError
  else Ok {| env_now := env_now st; env_queue := env_queue st; env_eid := env_eid st;
             bank_capacity := capacity; bank_users := []; bank_put_queue := [];
             gen_customer_id := gen_customer_id st; random_pos := random_pos st;
             obs_waiting_times := obs_waiting_times st;
             obs_service_times := obs_service_times st;
             verbose_trace := verbose_trace st |}.

(** Modelled from the spec: the scheduler's [run(until)] (section 4.2),
    [env.run(until=sim_time)] in the source: reject a cutoff that is not
    in the future, else schedule the [until] event and loop.  In the
    library that event is urgent, so it goes before the events of normal
    priority due at the cutoff itself. *)
Definition env_run (until : Q) (fuel : nat) (st : state) : result outcome :=
  if Qle_bool until (env_now st) then Raise ValueError
  else Ok (run_loop fuel (schedule URGENT (until - env_now st) Stop_simulation st)).

(** [run_single_simulation], lines 78 to 86. *)
Definition simulate (num_tellers : Z) (sim_time : Q) (pos : nat) (fuel : nat)
  : result outcome :=
  match new_resource num_tellers (new_environment pos) with
  | Raise e => Raise e
  | Ok st => env_run sim_time fuel (schedule URGENT 0 Initialize_arrivals st)
  end.

End Simulation.

(** ** The heap of list objects *)

Abbreviation loc := nat (only parsing).
Abbreviation heap := (gmap nat (list Q)).

(** A new list object with contents [l]. *)
Definition alloc (l : list Q) : proc heap loc :=
  fun h => let r := fresh (dom h) in (Ok r, <[r := l]> h).

(** Reading a list object. *)
Definition deref (l : loc) : proc heap (list Q) :=
  fun h =>
    match h !! l with
    | Some v => (Ok v, h)
    | None => (Raise DanglingReference, h)
    end.

(** [dst.extend(src)]: the object at [dst] is updated in place. *)
Definition extend (dst src : loc) : proc heap unit :=
  let* a := deref dst in
  let* b := deref src in
  effect (fun h => <[dst := a ++ b]> h).

(** ** [statistics] and [max] *)

Definition result_bind {A B} (r : result A) (k : A -> result B) : result B :=
  match r with
  | Ok a => k a
  | Raise e => Raise e
  end.

Notation "'let+' x ':=' r 'in' k" := (result_bind r (fun x => k))
  (at level 10, x name, r at level 100, k at level 200).

Definition Qsum (l : list Q) : Q := fold_left Qplus l 0.

Definition Zsum (l : list Z) : Z := fold_left Z.add l 0%Z.

Definition len (l : list Q) : Q := inject_Z (Z.of_nat (length l)).

(** [statistics.mean(data)]. *)
Definition mean (data : list Q) : result Q :=
  if (length data <? 1)%nat then Raise StatisticsError
  else Ok (Qsum data / len data).

(** [max(data)]: the first of the largest elements. *)
Definition py_max (data : list Q) : result Q :=
  match data with
  | [] => Raise ValueError
  | x :: rest => Ok (fold_left (fun m y => if Qlt_bool m y then y else m) rest x)
  end.

Section Statistics.

(** [math.sqrt]. *)
Variable sqrt : Q -> Q.

(** [statistics.variance(data)]: the sample variance. *)
Definition variance (data : list Q) : result Q :=
  if (length data <? 2)%nat then Raise StatisticsError
  else
    let+ m := mean data in
    Ok (Qsum (map (fun x => (x - m) * (x - m)) data) / (len data - 1)).

(** [statistics.stdev(data)]. *)
Definition stdev (data : list Q) : result Q :=
  let+ v := variance data in Ok (sqrt v).

End Statistics.

(** ** Run results *)

(** The dict returned by [run_single_simulation]; its two lists are the
    list objects the run filled, held by reference. *)
Record run_stats : Type := {
  run_number : Z;
  customers_served : Z;
  avg_waiting_time : Q;
  max_waiting_time : Q;
  avg_service_time : Q;
  waiting_times : loc;
  service_times : loc
}.

(** What a call does: return, raise, or not come back within the fuel. *)
Inductive completion (A : Type) : Type :=
  | Returns (a : A)
  | Raises (e : exn)
  | Diverges.
Arguments Returns {A} a.
Arguments Raises {A} e.
Arguments Diverges {A}.

(** The state that outlives a run: the position in the global random
    stream and the heap. *)
Record world : Type := {
  world_random_pos : nat;
  world_heap : heap
}.

Section Runs.

(** The random stream. *)
Variable draws : nat -> Q.

(** [run_single_simulation], lines 88 to 102, on the lists the run left.
    The two list objects are entered in the heap here with their final
    contents: nothing else is allocated while a run lasts. *)
Definition run_statistics (run : Z) (st : state) : proc heap run_stats :=
  let ws := obs_waiting_times st in
  let ss := obs_service_times st in
  let* avg_w := lift (match ws with [] => Ok 0 | _ => mean ws end) in
  let* max_w := lift (match ws with [] => Ok 0 | _ => py_max ws end) in
  let* avg_s := lift (match ss with [] => Ok 0 | _ => mean ss end) in
  let* lw := alloc ws in
  let* ls := alloc ss in
  ret {| run_number := run;
         customers_served := Z.of_nat (length ws);
         avg_waiting_time := avg_w;
         max_waiting_time := max_w;
         avg_service_time := avg_s;
         waiting_times := lw;
         service_times := ls |}.

Definition run_single_simulation (num_tellers : Z)
    (mean_interarrival mean_service_time sim_time : Q) (run : Z)
    (fuel : nat) (w : world) : completion (run_stats * world) :=
  match simulate draws mean_interarrival mean_service_time
                 num_tellers sim_time (world_random_pos w) fuel with
  | Raise e => Raises e
  | Ok (Out_of_fuel _) => Diverges
  | Ok (Crashed e _) => Raises e
  | Ok (Stopped st) =>
      match run_statistics run st (world_heap w) with
      | (Raise e, _) => Raises e
      | (Ok stats, h) =>
          Returns (stats, {| world_random_pos := random_pos st; world_heap := h |})
      end
  end.

(** [range(a, b)]. *)
Definition py_range (a b : Z) : list Z :=
  map (fun i => (a + Z.of_nat i)%Z) (seq 0 (Z.to_nat (b - a))).

(** The [for] loop of [run_multiple_simulations]. *)
Fixpoint simulation_runs (num_tellers : Z)
    (mean_interarrival mean_service_time sim_time : Q) (fuel : nat)
    (runs : list Z) (all_stats : list run_stats) (w : world)
  : completion (list run_stats * world) :=
  match runs with
  | [] => Returns (all_stats, w)
  | run :: rest =>
      match run_single_simulation num_tellers mean_interarrival
              mean_service_time sim_time run fuel w with
      | Returns (stats, w') =>
          simulation_runs num_tellers mean_interarrival mean_service_time
            sim_time fuel rest (all_stats ++ [stats]) w'
      | Raises e => Raises e
      | Diverges => Diverges
      end
  end.

Definition run_multiple_simulations (num_tellers : Z)
    (mean_interarrival mean_service_time sim_time : Q) (num_runs : Z)
    (fuel : nat) (w : world) : completion (list run_stats * world) :=
  simulation_runs num_tellers mean_interarrival mean_service_time sim_time
    fuel (py_range 1 (num_runs + 1)) [] w.

End Runs.

(** ** Aggregation across runs *)

Record overall_stats : Type := {
  total_runs : Z;
  total_customers_served : Z;
  avg_customers_per_run : Q;
  mean_avg_waiting_time : Q;
  std_avg_waiting_time : Q;
  mean_max_waiting_time : Q;
  mean_avg_service_time : Q;
  overall_avg_waiting_time : Q;
  overall_max_waiting_time : Q;
  overall_avg_service_time : Q;
  waiting_time_95ci_low : Q;
  waiting_time_95ci_high : Q
}.

Section Aggregation.

(** [math.sqrt]. *)
Variable sqrt : Q -> Q.

(** [stats['customers_served'] > 0]. *)
Definition served (stats : run_stats) : bool := (0 <? customers_served stats)%Z.

(** The loop of lines 136 to 138. *)
Fixpoint flatten_runs (all_waiting_times all_service_times : loc)
    (all_stats : list run_stats) : proc heap unit :=
  match all_stats with
  | [] => ret tt
  | stats :: rest =>
      let* _ := extend all_waiting_times (waiting_times stats) in
      let* _ := extend all_service_times (service_times stats) in
      flatten_runs all_waiting_times all_service_times rest
  end.

(** The half-width [1.96 * stdev / len ** 0.5] of lines 158 and 159. *)
Definition half_width (data : list Q) : result Q :=
  let+ s := stdev sqrt data in
  float_div ((196 # 100) * s) (sqrt (len data)).

(** Lines 128 to 131 and the dict of lines 140 to 160, given the
    contents of the two flattened lists. *)
Definition overall_record (all_stats : list run_stats) (all_w all_s : list Q)
  : result overall_stats :=
  let avg_waiting_times := map avg_waiting_time (List.filter served all_stats) in
  let max_waiting_times := map max_waiting_time (List.filter served all_stats) in
  let customers := map customers_served all_stats in
  let avg_service_times := map avg_service_time (List.filter served all_stats) in
  let+ avg_customers := mean (map inject_Z customers) in
  let+ mean_avg_w :=
    match avg_waiting_times with [] => Ok 0 | _ => mean avg_waiting_times end in
  let+ std_avg_w :=
    if (1 <? length avg_waiting_times)%nat then stdev sqrt avg_waiting_times else Ok 0 in
  let+ mean_max_w :=
    match max_waiting_times with [] => Ok 0 | _ => mean max_waiting_times end in
  let+ mean_avg_s :=
    match avg_service_times with [] => Ok 0 | _ => mean avg_service_times end in
  let+ overall_avg_w := match all_w with [] => Ok 0 | _ => mean all_w end in
  let+ overall_max_w := match all_w with [] => Ok 0 | _ => py_max all_w end in
  let+ overall_avg_s := match all_s with [] => Ok 0 | _ => mean all_s end in
  let+ ci_low :=
    if (1 <? length avg_waiting_times)%nat then
      let+ m := mean avg_waiting_times in
      let+ hw := half_width avg_waiting_times in
      Ok (m - hw)
    else Ok 0 in
  let+ ci_high :=
    if (1 <? length avg_waiting_times)%nat then
      let+ m := mean avg_waiting_times in
      let+ hw := half_width avg_waiting_times in
      Ok (m + hw)
    else Ok 0 in
  Ok {| total_runs := Z.of_nat (length all_stats);
        total_customers_served := Zsum customers;
        avg_customers_per_run := avg_customers;
        mean_avg_waiting_time := mean_avg_w;
        std_avg_waiting_time := std_avg_w;
        mean_max_waiting_time := mean_max_w;
        mean_avg_service_time := mean_avg_s;
        overall_avg_waiting_time := overall_avg_w;
        overall_max_waiting_time := overall_max_w;
        overall_avg_service_time := overall_avg_s;
        waiting_time_95ci_low := ci_low;
        waiting_time_95ci_high := ci_high |}.

Definition calculate_overall_statistics (all_stats : list run_stats)
  : proc heap (option overall_stats) :=
  match all_stats with
  | [] => ret None
  | _ =>
      let* all_waiting_times := alloc [] in
      let* all_service_times := alloc [] in
      let* _ := flatten_runs all_waiting_times all_service_times all_stats in
      let* all_w := deref all_waiting_times in
      let* all_s := deref all_service_times in
      let* overall := lift (overall_record all_stats all_w all_s) in
      ret (Some overall)
  end.

End Aggregation.

(** * Invariants of a run *)

(** The heap order as a relation. *)
Definition key_lt (a b : event) : Prop := key_ltb a b = true.

(** The requests granted and not yet resumed, in the order they will be. *)
Fixpoint pending_grants (q : list event) : list request :=
  match q with
  | [] => []
  | e :: q' =>
      match ev_action e with
      | Request_granted r => r :: pending_grants q'
      | _ => pending_grants q'
      end
  end.

(** Events that wake a process at a later time; every other event is
    dispatched at the time it was scheduled. *)
Definition is_timer (a : action) : bool :=
  match a with
  | Timeout_arrivals | Timeout_service _ | Stop_simulation => true
  | _ => false
  end.

(** A pending event against the clock and the event counter. *)
Definition event_ok (now : Q) (next_eid : nat) (e : event) : Prop :=
  (ev_eid e < next_eid)%nat
  /\ now <= ev_time e
  /\ (is_timer (ev_action e) = false -> ev_time e == now)
  /\ (forall r, ev_action e = Request_granted r -> ev_priority e = NORMAL).

(** The [until] event is urgent, was the second event scheduled, lies
    strictly ahead of the clock, and the one event scheduled before it is
    due earlier. *)
Definition until_ok (now : Q) (q : list event) (u : event) : Prop :=
  ev_action u = Stop_simulation ->
  ev_priority u = URGENT /\ ev_eid u = 1%nat /\ now < ev_time u
  /\ Forall (fun e => ev_eid e = 0%nat -> ev_time e < ev_time u) q.

(** Well-formedness of the scheduler state. *)
Record queue_ok (st : state) : Prop := {
  q_sorted : StronglySorted key_lt (env_queue st);
  q_events : Forall (event_ok (env_now st) (env_eid st)) (env_queue st);
  q_until : Forall (until_ok (env_now st) (env_queue st)) (env_queue st);
  q_eid : (2 <= env_eid st)%nat
}.

(** ** Reading the history of a run *)

(** Customers in the order they arrived and issued their request. *)
Definition arrived (tr : list line) : list nat :=
  flat_map (fun l => match l with Arrives id _ => [id] | _ => [] end) tr.

(** Customers in the order they started service. *)
Definition started (tr : list line) : list nat :=
  flat_map (fun l => match l with Starts_service id _ _ => [id] | _ => [] end) tr.

(** Customers in the order they left. *)
Definition departed (tr : list line) : list nat :=
  flat_map (fun l => match l with Leaves id _ => [id] | _ => [] end) tr.

(** The waits printed on the service-start lines, in order. *)
Definition recorded_waits (tr : list line) : list Q :=
  flat_map (fun l => match l with Starts_service _ _ w => [w] | _ => [] end) tr.

(** The times printed on the service-start lines, in order. *)
Definition start_times (tr : list line) : list Q :=
  flat_map (fun l => match l with Starts_service _ t _ => [t] | _ => [] end) tr.

(** Customers spawned whose generator has not run yet. *)
Definition pending_arrivals (q : list event) : list nat :=
  flat_map (fun e => match ev_action e with Initialize_customer id => [id] | _ => [] end) q.

(** Customers granted a teller and not yet resumed, in grant order. *)
Definition granted_ids (st : state) : list nat :=
  map req_customer (pending_grants (env_queue st)).

(** Customers waiting in the resource's queue, head first. *)
Definition waiting_ids (st : state) : list nat :=
  map req_customer (bank_put_queue st).

(** A generator has raised and the crash is still to be dispatched. *)
Definition failure_pending (q : list event) : Prop :=
  Exists (fun e => exists x, ev_action e = Process_failed x) q.

(** The history of the run against the resource and the recorded lists. *)
Record history_ok (st : state) : Prop := {
  h_fifo :
    arrived (verbose_trace st)
    = started (verbose_trace st) ++ granted_ids st ++ waiting_ids st;
  h_nodup : NoDup (arrived (verbose_trace st) ++ pending_arrivals (env_queue st));
  h_ids : Forall (fun id => (id <= gen_customer_id st)%nat)
                 (arrived (verbose_trace st) ++ pending_arrivals (env_queue st));
  h_waits : obs_waiting_times st = recorded_waits (verbose_trace st);
  h_clock : Forall (fun t => t <= env_now st) (start_times (verbose_trace st));
  h_sorted : StronglySorted Qle (start_times (verbose_trace st))
}.

(** Both lists have one entry per service start, unless a crash is due. *)
Definition lengths_ok (st : state) : Prop :=
  length (obs_service_times st) = length (obs_waiting_times st)
  \/ failure_pending (env_queue st).

(** The tellers in use never exceed the capacity. *)
Definition capacity_ok (st : state) : Prop :=
  (Z.of_nat (length (bank_users st)) <= bank_capacity st)%Z.

(** Recorded times are non-negative, and no pending request claims an
    arrival later than the clock. *)
Record observations_ok (st : state) : Prop := {
  o_waits : Forall (fun w => 0 <= w) (obs_waiting_times st);
  o_services : Forall (fun s => 0 <= s) (obs_service_times st);
  o_queued : Forall (fun r => req_arrival_time r <= env_now st) (bank_put_queue st);
  o_granted :
    Forall (fun e => forall r, ev_action e = Request_granted r ->
                               req_arrival_time r <= env_now st)
           (env_queue st)
}.

(** The state in which [env.run] enters its loop. *)
Definition initial_state (num_tellers : Z) (sim_time : Q) (pos : nat) : state :=
  schedule URGENT (sim_time - 0) Stop_simulation
    (schedule URGENT 0 Initialize_arrivals
       {| env_now := 0; env_queue := []; env_eid := 0%nat;
          bank_capacity := num_tellers; bank_users := []; bank_put_queue := [];
          gen_customer_id := 0%nat; random_pos := pos;
          obs_waiting_times := []; obs_service_times := []; verbose_trace := [] |}).

(** What holds of the state at every step of every run. *)
Definition run_ok (num_tellers : Z) (st : state) : Prop :=
  queue_ok st /\ history_ok st /\ capacity_ok st /\ bank_capacity st = num_tellers.

(** * Run results in the heap *)

(** Every list a run result refers to exists in the heap. *)
Definition valid_refs (h : heap) (all_stats : list run_stats) : Prop :=
  Forall (fun s => is_Some (h !! waiting_times s) /\ is_Some (h !! service_times s))
         all_stats.

(** The contents of a list object (empty for a missing one). *)
Definition contents (h : heap) (l : loc) : list Q := default [] (h !! l).

(** What flattening reads: the referenced lists, one after the other. *)
Definition flattened (field : run_stats -> loc) (h : heap) (all_stats : list run_stats)
  : list Q :=
  concat (map (fun s => contents h (field s)) all_stats).

(** The two recorded sequences of a run result, read from a heap. *)
Definition run_sequences (h : heap) (s : run_stats)
  : option (list Q) * option (list Q) :=
  (h !! waiting_times s, h !! service_times s).

(** * Configurations *)

(** The configuration the specification calls valid. *)
Definition valid_configuration (num_tellers : Z)
    (mean_interarrival mean_service_time sim_time : Q) (num_runs : Z) : Prop :=
  (1 <= num_tellers)%Z /\ 0 < mean_interarrival /\ 0 < mean_service_time
  /\ 0 < sim_time /\ (1 <= num_runs)%Z.

(** * Inputs for the worked examples *)

(** A random stream: gaps and service times drawn in program order. *)
Definition example_draws (n : nat) : Q := nth n [1; 1; 3; 1; 1; 1; 1; 1] 2.

(** A stream whose first inter-arrival gap is past any short cutoff. *)
Definition sparse_draws (n : nat) : Q := 20.

(** A stream of equal draws. *)
Definition steady_draws (n : nat) : Q := 2.

(** A world with nothing allocated and the stream at its start. *)
Definition empty_world : world := {| world_random_pos := 0; world_heap := ∅ |}.

(** The identity stands in for [math.sqrt] where its value does not matter. *)
Definition example_sqrt (x : Q) : Q := x.

(** A run result with no customer, one with one customer, and a heap
    holding their lists. *)
Definition example_zero_run : run_stats :=
  {| run_number := 1; customers_served := 0; avg_waiting_time := 0;
     max_waiting_time := 0; avg_service_time := 0;
     waiting_times := 0%nat; service_times := 1%nat |}.

Definition example_busy_run : run_stats :=
  {| run_number := 2; customers_served := 1; avg_waiting_time := 3;
     max_waiting_time := 3; avg_service_time := 2;
     waiting_times := 2%nat; service_times := 3%nat |}.

Definition example_heap : heap :=
  <[0%nat := []]> (<[1%nat := []]> (<[2%nat := [3]]> (<[3%nat := [2]]> ∅))).

(** * Further predicates *)

(** The list objects a list of run results refers to. *)
Definition result_refs (all_stats : list run_stats) : list loc :=
  flat_map (fun s => [waiting_times s; service_times s]) all_stats.

(** A run result against the heap [h] it lives in and the heap [h0] the
    runs started from: its two lists exist, were not there before,
    have the same length, and [customers_served] is that length. *)
Definition result_ok (h0 h : heap) (s : run_stats) : Prop :=
  exists ws ss,
    h !! waiting_times s = Some ws /\ h !! service_times s = Some ss
    /\ customers_served s = Z.of_nat (length ws) /\ length ss = length ws
    /\ h0 !! waiting_times s = None /\ h0 !! service_times s = None.

(** The three summary entries of a run result against its lists in the
    heap: each is what the guarded expression of lines 92 to 94 gives. *)
Definition summary_ok (h : heap) (s : run_stats) : Prop :=
  exists ws ss,
    h !! waiting_times s = Some ws /\ h !! service_times s = Some ss
    /\ match ws with [] => Ok 0 | _ => mean ws end = Ok (avg_waiting_time s)
    /\ match ws with [] => Ok 0 | _ => py_max ws end = Ok (max_waiting_time s)
    /\ match ss with [] => Ok 0 | _ => mean ss end = Ok (avg_service_time s).

(** A stand-in for [math.sqrt] that is positive everywhere. *)
Definition unit_sqrt (x : Q) : Q := 1.

(** * The report and the main program *)

(** The lines [display_results] and the main program print, each with the
    values it formats; the formatting itself is not modelled. *)
Inductive report_line : Type :=
  | Rule                                       (* sixty [=] signs *)
  | Final_results (runs : Z)
  | Number_of_tellers (n : Z)
  | Total_customers_served (n : Z)
  | Average_customers_per_run (x : Q)
  | Waiting_time_heading
  | Average_waiting_time (m sd : Q)
  | Confidence_interval (low high : Q)
  | Average_maximum_waiting_time (x : Q)
  | Overall_average_waiting_time (x : Q)
  | Overall_maximum_waiting_time (x : Q)
  | Service_time_heading
  | Average_service_time (x : Q)
  | Overall_average_service_time (x : Q)
  | Individual_runs_heading
  | Run_result (run served : Z) (avg_wait max_wait : Q)
  | Run_without_customers (run : Z)
  | Simulation_complete.

(** What ends the main program early: an exception out of the runs or the
    aggregation, or the [TypeError] of subscripting [None]. *)
Inductive program_exn : Type :=
  | Run_error (e : exn)
  | TypeError.

(** The line of one run, lines 189 to 194. *)
Definition run_line (stats : run_stats) : report_line :=
  if (0 <? customers_served stats)%Z then
    Run_result (run_number stats) (customers_served stats)
      (avg_waiting_time stats) (max_waiting_time stats)
  else Run_without_customers (run_number stats).

(** [display_results]: the lines printed, and the exception if one ends
    the call.  [overall_stats] is what [calculate_overall_statistics]
    returned, [None] included: the first rule is printed before
    [overall_stats['total_runs']] is evaluated. *)
Definition display_results (all_stats : list run_stats)
    (overall_stats : option overall_stats) (num_tellers : Z)
  : list report_line * option program_exn :=
  match overall_stats with
  | None => ([Rule], Some TypeError)
  | Some o =>
      ([Rule; Final_results (total_runs o); Rule;
        Number_of_tellers num_tellers;
        Total_customers_served (total_customers_served o);
        Average_customers_per_run (avg_customers_per_run o);
        Waiting_time_heading;
        Average_waiting_time (mean_avg_waiting_time o) (std_avg_waiting_time o);
        Confidence_interval (waiting_time_95ci_low o) (waiting_time_95ci_high o);
        Average_maximum_waiting_time (mean_max_waiting_time o);
        Overall_average_waiting_time (overall_avg_waiting_time o);
        Overall_maximum_waiting_time (overall_max_waiting_time o);
        Service_time_heading;
        Average_service_time (mean_avg_service_time o);
        Overall_average_service_time (overall_avg_service_time o);
        Individual_runs_heading]
       ++ map run_line all_stats, None)
  end.

(** How the main program ends. *)
Inductive program_end : Type :=
  | Completes
  | Fails (e : program_exn)
  | Hangs.

Section Main.

Variable sqrt : Q -> Q.
Variable draws : nat -> Q.

(** The main program from line 206 on, for the parameters that
    [get_simulation_parameters] returned: the report lines printed from
    [display_results] on, and how the program ends. *)
Definition main_program (num_tellers : Z)
    (mean_interarrival mean_service_time sim_time : Q) (num_runs : Z)
    (fuel : nat) (w : world) : list report_line * program_end :=
  match run_multiple_simulations draws num_tellers mean_interarrival
          mean_service_time sim_time num_runs fuel w with
  | Raises e => ([], Fails (Run_error e))
  | Diverges => ([], Hangs)
  | Returns (all_stats, w') =>
      match calculate_overall_statistics sqrt all_stats (world_heap w') with
      | (Raise e, _) => ([], Fails (Run_error e))
      | (Ok overall, _) =>
          match display_results all_stats overall num_tellers with
          | (out, Some e) => (out, Fails e)
          | (out, None) => (out ++ [Rule; Simulation_complete; Rule], Completes)
          end
      end
  end.

End Main.

(** * Runs of a valid configuration *)

(** No generator has failed. *)
Definition no_failure (q : list event) : Prop :=
  Forall (fun e => forall x, ev_action e <> Process_failed x) q.

(** The [until] event is pending and due at [sim_time]. *)
Definition stop_pending (sim_time : Q) (q : list event) : Prop :=
  Exists (fun e => ev_action e = Stop_simulation /\ ev_time e == sim_time) q.

(** What holds at every step of a run of a valid configuration: the
    scheduler is well formed, no generator has failed, and the [until]
    event is pending. *)
Definition valid_run_ok (sim_time : Q) (st : state) : Prop :=
  queue_ok st /\ no_failure (env_queue st) /\ stop_pending sim_time (env_queue st).

(** * More invariants of a run *)

(** A release whose callback has not yet looked at the queue. *)
Definition is_release (e : event) : bool :=
  match ev_action e with
  | Release_done => true
  | _ => false
  end.

Definition pending_releases (q : list event) : nat := length (List.filter is_release q).

(** Nobody queues while a teller is free, except for the instant between
    a release and its callback. *)
Definition work_conserving (st : state) : Prop :=
  bank_put_queue st = []
  \/ (bank_capacity st - Z.of_nat (length (bank_users st))
      <= Z.of_nat (pending_releases (env_queue st)))%Z.

(** The time printed on a line. *)
Definition line_time (l : line) : Q :=
  match l with
  | Arrives _ t => t
  | Starts_service _ t _ => t
  | Leaves _ t => t
  end.

(** The printed times never run backwards and never pass the clock, and
    the [until] event is pending, due at the cutoff. *)
Record trace_ok (sim_time : Q) (st : state) : Prop := {
  t_sorted : StronglySorted Qle (map line_time (verbose_trace st));
  t_clock : Forall (fun l => 0 <= line_time l <= env_now st) (verbose_trace st);
  t_now : 0 <= env_now st;
  t_pending : stop_pending sim_time (env_queue st)
}.

(** Every request carries the time printed on its customer's arrival
    line, and every service-start line reports the time since then. *)
Record waits_ok (st : state) : Prop := {
  w_queued :
    Forall (fun r => In (Arrives (req_customer r) (req_arrival_time r)) (verbose_trace st))
           (bank_put_queue st);
  w_granted :
    Forall (fun e => forall r, ev_action e = Request_granted r ->
                     In (Arrives (req_customer r) (req_arrival_time r)) (verbose_trace st))
           (env_queue st);
  w_started :
    forall i id t w,
      verbose_trace st !! i = Some (Starts_service id t w) ->
      exists j ta, (j < i)%nat /\ verbose_trace st !! j = Some (Arrives id ta)
                   /\ w = t - ta
}.

(** The events the arrival generator can be suspended on. *)
Definition is_generator_event (e : event) : bool :=
  match ev_action e with
  | Initialize_arrivals | Timeout_arrivals => true
  | _ => false
  end.

(** Only the first resumption of a process and the [until] event are
    urgent. *)
Definition urgent_ok (e : event) : Prop :=
  ev_priority e = URGENT ->
  ev_action e = Initialize_arrivals
  \/ (exists id, ev_action e = Initialize_customer id)
  \/ ev_action e = Stop_simulation.

(** Customers are numbered in the order they are spawned, and a spawned
    customer runs before anything else happens. *)
Record numbering_ok (st : state) : Prop := {
  n_tokens : (length (List.filter is_generator_event (env_queue st)) <= 1)%nat;
  n_urgent : Forall urgent_ok (env_queue st);
  n_spawned :
    Forall (fun e => forall id, ev_action e = Initialize_customer id ->
                     ev_priority e = URGENT)
           (env_queue st);
  n_head :
    match env_queue st with
    | [] => True
    | _ :: q => pending_arrivals q = []
    end;
  n_seq :
    arrived (verbose_trace st) ++ pending_arrivals (env_queue st)
    = seq 1 (gen_customer_id st)
}.

(** Customers in service: those whose service timeout is pending. *)
Definition service_ids (q : list event) : list nat :=
  flat_map (fun e => match ev_action e with Timeout_service id => [id] | _ => [] end) q.

(** The tellers are held by the customers granted one and not yet
    resumed and by those in service, and the customers in service are
    those that started and have not left. *)
Record tellers_ok (st : state) : Prop := {
  u_users : Permutation (bank_users st) (granted_ids st ++ service_ids (env_queue st));
  u_count :
    length (started (verbose_trace st))
    = (length (departed (verbose_trace st)) + length (service_ids (env_queue st)))%nat
}.

(** Customer [id] started service at [t], on a line printed before
    position [bound], and [s] is the service time recorded for it: the
    entry of [service_times] at the customer's position among the
    service starts. *)
Definition service_record (tr : list line) (ss : list Q) (bound : nat)
    (id : nat) (t s : Q) : Prop :=
  exists j k w,
    (j < bound)%nat /\ tr !! j = Some (Starts_service id t w)
    /\ started tr !! k = Some id /\ ss !! k = Some s.

(** Every service timeout is due, and every departure was printed, one
    service time after the service start. *)
Record service_ok (st : state) : Prop := {
  s_length : length (obs_service_times st) = length (started (verbose_trace st));
  s_timers :
    Forall (fun e => forall id, ev_action e = Timeout_service id ->
              exists t s,
                service_record (verbose_trace st) (obs_service_times st)
                  (length (verbose_trace st)) id t s
                /\ ev_time e == t + s)
           (env_queue st);
  s_left :
    forall i id t',
      verbose_trace st !! i = Some (Leaves id t') ->
      exists t s,
        service_record (verbose_trace st) (obs_service_times st) i id t s
        /\ t' == t + s
}.

(** While no more customers have arrived than there are tellers, nobody
    queues: every grant is made at the arrival, and every wait is zero. *)
Record idle_ok (st : state) : Prop := {
  i_users :
    (length (bank_users st)
     <= length (granted_ids st) + length (started (verbose_trace st)))%nat;
  i_free :
    (Z.of_nat (length (arrived (verbose_trace st))) <= bank_capacity st)%Z ->
    bank_put_queue st = []
    /\ Forall (fun e => forall r, ev_action e = Request_granted r ->
                        ev_time e == req_arrival_time r)
              (env_queue st)
    /\ Forall (fun w => w == 0) (obs_waiting_times st)
}.

(** The draws a run has consumed from position [pos]: none before the
    arrival generator first runs; after that one per resumption of the
    generator and one per service time recorded. *)
Definition draws_ok (pos : nat) (st : state) : Prop :=
  (exists e q, env_queue st = e :: q /\ ev_action e = Initialize_arrivals
               /\ Forall (fun x => ev_action x <> Initialize_arrivals) q
               /\ random_pos st = pos /\ gen_customer_id st = 0%nat
               /\ obs_service_times st = [])
  \/ (Forall (fun e => ev_action e <> Initialize_arrivals) (env_queue st)
      /\ random_pos st
         = (pos + 1 + gen_customer_id st + length (obs_service_times st))%nat).

(** * What a run prints *)

(** The output of [run_single_simulation]: the header of lines 75 to 76,
    the lines of the customers, and the summary of lines 99 to 100. *)
Inductive run_print : Type :=
  | Run_header (run : Z)
  | Customer_line (l : line)
  | Run_summary (run : Z) (customers : Z) (avg_wait : Q).

(** What [run_single_simulation] has printed when it returns, raises or
    runs out of fuel: nothing unless [verbose]; the header comes before
    the environment and the resource are created, the summary after the
    statistics, for a run with a customer served. *)
Definition run_single_simulation_output (draws : nat -> Q) (num_tellers : Z)
    (mean_interarrival mean_service_time sim_time : Q) (run : Z) (verbose : bool)
    (fuel : nat) (w : world) : list run_print :=
  if verbose then
    Run_header run ::
    match simulate draws mean_interarrival mean_service_time num_tellers sim_time
            (world_random_pos w) fuel with
    | Raise _ => []
    | Ok o =>
        map Customer_line (verbose_trace (outcome_state o))
        ++ match o with
           | Stopped st =>
               match obs_waiting_times st with
               | [] => []
               | _ :: _ =>
                   match mean (obs_waiting_times st) with
                   | Ok avg =>
                       [Run_summary run (Z.of_nat (length (obs_waiting_times st))) avg]
                   | Raise _ => []
                   end
               end
           | Crashed _ _ | Out_of_fuel _ => []
           end
    end
  else [].

(** A stream whose first draw is zero. *)
Definition zero_first_draws (n : nat) : Q :=
  match n with
  | O => 0
  | S _ => 1
  end.

(** * The events a customer causes *)

(** An upper bound on the turns of the scheduler that a pending event
    can still cause, itself included, short of spawning a customer: a
    failure and the [until] event end the loop, and the generator's timer
    costs nothing by itself. *)
Definition action_cost (a : action) : nat :=
  match a with
  | Initialize_arrivals => 1
  | Timeout_arrivals => 0
  | Initialize_customer _ => 5
  | Request_granted _ => 4
  | Timeout_service _ => 3
  | Release_done => 1
  | Process_end => 1
  | Process_failed _ => 0
  | Stop_simulation => 0
  end.

Definition work_pending (st : state) : nat :=
  list_sum (map (fun e => action_cost (ev_action e)) (env_queue st))
  + 4 * length (bank_put_queue st).

(** * Properties of the aggregation *)

Lemma flattened_ext (field : run_stats -> loc) (h1 h2 : heap) (all_stats : list run_stats) :
  Forall (fun s => h1 !! field s = h2 !! field s) all_stats ->
  flattened field h1 all_stats = flattened field h2 all_stats.
Proof.
  unfold flattened, contents. induction 1 as [|s rest Hs _ IH]; simpl.
  - reflexivity.
  - rewrite Hs, IH. reflexivity.
Qed.

Lemma alloc_spec (l : list Q) (h : heap) :
  exists r, alloc l h = (Ok r, <[r := l]> h) /\ h !! r = None.
Proof.
  exists (fresh (dom h)). split; [reflexivity|].
  apply not_elem_of_dom, is_fresh.
Qed.

Lemma extend_spec (dst src : loc) (h : heap) (a b : list Q) :
  h !! dst = Some a -> h !! src = Some b ->
  extend dst src h = (Ok tt, <[dst := a ++ b]> h).
Proof.
  intros Ha Hb. unfold extend, bind, deref, effect. rewrite Ha, Hb. reflexivity.
Qed.

Lemma flatten_runs_spec (lw ls : loc) (all_stats : list run_stats) :
  lw <> ls ->
  forall (h : heap) (a b : list Q),
    h !! lw = Some a -> h !! ls = Some b ->
    Forall (fun s => (is_Some (h !! waiting_times s) /\ is_Some (h !! service_times s))
                     /\ waiting_times s <> lw /\ waiting_times s <> ls
                     /\ service_times s <> lw /\ service_times s <> ls) all_stats ->
    exists h', flatten_runs lw ls all_stats h = (Ok tt, h')
               /\ h' !! lw = Some (a ++ flattened waiting_times h all_stats)
               /\ h' !! ls = Some (b ++ flattened service_times h all_stats)
               /\ forall k, k <> lw -> k <> ls -> h' !! k = h !! k.
Proof.
  intros Hne. induction all_stats as [|s rest IH]; intros h a b Ha Hb Hall.
  - exists h. unfold flattened. simpl. rewrite !app_nil_r. auto.
  - pose proof (Forall_inv Hall) as [[[ws Hws] [ss Hss]] (Hw1 & Hw2 & Hs1 & Hs2)].
    pose proof (Forall_inv_tail Hall) as Hrest.
    set (h1 := <[lw := a ++ ws]> h).
    set (h2 := <[ls := b ++ ss]> h1).
    assert (Hother : forall k, k <> lw -> k <> ls -> h2 !! k = h !! k).
    { intros k H1 H2. unfold h2, h1.
      rewrite lookup_insert_ne by congruence. rewrite lookup_insert_ne by congruence.
      reflexivity. }
    destruct (IH h2 (a ++ ws) (b ++ ss)) as (h' & Hrun & Hlw & Hls & Hk).
    + unfold h2, h1. rewrite lookup_insert_ne by congruence. apply lookup_insert_eq.
    + unfold h2. apply lookup_insert_eq.
    + eapply Forall_impl; [exact Hrest|]. intros s' ((Hv1 & Hv2) & Hd).
      split; [|exact Hd].
      destruct Hd as (? & ? & ? & ?). rewrite !Hother by assumption. auto.
    + exists h'. split; [|split; [|split]].
      * simpl. unfold bind at 1. rewrite (extend_spec _ _ _ a ws) by assumption.
        unfold bind at 1. fold h1.
        rewrite (extend_spec _ _ _ b ss).
        -- exact Hrun.
        -- unfold h1. rewrite lookup_insert_ne by congruence. exact Hb.
        -- unfold h1. rewrite lookup_insert_ne by congruence. exact Hss.
      * rewrite Hlw. unfold flattened. simpl. unfold contents at 2. rewrite Hws. simpl.
        rewrite <- app_assoc. do 3 f_equal.
        apply flattened_ext. eapply Forall_impl; [exact Hrest|].
        intros s' (_ & ? & ? & _). apply Hother; assumption.
      * rewrite Hls. unfold flattened. simpl. unfold contents at 2. rewrite Hss. simpl.
        rewrite <- app_assoc. do 3 f_equal.
        apply flattened_ext. eapply Forall_impl; [exact Hrest|].
        intros s' (_ & _ & _ & ? & ?). apply Hother; assumption.
      * intros k H1 H2. rewrite Hk by assumption. apply Hother; assumption.
Qed.

Section AggregationFacts.

Variable sqrt : Q -> Q.

(** The call as a function of the run results and the lists they refer
    to: the heap only grows by the two flattened lists. *)
Lemma calculate_overall_statistics_spec (all_stats : list run_stats) (h : heap) :
  all_stats <> [] ->
  valid_refs h all_stats ->
  exists h',
    calculate_overall_statistics sqrt all_stats h
    = (match overall_record sqrt all_stats (flattened waiting_times h all_stats)
               (flattened service_times h all_stats) with
       | Ok r => Ok (Some r)
       | Raise e => Raise e
       end, h')
    /\ forall k, is_Some (h !! k) -> h' !! k = h !! k.
Proof.
  intros Hne Hvalid.
  destruct (alloc_spec [] h) as (lw & Hlw & Hfw).
  destruct (alloc_spec [] (<[lw := []]> h)) as (ls & Hls & Hfs).
  assert (Hwls : lw <> ls).
  { intros ->. rewrite lookup_insert_eq in Hfs. discriminate. }
  assert (Hfs' : h !! ls = None).
  { rewrite lookup_insert_ne in Hfs by exact Hwls. exact Hfs. }
  set (h2 := <[ls := []]> (<[lw := []]> h)).
  assert (Hold : forall k, is_Some (h !! k) -> k <> lw /\ k <> ls /\ h2 !! k = h !! k).
  { intros k [v Hv].
    assert (k <> lw) by (intros ->; congruence).
    assert (k <> ls) by (intros ->; congruence).
    repeat split; try assumption. unfold h2.
    rewrite lookup_insert_ne by congruence. rewrite lookup_insert_ne by congruence.
    reflexivity. }
  destruct (flatten_runs_spec lw ls all_stats Hwls h2 [] [])
    as (h3 & Hrun & H3w & H3s & H3k).
  { unfold h2. rewrite lookup_insert_ne by congruence. apply lookup_insert_eq. }
  { unfold h2. apply lookup_insert_eq. }
  { eapply Forall_impl; [exact Hvalid|]. intros s [Hw Hs].
    destruct (Hold _ Hw) as (? & ? & Ew). destruct (Hold _ Hs) as (? & ? & Es).
    rewrite Ew, Es. auto. }
  simpl in H3w, H3s.
  rewrite (flattened_ext waiting_times h2 h) in H3w
    by (eapply Forall_impl; [exact Hvalid|]; intros s [Hw _]; apply (Hold _ Hw)).
  rewrite (flattened_ext service_times h2 h) in H3s
    by (eapply Forall_impl; [exact Hvalid|]; intros s [_ Hs]; apply (Hold _ Hs)).
  exists h3. split.
  - destruct all_stats as [|s0 rest]; [congruence|].
    unfold calculate_overall_statistics.
    unfold bind at 1. rewrite Hlw.
    unfold bind at 1. rewrite Hls. fold h2.
    unfold bind at 1. rewrite Hrun.
    unfold bind at 1. unfold deref at 1. rewrite H3w.
    unfold bind at 1. unfold deref at 1. rewrite H3s.
    unfold bind, lift, ret.
    destruct (overall_record _ _ _ _); reflexivity.
  - intros k Hk. destruct (Hold _ Hk) as (? & ? & E).
    etransitivity; [apply H3k; assumption | exact E].
Qed.

End AggregationFacts.

Lemma mean_nonempty (data : list Q) :
  data <> [] -> mean data = Ok (Qsum data / len data).
Proof. destruct data; [congruence | reflexivity]. Qed.

Lemma guarded_mean_ok (data : list Q) :
  exists v, match data with [] => Ok 0 | _ :: _ => mean data end = Ok v.
Proof. destruct data; eexists; reflexivity. Qed.

Lemma guarded_max_ok (data : list Q) :
  exists v, match data with [] => Ok 0 | _ :: _ => py_max data end = Ok v.
Proof. destruct data; eexists; reflexivity. Qed.

Lemma Qsum_inject_Z_from (l : list Z) (acc : Q) (accz : Z) :
  acc == inject_Z accz ->
  fold_left Qplus (map inject_Z l) acc == inject_Z (fold_left Z.add l accz).
Proof.
  revert acc accz. induction l as [|x l IH]; intros acc accz Hacc; simpl.
  - exact Hacc.
  - apply IH. rewrite inject_Z_plus, Hacc. reflexivity.
Qed.

Lemma Qsum_inject_Z (l : list Z) : Qsum (map inject_Z l) == inject_Z (Zsum l).
Proof. apply Qsum_inject_Z_from. reflexivity. Qed.

Lemma filter_served_zero (l1 l2 : list run_stats) (z : run_stats) :
  customers_served z = 0%Z ->
  List.filter served (l1 ++ z :: l2) = List.filter served (l1 ++ l2).
Proof.
  intros Hz. rewrite !List.filter_app. simpl. unfold served at 2. rewrite Hz. reflexivity.
Qed.

Lemma Zsum_from (l : list Z) (acc : Z) : fold_left Z.add l acc = (acc + Zsum l)%Z.
Proof.
  unfold Zsum. revert acc. induction l as [|x l IH]; intros acc; simpl.
  - lia.
  - rewrite (IH (acc + x)%Z). change (0 + x)%Z with x. rewrite (IH x). lia.
Qed.

Lemma Zsum_app (l1 l2 : list Z) : Zsum (l1 ++ l2) = (Zsum l1 + Zsum l2)%Z.
Proof. unfold Zsum at 1. rewrite fold_left_app. rewrite Zsum_from. reflexivity. Qed.

Lemma Zsum_cons (x : Z) (l : list Z) : Zsum (x :: l) = (x + Zsum l)%Z.
Proof. unfold Zsum at 1. simpl. apply Zsum_from. Qed.

Section AggregationClaims.

Variable sqrt : Q -> Q.

(** With fewer than two qualifying runs the record is always built, and
    its deviation and interval entries are the literal zero. *)
Lemma overall_record_few (all_stats : list run_stats) (all_w all_s : list Q) :
  all_stats <> [] ->
  (length (List.filter served all_stats) < 2)%nat ->
  exists r, overall_record sqrt all_stats all_w all_s = Ok r
            /\ std_avg_waiting_time r = 0
            /\ waiting_time_95ci_low r = 0
            /\ waiting_time_95ci_high r = 0.
Proof.
  intros Hne Hfew. unfold overall_record.
  rewrite mean_nonempty by (destruct all_stats; [congruence | discriminate]).
  rewrite !length_map.
  replace (1 <? length (List.filter served all_stats))%nat with false
    by (symmetry; apply Nat.ltb_ge; lia).
  simpl result_bind.
  destruct (guarded_mean_ok (map avg_waiting_time (List.filter served all_stats))) as [v1 ->].
  destruct (guarded_mean_ok (map max_waiting_time (List.filter served all_stats))) as [v2 ->].
  destruct (guarded_mean_ok (map avg_service_time (List.filter served all_stats))) as [v3 ->].
  destruct (guarded_mean_ok all_w) as [v4 ->].
  destruct (guarded_max_ok all_w) as [v5 ->].
  destruct (guarded_mean_ok all_s) as [v6 ->].
  simpl. eexists. split; [reflexivity|]. simpl. auto.
Qed.

End AggregationClaims.

Section AggregationExclusion.

Variable sqrt : Q -> Q.

Ltac step_record H :=
  match type of H with
  | result_bind ?x _ = _ =>
      let v := fresh "v" in
      let E := fresh "E" in
      destruct x as [v|] eqn:E; simpl result_bind in H; [|discriminate H]
  end.

(** A run with no customer, put anywhere among other runs, changes none
    of the across-run entries; it counts as a run. *)
Lemma overall_record_zero_run (l1 l2 : list run_stats) (z : run_stats)
    (w' s' w s : list Q) (r' : overall_stats) :
  customers_served z = 0%Z ->
  l1 ++ l2 <> [] ->
  overall_record sqrt (l1 ++ z :: l2) w' s' = Ok r' ->
  exists r, overall_record sqrt (l1 ++ l2) w s = Ok r
            /\ mean_avg_waiting_time r' = mean_avg_waiting_time r
            /\ std_avg_waiting_time r' = std_avg_waiting_time r
            /\ mean_max_waiting_time r' = mean_max_waiting_time r
            /\ mean_avg_service_time r' = mean_avg_service_time r
            /\ total_customers_served r' = total_customers_served r
            /\ total_runs r' = (total_runs r + 1)%Z.
Proof.
  intros Hz Hne H. unfold overall_record in *.
  rewrite (filter_served_zero l1 l2 z Hz) in H.
  rewrite mean_nonempty
    by (intros Hm; apply Hne; destruct (l1 ++ l2); [reflexivity | discriminate Hm]).
  simpl result_bind.
  step_record H. step_record H. step_record H. step_record H. step_record H.
  step_record H. step_record H. step_record H. step_record H. step_record H.
  destruct (guarded_mean_ok w) as [x1 ->].
  destruct (guarded_max_ok w) as [x2 ->].
  destruct (guarded_mean_ok s) as [x3 ->].
  simpl result_bind.
  injection H as <-. eexists. split; [reflexivity|]. simpl.
  repeat split.
  - rewrite !map_app, !Zsum_app. simpl map. rewrite Zsum_cons, Hz. lia.
  - rewrite !length_app. simpl length. lia.
Qed.

Lemma overall_record_only_zero_runs (all_stats : list run_stats)
    (w s : list Q) (r : overall_stats) :
  Forall (fun z => customers_served z = 0%Z) all_stats ->
  overall_record sqrt all_stats w s = Ok r ->
  mean_avg_waiting_time r = 0 /\ std_avg_waiting_time r = 0
  /\ mean_max_waiting_time r = 0 /\ mean_avg_service_time r = 0.
Proof.
  intros Hall.
  assert (Hf : List.filter served all_stats = []).
  { induction Hall as [|z l Hz _ IH]; simpl; [reflexivity|].
    unfold served at 1. rewrite Hz. exact IH. }
  intros H. unfold overall_record in H.
  rewrite Hf in H. simpl map in H. simpl length in H.
  change (1 <? 0)%nat with false in H. cbv iota in H.
  step_record H. simpl result_bind in H.
  step_record H. step_record H. step_record H.
  injection H as <-. simpl. auto.
Qed.

Lemma overall_record_counts (all_stats : list run_stats) (w s : list Q)
    (r : overall_stats) :
  overall_record sqrt all_stats w s = Ok r ->
  total_runs r = Z.of_nat (length all_stats)
  /\ total_customers_served r = Zsum (map customers_served all_stats)
  /\ avg_customers_per_run r
     == inject_Z (total_customers_served r) / inject_Z (total_runs r).
Proof.
  intros H. unfold overall_record in H.
  step_record H. step_record H. step_record H. step_record H. step_record H.
  step_record H. step_record H. step_record H. step_record H. step_record H.
  injection H as <-. simpl. repeat split.
  unfold mean in E. destruct (_ <? _)%nat; [discriminate|].
  injection E as <-. rewrite Qsum_inject_Z. unfold len. rewrite !length_map.
  reflexivity.
Qed.

End AggregationExclusion.

(** * The event heap *)

Lemma key_ltb_spec (a b : event) :
  key_ltb a b = true <->
  ev_time a < ev_time b
  \/ (ev_time a == ev_time b
      /\ ((ev_priority a < ev_priority b)%nat
          \/ (ev_priority a = ev_priority b /\ (ev_eid a < ev_eid b)%nat))).
Proof.
  unfold key_ltb.
  destruct (Qcompare_spec (ev_time a) (ev_time b)) as [He|Hl|Hg].
  - rewrite orb_true_iff, andb_true_iff, !Nat.ltb_lt, Nat.eqb_eq.
    split.
    + intros H. right. split; [exact He | exact H].
    + intros [H|[_ H]]; [lra | exact H].
  - split; [intros _; left; exact Hl | reflexivity].
  - split; [discriminate | intros [H|[H _]]; lra].
Qed.

Lemma key_lt_trans (a b c : event) : key_lt a b -> key_lt b c -> key_lt a c.
Proof.
  unfold key_lt. rewrite !key_ltb_spec.
  intros [H1|[E1 H1]] [H2|[E2 H2]].
  - left. lra.
  - left. lra.
  - left. lra.
  - right. split; [lra | lia].
Qed.

Lemma key_lt_total (a b : event) :
  ev_eid a <> ev_eid b -> key_ltb a b = false -> key_lt b a.
Proof.
  intros Hne Hf. unfold key_lt. rewrite key_ltb_spec.
  assert (Hn : ~ key_ltb a b = true) by (rewrite Hf; discriminate).
  rewrite key_ltb_spec in Hn.
  destruct (Qcompare_spec (ev_time a) (ev_time b)) as [He|Hl|Hg].
  - right. split; [lra|].
    destruct (lt_eq_lt_dec (ev_priority a) (ev_priority b)) as [[Hp|Hp]|Hp].
    + exfalso. apply Hn. right. split; [exact He | left; exact Hp].
    + right. split; [congruence|].
      destruct (lt_eq_lt_dec (ev_eid a) (ev_eid b)) as [[Hi|Hi]|Hi].
      * exfalso. apply Hn. right. split; [exact He | right; split; assumption].
      * congruence.
      * exact Hi.
    + left. exact Hp.
  - exfalso. apply Hn. left. exact Hl.
  - left. exact Hg.
Qed.

Lemma heappush_In (e x : event) (q : list event) :
  In x (heappush e q) <-> x = e \/ In x q.
Proof.
  induction q as [|y q IH]; simpl.
  - intuition.
  - destruct (key_ltb e y); simpl; rewrite ?IH; intuition.
Qed.

Lemma heappush_Forall (P : event -> Prop) (e : event) (q : list event) :
  Forall P (heappush e q) <-> P e /\ Forall P q.
Proof.
  rewrite !List.Forall_forall. split.
  - intros H. split.
    + apply H, heappush_In. left. reflexivity.
    + intros x Hx. apply H, heappush_In. right. exact Hx.
  - intros [He Hq] x Hx. apply heappush_In in Hx as [->|Hx]; [exact He | apply Hq, Hx].
Qed.

Lemma heappush_sorted (e : event) (q : list event) :
  StronglySorted key_lt q ->
  Forall (fun x => ev_eid x <> ev_eid e) q ->
  StronglySorted key_lt (heappush e q).
Proof.
  intros Hs. induction Hs as [|y q Hs IH Hy]; intros Hne; simpl.
  - constructor; constructor.
  - pose proof (Forall_inv Hne) as Hye. pose proof (Forall_inv_tail Hne) as Hne'.
    destruct (key_ltb e y) eqn:Hlt.
    + constructor; [constructor; assumption|].
      constructor; [exact Hlt|].
      eapply Forall_impl; [exact Hy|]. intros x Hx. eapply key_lt_trans; [exact Hlt | exact Hx].
    + constructor; [apply IH; exact Hne'|].
      apply heappush_Forall. split; [|exact Hy].
      apply key_lt_total; [congruence | exact Hlt].
Qed.

Lemma pending_grants_heappush_other (e : event) (q : list event) :
  (forall r, ev_action e <> Request_granted r) ->
  pending_grants (heappush e q) = pending_grants q.
Proof.
  intros He. induction q as [|y q IH]; simpl.
  - destruct (ev_action e); try reflexivity. exfalso. eapply He. reflexivity.
  - destruct (key_ltb e y); simpl.
    + destruct (ev_action e); try reflexivity. exfalso. eapply He. reflexivity.
    + rewrite IH. reflexivity.
Qed.

Lemma pending_grants_none (q : list event) :
  Forall (fun x => forall r, ev_action x <> Request_granted r) q ->
  pending_grants q = [].
Proof.
  induction 1 as [|y q Hy _ IH]; simpl; [reflexivity|].
  destruct (ev_action y); try exact IH. exfalso. eapply Hy. reflexivity.
Qed.

Lemma pending_grants_heappush_last (e : event) (r : request) (q : list event) :
  ev_action e = Request_granted r ->
  StronglySorted key_lt q ->
  Forall (fun x => forall r', ev_action x = Request_granted r' -> key_lt x e) q ->
  pending_grants (heappush e q) = pending_grants q ++ [r].
Proof.
  intros He Hs. induction Hs as [|y q Hs IH Hy]; intros Hall; simpl.
  - rewrite He. reflexivity.
  - pose proof (Forall_inv Hall) as Hye. pose proof (Forall_inv_tail Hall) as Hall'.
    destruct (key_ltb e y) eqn:Hlt; simpl.
    + rewrite He.
      assert (Hnone : pending_grants (y :: q) = []).
      { apply pending_grants_none. constructor.
        - intros r' Hr'. specialize (Hye r' Hr').
          pose proof (key_lt_trans _ _ _ Hlt Hye) as Hee.
          unfold key_lt in Hee. rewrite key_ltb_spec in Hee.
          destruct Hee as [?|[? [?|[? ?]]]]; [lra | lia | lia].
        - rewrite List.Forall_forall in *. intros x Hx r' Hr'.
          pose proof (Hall' x Hx r' Hr') as Hxe.
          pose proof (key_lt_trans _ _ _ Hlt (Hy x Hx)) as Hex.
          pose proof (key_lt_trans _ _ _ Hex Hxe) as Hee.
          unfold key_lt in Hee. rewrite key_ltb_spec in Hee.
          destruct Hee as [?|[? [?|[? ?]]]]; [lra | lia | lia]. }
      simpl in Hnone. rewrite Hnone. reflexivity.
    + rewrite IH by exact Hall'. destruct (ev_action y); reflexivity.
Qed.

(** * The scheduler keeps its heap well formed *)

Lemma key_lt_time (a b : event) : key_lt a b -> ev_time a <= ev_time b.
Proof. unfold key_lt. rewrite key_ltb_spec. intros [H|[H _]]; lra. Qed.

Lemma queue_ok_same (st st' : state) :
  env_now st' = env_now st -> env_queue st' = env_queue st ->
  env_eid st' = env_eid st -> queue_ok st -> queue_ok st'.
Proof.
  intros E1 E2 E3 [H1 H2 H3 H4]. constructor; rewrite ?E1, ?E2, ?E3; assumption.
Qed.

Lemma queue_ok_pop (st : state) (ev : event) (q : list event) :
  queue_ok st -> env_queue st = ev :: q ->
  queue_ok (set_queue q (set_now (ev_time ev) st)).
Proof.
  intros [Hs He Hu Hn] Hq. rewrite Hq in *.
  apply StronglySorted_inv in Hs as [Hs Hlt].
  pose proof (Forall_inv He) as (Hev1 & Hev2 & Hev3 & Hev4).
  apply Forall_inv_tail in He.
  pose proof (Forall_inv Hu) as Huv. apply Forall_inv_tail in Hu.
  constructor; simpl.
  - exact Hs.
  - rewrite List.Forall_forall in *. intros e Hin.
    destruct (He e Hin) as (H1 & H2 & H3 & H4).
    pose proof (key_lt_time _ _ (Hlt e Hin)) as Hle.
    repeat split; try assumption.
    intros Ht. specialize (H3 Ht). lra.
  - rewrite List.Forall_forall in *. intros u Hin Hact.
    destruct (Hu u Hin Hact) as (H1 & H2 & H3 & H4).
    repeat split; try assumption.
    + pose proof (Hlt u Hin) as Hk. unfold key_lt in Hk. rewrite key_ltb_spec in Hk.
      destruct Hk as [Hk|[Hk [Hp|[Hp Hi]]]].
      * exact Hk.
      * rewrite H1 in Hp. unfold URGENT in Hp. lia.
      * rewrite H2 in Hi. rewrite List.Forall_forall in H4.
        apply (H4 ev); [left; reflexivity | lia].
    + apply Forall_inv_tail in H4. exact H4.
  - exact Hn.
Qed.

Lemma queue_ok_schedule (st : state) (p : nat) (d : Q) (a : action) :
  queue_ok st -> 0 <= d -> (is_timer a = false -> d == 0) ->
  a <> Stop_simulation -> (forall r, a = Request_granted r -> p = NORMAL) ->
  queue_ok (schedule p d a st).
Proof.
  intros [Hs He Hu Hn] Hd Himm Hstop Hgr. constructor; simpl.
  - apply heappush_sorted; [exact Hs|].
    eapply Forall_impl; [exact He|]. intros e (H1 & _). simpl. lia.
  - apply heappush_Forall. split.
    + repeat split; simpl; try lra; try lia.
      * intros Ht. specialize (Himm Ht). lra.
      * exact Hgr.
    + eapply Forall_impl; [exact He|]. intros e (H1 & H2 & H3 & H4).
      repeat split; try assumption. lia.
  - apply heappush_Forall. split.
    + intros Hact. simpl in Hact. contradiction.
    + eapply Forall_impl; [exact Hu|]. intros u Hok Hact.
      destruct (Hok Hact) as (H1 & H2 & H3 & H4).
      repeat split; try assumption.
      apply heappush_Forall. split; [|exact H4]. simpl. intros E. lia.
  - lia.
Qed.

Lemma not_lt_ge (d : Q) : Qlt_bool d 0 = false -> 0 <= d.
Proof.
  unfold Qlt_bool. rewrite negb_false_iff. apply Qle_bool_imp_le.
Qed.

Lemma queue_ok_set_users (u : list nat) (st : state) :
  queue_ok st -> queue_ok (set_users u st).
Proof. apply queue_ok_same; reflexivity. Qed.

Lemma queue_ok_set_put_queue (p : list request) (st : state) :
  queue_ok st -> queue_ok (set_put_queue p st).
Proof. apply queue_ok_same; reflexivity. Qed.

Lemma queue_ok_set_customer_id (n : nat) (st : state) :
  queue_ok st -> queue_ok (set_customer_id n st).
Proof. apply queue_ok_same; reflexivity. Qed.

Lemma queue_ok_set_random_pos (n : nat) (st : state) :
  queue_ok st -> queue_ok (set_random_pos n st).
Proof. apply queue_ok_same; reflexivity. Qed.

Lemma queue_ok_set_waiting_times (w : list Q) (st : state) :
  queue_ok st -> queue_ok (set_waiting_times w st).
Proof. apply queue_ok_same; reflexivity. Qed.

Lemma queue_ok_set_service_times (w : list Q) (st : state) :
  queue_ok st -> queue_ok (set_service_times w st).
Proof. apply queue_ok_same; reflexivity. Qed.

Lemma queue_ok_emit (l : line) (st : state) : queue_ok st -> queue_ok (emit l st).
Proof. apply queue_ok_same; reflexivity. Qed.

Ltac sched :=
  repeat first
    [ assumption
    | apply queue_ok_set_users
    | apply queue_ok_set_put_queue
    | apply queue_ok_set_customer_id
    | apply queue_ok_set_random_pos
    | apply queue_ok_set_waiting_times
    | apply queue_ok_set_service_times
    | apply queue_ok_emit
    | apply queue_ok_schedule;
      [ | try (apply not_lt_ge; assumption); try lra
        | first [ discriminate | intros; lra ]
        | discriminate
        | first [ discriminate | reflexivity ] ] ].

Lemma queue_ok_trigger_put (st : state) : queue_ok st -> queue_ok (trigger_put st).
Proof.
  intros H. unfold trigger_put. destruct (bank_put_queue st) as [|r rest]; [exact H|].
  destruct (_ <? _)%Z; [|exact H]. sched.
Qed.

Lemma queue_ok_release (id : nat) (st : state) : queue_ok st -> queue_ok (bank_release id st).
Proof. intros H. unfold bank_release. sched. Qed.

Lemma queue_ok_schedule_failed (e : exn) (st : state) :
  queue_ok st -> queue_ok (schedule NORMAL 0 (Process_failed e) st).
Proof. intros H. sched. Qed.

Lemma queue_ok_schedule_end (st : state) :
  queue_ok st -> queue_ok (schedule NORMAL 0 Process_end st).
Proof. intros H. sched. Qed.

Section SchedulerFacts.

Variable draws : nat -> Q.
Variables mean_interarrival mean_service_time : Q.

Lemma queue_ok_arrivals_loop (st : state) :
  queue_ok st ->
  queue_ok (resume (customer_arrivals_loop draws mean_interarrival) st).
Proof.
  intros H. unfold resume, customer_arrivals_loop, bind, lift, expovariate, timeout, ret.
  unfold float_div.
  destruct (Qeq_bool mean_interarrival 0); [sched|].
  destruct (Qeq_bool (1 / mean_interarrival) 0); [sched|].
  destruct (Qlt_bool _ 0) eqn:Hneg; sched.
Qed.

Lemma queue_ok_step (st : state) :
  queue_ok st ->
  queue_ok (step_state (step draws mean_interarrival mean_service_time st)).
Proof.
  intros H. unfold step.
  destruct (env_queue st) as [|ev q] eqn:Hq; [exact H|].
  pose proof (queue_ok_pop st ev q H Hq) as H1.
  set (st1 := set_queue q (set_now (ev_time ev) st)) in *.
  destruct (ev_action ev) as [| |id|r|id| | |e|]; simpl step_state.
  - apply queue_ok_arrivals_loop. exact H1.
  - unfold resume, customer_arrivals_resumed, bind, effect.
    apply queue_ok_arrivals_loop. sched.
  - unfold resume, customer_arrive, bind, effect, get_now, ret, bank_request.
    apply queue_ok_trigger_put. sched.
  - unfold resume, customer_start_service, with_request, bind, effect, get_now,
      lift, ret, expovariate, timeout, float_div.
    destruct (Qeq_bool mean_service_time 0); [apply queue_ok_schedule_failed, queue_ok_release; sched|].
    destruct (Qeq_bool (1 / mean_service_time) 0); [apply queue_ok_schedule_failed, queue_ok_release; sched|].
    destruct (Qlt_bool _ 0) eqn:Hneg.
    + apply queue_ok_schedule_failed, queue_ok_release; sched.
    + sched.
  - unfold resume, customer_leave, with_request, bind, effect, get_now, ret.
    apply queue_ok_schedule_end, queue_ok_release. sched.
  - apply queue_ok_trigger_put. exact H1.
  - exact H1.
  - exact H1.
  - exact H1.
Qed.

End SchedulerFacts.

(** * What one resumption does to the state *)

Lemma set_random_pos_same (st : state) : set_random_pos (random_pos st) st = st.
Proof. destruct st. reflexivity. Qed.

Lemma set_service_times_same (st : state) :
  set_service_times (obs_service_times st) st = st.
Proof. destruct st. reflexivity. Qed.

Section Segments.

Variable draws : nat -> Q.
Variables mean_interarrival mean_service_time : Q.

(** The arrival generator, run to its yield: it has set a timer, or it
    has failed. *)
Lemma arrivals_loop_cases (st : state) :
  exists k d a,
    resume (customer_arrivals_loop draws mean_interarrival) st
    = schedule NORMAL d a (set_random_pos k st)
    /\ 0 <= d
    /\ (a = Timeout_arrivals \/ exists e, a = Process_failed e /\ d = 0).
Proof.
  unfold resume, customer_arrivals_loop, bind, lift, expovariate, timeout, ret, float_div.
  destruct (Qeq_bool mean_interarrival 0).
  { exists (random_pos st), 0, (Process_failed ZeroDivisionError).
    rewrite set_random_pos_same. repeat split; [lra | right; eauto]. }
  destruct (Qeq_bool (1 / mean_interarrival) 0).
  { exists (S (random_pos st)), 0, (Process_failed ZeroDivisionError).
    repeat split; [lra | right; eauto]. }
  destruct (Qlt_bool _ 0) eqn:Hneg.
  { exists (S (random_pos st)), 0, (Process_failed ValueError).
    repeat split; [lra | right; eauto]. }
  eexists (S (random_pos st)), _, Timeout_arrivals.
  repeat split; [apply not_lt_ge; exact Hneg | left; reflexivity].
Qed.

(** The customer resumed with its teller: the wait is recorded first;
    then either the service time is recorded and a timer set, or the
    generator fails, gives the teller back and may or may not have
    recorded a service time. *)
Lemma start_service_cases (r : request) (st : state) :
  let wait := env_now st - req_arrival_time r in
  let st2 := emit (Starts_service (req_customer r) (env_now st) wait)
               (set_waiting_times (obs_waiting_times st ++ [wait]) st) in
  let s := draws (random_pos st) / (1 / mean_service_time) in
  (resume (customer_start_service draws mean_service_time r) st
   = schedule NORMAL s (Timeout_service (req_customer r))
       (set_service_times (obs_service_times st ++ [s])
          (set_random_pos (S (random_pos st)) st2))
   /\ 0 <= s)
  \/ (exists e k ss',
        resume (customer_start_service draws mean_service_time r) st
        = schedule NORMAL 0 (Process_failed e)
            (bank_release (req_customer r)
               (set_service_times ss' (set_random_pos k st2)))
        /\ (ss' = obs_service_times st
            \/ (ss' = obs_service_times st ++ [s] /\ s < 0))).
Proof.
  intros wait st2 s.
  unfold resume, customer_start_service, with_request, bind, effect, get_now,
    lift, ret, expovariate, timeout, float_div.
  fold wait. fold st2.
  destruct (Qeq_bool mean_service_time 0).
  { right. exists ZeroDivisionError, (random_pos st), (obs_service_times st).
    split; [|left; reflexivity]. subst st2 wait. destruct st. reflexivity. }
  destruct (Qeq_bool (1 / mean_service_time) 0).
  { right. exists ZeroDivisionError, (S (random_pos st)), (obs_service_times st).
    split; [|left; reflexivity]. subst st2 wait. destruct st. reflexivity. }
  simpl random_pos. simpl obs_service_times. fold s.
  destruct (Qlt_bool s 0) eqn:Hneg.
  { right. exists ValueError, (S (random_pos st)), (obs_service_times st ++ [s]).
    split; [reflexivity|]. right. split; [reflexivity|].
    unfold Qlt_bool in Hneg. rewrite negb_true_iff in Hneg.
    destruct (Qlt_le_dec s 0) as [Hl|Hl]; [exact Hl|].
    apply Qle_bool_iff in Hl. congruence. }
  left. split; [reflexivity | apply not_lt_ge; exact Hneg].
Qed.

(** [_trigger_put]: nothing, or the head of the queue is granted. *)
Lemma trigger_put_cases (st : state) :
  trigger_put st = st
  \/ exists r rest,
       bank_put_queue st = r :: rest
       /\ (Z.of_nat (length (bank_users st)) < bank_capacity st)%Z
       /\ trigger_put st
          = set_put_queue rest
              (schedule NORMAL 0 (Request_granted r)
                 (set_users (bank_users st ++ [req_customer r]) st)).
Proof.
  unfold trigger_put. destruct (bank_put_queue st) as [|r rest]; [left; reflexivity|].
  destruct (_ <? _)%Z eqn:Hlt; [|left; reflexivity].
  right. exists r, rest. repeat split. apply Z.ltb_lt. exact Hlt.
Qed.

End Segments.

(** * The history invariant *)

Lemma flat_map_snoc {A B} (f : A -> list B) (l : list A) (x : A) :
  flat_map f (l ++ [x]) = flat_map f l ++ f x.
Proof. rewrite flat_map_app. simpl. rewrite app_nil_r. reflexivity. Qed.

Lemma heappush_Permutation (e : event) (q : list event) :
  Permutation (heappush e q) (e :: q).
Proof.
  induction q as [|y q IH]; simpl.
  - reflexivity.
  - destruct (key_ltb e y); [reflexivity|].
    rewrite IH. apply perm_swap.
Qed.

Lemma pending_arrivals_heappush (e : event) (q : list event) :
  Permutation (pending_arrivals (heappush e q)) (pending_arrivals (e :: q)).
Proof. unfold pending_arrivals. apply Permutation_flat_map, heappush_Permutation. Qed.

Lemma pending_arrivals_heappush_other (e : event) (q : list event) :
  (forall id, ev_action e <> Initialize_customer id) ->
  pending_arrivals (heappush e q) = pending_arrivals q.
Proof.
  intros He. unfold pending_arrivals. induction q as [|y q IH]; simpl.
  - destruct (ev_action e); try reflexivity. exfalso. eapply He. reflexivity.
  - destruct (key_ltb e y); simpl.
    + destruct (ev_action e); try reflexivity. exfalso. eapply He. reflexivity.
    + rewrite IH. reflexivity.
Qed.

Lemma failure_pending_heappush (e : event) (q : list event) :
  failure_pending (heappush e q) <->
  (exists x, ev_action e = Process_failed x) \/ failure_pending q.
Proof.
  unfold failure_pending. rewrite !List.Exists_exists. split.
  - intros (y & Hy & Hf). apply heappush_In in Hy as [->|Hy]; [left; exact Hf|].
    right. exists y. split; assumption.
  - intros [Hf|(y & Hy & Hf)].
    + exists e. split; [apply heappush_In; left; reflexivity | exact Hf].
    + exists y. split; [apply heappush_In; right; exact Hy | exact Hf].
Qed.

Lemma history_ok_same (st st' : state) :
  verbose_trace st' = verbose_trace st ->
  env_queue st' = env_queue st ->
  bank_put_queue st' = bank_put_queue st ->
  gen_customer_id st' = gen_customer_id st ->
  obs_waiting_times st' = obs_waiting_times st ->
  env_now st' = env_now st ->
  history_ok st -> history_ok st'.
Proof.
  intros E1 E2 E3 E4 E5 E6 [H1 H2 H3 H4 H5 H6].
  constructor; unfold granted_ids, waiting_ids in *;
    rewrite ?E1, ?E2, ?E3, ?E4, ?E5, ?E6; assumption.
Qed.

(** Scheduling anything but a grant or a spawn leaves the history alone. *)
Lemma history_ok_schedule (p : nat) (d : Q) (a : action) (st : state) :
  (forall r, a <> Request_granted r) -> (forall id, a <> Initialize_customer id) ->
  history_ok st -> history_ok (schedule p d a st).
Proof.
  intros Hg Hi [H1 H2 H3 H4 H5 H6].
  constructor; unfold granted_ids, waiting_ids in *; simpl.
  - rewrite pending_grants_heappush_other by exact Hg. exact H1.
  - rewrite pending_arrivals_heappush_other by exact Hi. exact H2.
  - rewrite pending_arrivals_heappush_other by exact Hi. exact H3.
  - exact H4.
  - exact H5.
  - exact H6.
Qed.

(** Popping anything but a grant or a spawn, and moving the clock on. *)
Lemma history_ok_pop (st : state) (ev : event) (q : list event) :
  env_queue st = ev :: q -> env_now st <= ev_time ev ->
  (forall r, ev_action ev <> Request_granted r) ->
  (forall id, ev_action ev <> Initialize_customer id) ->
  history_ok st -> history_ok (set_queue q (set_now (ev_time ev) st)).
Proof.
  intros Hq Hle Hg Hi [H1 H2 H3 H4 H5 H6].
  unfold granted_ids, waiting_ids, pending_arrivals in *. rewrite Hq in *.
  simpl in H1, H2, H3.
  assert (Eg : match ev_action ev with
               | Request_granted r => r :: pending_grants q
               | _ => pending_grants q
               end = pending_grants q).
  { destruct (ev_action ev); try reflexivity. exfalso. eapply Hg. reflexivity. }
  assert (Ei : match ev_action ev with
               | Initialize_customer id => [id]
               | _ => []
               end = []).
  { destruct (ev_action ev); try reflexivity. exfalso. eapply Hi. reflexivity. }
  rewrite Eg in H1. rewrite Ei in H2, H3. simpl in H2, H3.
  constructor; unfold granted_ids, waiting_ids, pending_arrivals; simpl; try assumption.
  eapply Forall_impl; [exact H5|]. intros t Ht. simpl in Ht. lra.
Qed.

(** A spawn: the new customer's id is one more than any seen so far. *)
Lemma history_ok_spawn (st : state) :
  history_ok st ->
  history_ok (schedule URGENT 0 (Initialize_customer (S (gen_customer_id st)))
                (set_customer_id (S (gen_customer_id st)) st)).
Proof.
  intros [H1 H2 H3 H4 H5 H6].
  constructor; unfold granted_ids, waiting_ids in *; simpl.
  - rewrite pending_grants_heappush_other by discriminate. exact H1.
  - rewrite pending_arrivals_heappush.
    unfold pending_arrivals at 1. simpl. fold (pending_arrivals (env_queue st)).
    rewrite <- Permutation_middle.
    apply NoDup_cons. split; [|exact H2].
    intros Hin. rewrite Forall_forall in H3. specialize (H3 _ Hin). lia.
  - rewrite pending_arrivals_heappush.
    unfold pending_arrivals at 1. simpl. fold (pending_arrivals (env_queue st)).
    rewrite <- Permutation_middle.
    constructor; [lia|].
    eapply Forall_impl; [exact H3|]. intros id Hid. simpl in Hid. lia.
  - exact H4.
  - exact H5.
  - exact H6.
Qed.

Lemma StronglySorted_snoc (l : list Q) (x : Q) :
  StronglySorted Qle l -> Forall (fun t => t <= x) l -> StronglySorted Qle (l ++ [x]).
Proof.
  induction 1 as [|y l Hs IH Hy]; intros Hall; simpl.
  - constructor; constructor.
  - pose proof (Forall_inv Hall) as Hyx. apply Forall_inv_tail in Hall.
    constructor; [apply IH; exact Hall|].
    apply Forall_app. split; [exact Hy | constructor; [exact Hyx | constructor]].
Qed.

(** A grant by [_trigger_put] moves the head of the queue behind the
    grants already pending. *)
Lemma history_ok_trigger_put (st : state) :
  queue_ok st -> history_ok st -> history_ok (trigger_put st).
Proof.
  intros [Qs Qe _ _] H.
  destruct (trigger_put_cases st) as [->|(r & rest & Hpq & _ & ->)]; [exact H|].
  destruct H as [H1 H2 H3 H4 H5 H6].
  constructor; unfold granted_ids, waiting_ids in *; simpl.
  - rewrite (pending_grants_heappush_last _ r); [|reflexivity|exact Qs|].
    + rewrite H1, Hpq. rewrite map_app. simpl. rewrite <- !app_assoc. reflexivity.
    + eapply Forall_impl; [exact Qe|]. intros x (E1 & E2 & E3 & E4) r' Hr'.
      unfold key_lt. rewrite key_ltb_spec. simpl. right.
      assert (is_timer (ev_action x) = false) as Ht by (rewrite Hr'; reflexivity).
      specialize (E3 Ht). specialize (E4 r' Hr').
      split; [lra|]. right. split; [exact E4 | exact E1].
  - rewrite pending_arrivals_heappush_other by discriminate. exact H2.
  - rewrite pending_arrivals_heappush_other by discriminate. exact H3.
  - exact H4.
  - exact H5.
  - exact H6.
Qed.

(** A customer's first resumption: it arrives and joins the queue. *)
Lemma history_ok_arrive (st : state) (ev : event) (q : list event) (id : nat) (r : request) :
  env_queue st = ev :: q -> env_now st <= ev_time ev ->
  ev_action ev = Initialize_customer id -> req_customer r = id ->
  history_ok st ->
  history_ok (set_put_queue (bank_put_queue st ++ [r])
                (emit (Arrives id (ev_time ev))
                   (set_queue q (set_now (ev_time ev) st)))).
Proof.
  intros Hq Hle Hact Hr [H1 H2 H3 H4 H5 H6].
  unfold granted_ids, waiting_ids, pending_arrivals in *. rewrite Hq in *.
  simpl in H1, H2, H3. rewrite Hact in H1, H2, H3. simpl in H2, H3.
  constructor; unfold granted_ids, waiting_ids, pending_arrivals, arrived, started,
    recorded_waits, start_times in *; simpl; rewrite ?flat_map_snoc; simpl;
    rewrite ?app_nil_r.
  - rewrite H1, map_app. simpl. rewrite Hr, <- !app_assoc. reflexivity.
  - rewrite <- app_assoc. exact H2.
  - rewrite <- app_assoc. exact H3.
  - exact H4.
  - eapply Forall_impl; [exact H5|]. intros t Ht. simpl in Ht. lra.
  - exact H6.
Qed.

(** A customer resumed with its teller: the wait is recorded and the
    service start is printed. *)
Lemma history_ok_start (st : state) (ev : event) (q : list event) (r : request) (w : Q) :
  env_queue st = ev :: q -> env_now st <= ev_time ev ->
  ev_action ev = Request_granted r ->
  history_ok st ->
  history_ok (emit (Starts_service (req_customer r) (ev_time ev) w)
                (set_waiting_times (obs_waiting_times st ++ [w])
                   (set_queue q (set_now (ev_time ev) st)))).
Proof.
  intros Hq Hle Hact [H1 H2 H3 H4 H5 H6].
  unfold granted_ids, waiting_ids, pending_arrivals in *. rewrite Hq in *.
  simpl in H1, H2, H3. rewrite Hact in H1, H2, H3. simpl in H1, H2, H3.
  constructor; unfold granted_ids, waiting_ids, pending_arrivals, arrived, started,
    recorded_waits, start_times in *; simpl; rewrite ?flat_map_snoc; simpl;
    rewrite ?app_nil_r.
  - rewrite H1, <- !app_assoc. reflexivity.
  - exact H2.
  - exact H3.
  - rewrite H4. reflexivity.
  - apply Forall_app. split; [|constructor; [lra | constructor]].
    eapply Forall_impl; [exact H5|]. intros t Ht. simpl in Ht. lra.
  - apply StronglySorted_snoc; [exact H6|].
    eapply Forall_impl; [exact H5|]. intros t Ht. simpl in Ht. lra.
Qed.

Lemma history_ok_set_users (u : list nat) (st : state) :
  history_ok st -> history_ok (set_users u st).
Proof. apply history_ok_same; reflexivity. Qed.

Lemma history_ok_set_random_pos (n : nat) (st : state) :
  history_ok st -> history_ok (set_random_pos n st).
Proof. apply history_ok_same; reflexivity. Qed.

Lemma history_ok_set_service_times (s : list Q) (st : state) :
  history_ok st -> history_ok (set_service_times s st).
Proof. apply history_ok_same; reflexivity. Qed.

Lemma history_ok_release (id : nat) (st : state) :
  history_ok st -> history_ok (bank_release id st).
Proof.
  intros H. unfold bank_release. apply history_ok_schedule; try discriminate.
  apply history_ok_set_users. exact H.
Qed.

Lemma history_ok_leave (id : nat) (t : Q) (st : state) :
  history_ok st -> history_ok (emit (Leaves id t) st).
Proof.
  intros [H1 H2 H3 H4 H5 H6].
  constructor; unfold granted_ids, waiting_ids, arrived, started,
    recorded_waits, start_times in *; simpl; rewrite ?flat_map_snoc; simpl;
    rewrite ?app_nil_r; assumption.
Qed.

Section HistoryFacts.

Variable draws : nat -> Q.
Variables mean_interarrival mean_service_time : Q.

Lemma history_ok_arrivals_loop (st : state) :
  history_ok st ->
  history_ok (resume (customer_arrivals_loop draws mean_interarrival) st).
Proof.
  intros H.
  destruct (arrivals_loop_cases draws mean_interarrival st)
    as (k & d & a & -> & _ & Ha).
  apply history_ok_schedule.
  - destruct Ha as [->|(e & -> & _)]; discriminate.
  - destruct Ha as [->|(e & -> & _)]; discriminate.
  - apply history_ok_set_random_pos. exact H.
Qed.

Lemma history_ok_step (st : state) :
  queue_ok st -> history_ok st ->
  history_ok (step_state (step draws mean_interarrival mean_service_time st)).
Proof.
  intros HQ H. unfold step.
  destruct (env_queue st) as [|ev q] eqn:Hq; [exact H|].
  pose proof (queue_ok_pop st ev q HQ Hq) as Q1.
  assert (Hle : env_now st <= ev_time ev).
  { destruct HQ as [_ Qe _ _]. rewrite Hq in Qe. apply Forall_inv in Qe.
    destruct Qe as (_ & Hle & _). exact Hle. }
  destruct (ev_action ev) as [| |id|r|id| | |e|] eqn:Hact; simpl step_state.
  - apply history_ok_arrivals_loop.
    apply history_ok_pop; try assumption; rewrite Hact; discriminate.
  - unfold resume, customer_arrivals_resumed, bind, effect.
    apply history_ok_arrivals_loop.
    apply (history_ok_spawn (set_queue q (set_now (ev_time ev) st))).
    apply history_ok_pop; try assumption; rewrite Hact; discriminate.
  - unfold resume, customer_arrive, bind, effect, get_now, ret, bank_request.
    apply history_ok_trigger_put.
    + apply queue_ok_set_put_queue, queue_ok_emit. exact Q1.
    + apply (history_ok_arrive st ev q id); try assumption. reflexivity.
  - pose proof (history_ok_start st ev q r (ev_time ev - req_arrival_time r)
                  Hq Hle Hact H) as H2.
    destruct (start_service_cases draws mean_service_time r
                (set_queue q (set_now (ev_time ev) st)))
      as [[-> _]|(e & k & ss' & -> & _)].
    + apply history_ok_schedule; try discriminate.
      apply history_ok_set_service_times, history_ok_set_random_pos. exact H2.
    + apply history_ok_schedule; try discriminate.
      apply history_ok_release.
      apply history_ok_set_service_times, history_ok_set_random_pos. exact H2.
  - unfold resume, customer_leave, with_request, bind, effect, get_now, ret.
    apply history_ok_schedule; try discriminate.
    apply history_ok_release, history_ok_leave.
    apply history_ok_pop; try assumption; rewrite Hact; discriminate.
  - apply history_ok_trigger_put; [exact Q1|].
    apply history_ok_pop; try assumption; rewrite Hact; discriminate.
  - apply history_ok_pop; try assumption; rewrite Hact; discriminate.
  - apply history_ok_pop; try assumption; rewrite Hact; discriminate.
  - apply history_ok_pop; try assumption; rewrite Hact; discriminate.
Qed.

End HistoryFacts.

(** * Lengths of the two lists, capacity *)

Lemma lengths_ok_same (st st' : state) :
  obs_waiting_times st' = obs_waiting_times st ->
  obs_service_times st' = obs_service_times st ->
  env_queue st' = env_queue st ->
  lengths_ok st -> lengths_ok st'.
Proof. unfold lengths_ok. intros -> -> ->. exact (fun H => H). Qed.

Lemma lengths_ok_schedule (p : nat) (d : Q) (a : action) (st : state) :
  lengths_ok st -> lengths_ok (schedule p d a st).
Proof.
  unfold lengths_ok. simpl. intros [H|H]; [left; exact H|].
  right. apply failure_pending_heappush. right. exact H.
Qed.

Lemma lengths_ok_failed (e : exn) (st : state) :
  lengths_ok (schedule NORMAL 0 (Process_failed e) st).
Proof.
  unfold lengths_ok. simpl. right. apply failure_pending_heappush. left.
  exists e. reflexivity.
Qed.

Lemma lengths_ok_pop (st : state) (ev : event) (q : list event) (t : Q) :
  env_queue st = ev :: q -> (forall x, ev_action ev <> Process_failed x) ->
  lengths_ok st -> lengths_ok (set_queue q (set_now t st)).
Proof.
  unfold lengths_ok, failure_pending. simpl. intros -> Hne [H|H]; [left; exact H|].
  right. apply Exists_cons in H as [(x & Hx)|H]; [|exact H].
  exfalso. exact (Hne x Hx).
Qed.

Lemma lengths_ok_trigger_put (st : state) : lengths_ok st -> lengths_ok (trigger_put st).
Proof.
  intros H. destruct (trigger_put_cases st) as [->|(r & rest & _ & _ & ->)]; [exact H|].
  eapply lengths_ok_same; [reflexivity..|].
  apply lengths_ok_schedule.
  eapply lengths_ok_same; [| | |exact H]; reflexivity.
Qed.

Lemma lengths_ok_release (id : nat) (st : state) :
  lengths_ok st -> lengths_ok (bank_release id st).
Proof.
  intros H. unfold bank_release. apply lengths_ok_schedule.
  eapply lengths_ok_same; [| | |exact H]; reflexivity.
Qed.

Lemma list_remove_first_length (id : nat) (l : list nat) :
  (length (list_remove_first id l) <= length l)%nat.
Proof.
  induction l as [|x l IH]; simpl; [lia|].
  destruct (x =? id)%nat; simpl; lia.
Qed.

Lemma capacity_ok_same (st st' : state) :
  bank_users st' = bank_users st -> bank_capacity st' = bank_capacity st ->
  capacity_ok st -> capacity_ok st'.
Proof. unfold capacity_ok. intros -> ->. exact (fun H => H). Qed.

Lemma capacity_ok_trigger_put (st : state) : capacity_ok st -> capacity_ok (trigger_put st).
Proof.
  intros H. destruct (trigger_put_cases st) as [->|(r & rest & _ & Hlt & ->)]; [exact H|].
  unfold capacity_ok. simpl. rewrite length_app. simpl. lia.
Qed.

Lemma capacity_ok_release (id : nat) (st : state) :
  capacity_ok st -> capacity_ok (bank_release id st).
Proof.
  unfold capacity_ok. simpl. intros H.
  pose proof (list_remove_first_length id (bank_users st)). lia.
Qed.

Section MoreFacts.

Variable draws : nat -> Q.
Variables mean_interarrival mean_service_time : Q.

Lemma lengths_ok_arrivals_loop (st : state) :
  lengths_ok st ->
  lengths_ok (resume (customer_arrivals_loop draws mean_interarrival) st).
Proof.
  intros H.
  destruct (arrivals_loop_cases draws mean_interarrival st)
    as (k & d & a & -> & _ & _).
  apply lengths_ok_schedule.
  eapply lengths_ok_same; [| | |exact H]; reflexivity.
Qed.

Lemma lengths_ok_step (st st' : state) :
  lengths_ok st ->
  step draws mean_interarrival mean_service_time st = Next st'
  \/ step draws mean_interarrival mean_service_time st = Halt st' ->
  lengths_ok st'.
Proof.
  intros H Hstep. unfold step in Hstep.
  destruct (env_queue st) as [|ev q] eqn:Hq; [destruct Hstep; discriminate|].
  destruct (ev_action ev) as [| |id|r|id| | |e|] eqn:Hact;
    destruct Hstep as [Hstep|Hstep]; try discriminate; injection Hstep as <-;
    pose proof (lengths_ok_pop st ev q (ev_time ev) Hq) as H1;
    rewrite Hact in H1; specialize (H1 ltac:(discriminate) H).
  - apply lengths_ok_arrivals_loop. exact H1.
  - unfold resume, customer_arrivals_resumed, bind, effect.
    apply lengths_ok_arrivals_loop. apply lengths_ok_schedule.
    eapply lengths_ok_same; [| | |exact H1]; reflexivity.
  - unfold resume, customer_arrive, bind, effect, get_now, ret, bank_request.
    apply lengths_ok_trigger_put.
    eapply lengths_ok_same; [| | |exact H1]; reflexivity.
  - destruct (start_service_cases draws mean_service_time r
                (set_queue q (set_now (ev_time ev) st)))
      as [[-> _]|(e & k & ss' & -> & _)].
    + destruct H1 as [H1|H1].
      * left. simpl in *. rewrite !length_app, H1. reflexivity.
      * right. simpl in *. apply failure_pending_heappush. right. exact H1.
    + apply lengths_ok_failed.
  - unfold resume, customer_leave, with_request, bind, effect, get_now, ret.
    apply lengths_ok_schedule, lengths_ok_release.
    eapply lengths_ok_same; [| | |exact H1]; reflexivity.
  - apply lengths_ok_trigger_put. exact H1.
  - exact H1.
  - exact H1.
Qed.

Lemma capacity_ok_arrivals_loop (st : state) :
  capacity_ok st ->
  capacity_ok (resume (customer_arrivals_loop draws mean_interarrival) st).
Proof.
  intros H.
  destruct (arrivals_loop_cases draws mean_interarrival st)
    as (k & d & a & -> & _ & _).
  exact H.
Qed.

Lemma capacity_ok_step (st : state) :
  capacity_ok st ->
  capacity_ok (step_state (step draws mean_interarrival mean_service_time st)).
Proof.
  intros H. unfold step.
  destruct (env_queue st) as [|ev q] eqn:Hq; [exact H|].
  assert (H1 : capacity_ok (set_queue q (set_now (ev_time ev) st))) by exact H.
  destruct (ev_action ev) as [| |id|r|id| | |e|] eqn:Hact; simpl step_state.
  - apply capacity_ok_arrivals_loop. exact H1.
  - unfold resume, customer_arrivals_resumed, bind, effect.
    apply capacity_ok_arrivals_loop. exact H1.
  - unfold resume, customer_arrive, bind, effect, get_now, ret, bank_request.
    apply capacity_ok_trigger_put. exact H1.
  - destruct (start_service_cases draws mean_service_time r
                (set_queue q (set_now (ev_time ev) st)))
      as [[-> _]|(e & k & ss' & -> & _)].
    + exact H1.
    + apply (capacity_ok_same (bank_release (req_customer r) (set_queue q (set_now (ev_time ev) st))));
        [reflexivity | reflexivity |].
      apply capacity_ok_release. exact H1.
  - unfold resume, customer_leave, with_request, bind, effect, get_now, ret.
    apply (capacity_ok_same (bank_release id (set_queue q (set_now (ev_time ev) st))));
      [reflexivity | reflexivity |].
    apply capacity_ok_release. exact H1.
  - apply capacity_ok_trigger_put. exact H1.
  - exact H1.
  - exact H1.
  - exact H1.
Qed.

(** When the [until] event is dispatched, only timers are left: every
    event scheduled for the instant at which it was created has been
    dispatched before the cutoff. *)
Lemma halt_only_timers (st st' : state) :
  queue_ok st ->
  step draws mean_interarrival mean_service_time st = Halt st' ->
  Forall (fun e => is_timer (ev_action e) = true) (env_queue st').
Proof.
  intros [Qs Qe Qu _] Hstep. unfold step in Hstep.
  destruct (env_queue st) as [|ev q] eqn:Hq; [discriminate|].
  destruct (ev_action ev) eqn:Hact; try discriminate. injection Hstep as <-. simpl.
  apply StronglySorted_inv in Qs as [_ Hlt].
  apply Forall_inv in Qu. destruct (Qu Hact) as (_ & _ & Hnow & _).
  apply Forall_inv_tail in Qe.
  rewrite List.Forall_forall in *. intros e Hin.
  destruct (is_timer (ev_action e)) eqn:Ht; [reflexivity|].
  destruct (Qe e Hin) as (_ & _ & Himm & _). specialize (Himm Ht).
  pose proof (key_lt_time _ _ (Hlt e Hin)). lra.
Qed.

End MoreFacts.

(** * Recorded times are non-negative *)

Lemma observations_ok_schedule (p : nat) (d : Q) (a : action) (st : state) :
  (forall r, a <> Request_granted r) ->
  observations_ok st -> observations_ok (schedule p d a st).
Proof.
  intros Ha [H1 H2 H3 H4]. constructor; simpl; try assumption.
  apply heappush_Forall. split; [|exact H4].
  simpl. intros r Hr. exfalso. exact (Ha r Hr).
Qed.

Lemma observations_ok_pop (st : state) (ev : event) (q : list event) :
  env_queue st = ev :: q -> env_now st <= ev_time ev ->
  observations_ok st -> observations_ok (set_queue q (set_now (ev_time ev) st)).
Proof.
  intros Hq Hle [H1 H2 H3 H4]. rewrite Hq in H4. apply Forall_inv_tail in H4.
  constructor; simpl; try assumption.
  - eapply Forall_impl; [exact H3|]. intros r Hr. simpl in Hr. lra.
  - eapply Forall_impl; [exact H4|]. intros e He r Hr. specialize (He r Hr). lra.
Qed.

Lemma observations_ok_trigger_put (st : state) :
  observations_ok st -> observations_ok (trigger_put st).
Proof.
  intros H. destruct (trigger_put_cases st) as [->|(r & rest & Hpq & _ & ->)]; [exact H|].
  destruct H as [H1 H2 H3 H4]. rewrite Hpq in H3.
  constructor; simpl; try assumption.
  - apply Forall_inv_tail in H3. exact H3.
  - apply heappush_Forall. split; [|exact H4].
    simpl. intros r' Hr'. injection Hr' as <-. apply Forall_inv in H3. exact H3.
Qed.

Lemma observations_ok_release (id : nat) (st : state) :
  observations_ok st -> observations_ok (bank_release id st).
Proof.
  intros [H1 H2 H3 H4]. unfold bank_release.
  apply observations_ok_schedule; [discriminate|]. constructor; assumption.
Qed.

Lemma service_time_nonneg (d m : Q) : 0 <= d -> 0 <= m -> 0 <= d / (1 / m).
Proof.
  intros Hd Hm. unfold Qdiv. apply Qmult_le_0_compat; [exact Hd|].
  apply Qinv_le_0_compat. apply Qmult_le_0_compat; [lra|].
  apply Qinv_le_0_compat. exact Hm.
Qed.

Section ObservationFacts.

Variable draws : nat -> Q.
Variables mean_interarrival mean_service_time : Q.

(** [-log(1.0 - random())] is never negative. *)
Hypothesis draws_nonneg : forall n, 0 <= draws n.
Hypothesis mean_service_time_nonneg : 0 <= mean_service_time.

Lemma observations_ok_arrivals_loop (st : state) :
  observations_ok st ->
  observations_ok (resume (customer_arrivals_loop draws mean_interarrival) st).
Proof.
  intros H.
  destruct (arrivals_loop_cases draws mean_interarrival st)
    as (k & d & a & -> & _ & Ha).
  apply observations_ok_schedule.
  - destruct Ha as [->|(e & -> & _)]; discriminate.
  - destruct H as [H1 H2 H3 H4]. constructor; assumption.
Qed.

Lemma observations_ok_step (st : state) :
  queue_ok st -> observations_ok st ->
  observations_ok (step_state (step draws mean_interarrival mean_service_time st)).
Proof using draws_nonneg mean_service_time_nonneg.
  intros HQ H. unfold step.
  destruct (env_queue st) as [|ev q] eqn:Hq; [exact H|].
  assert (Hle : env_now st <= ev_time ev).
  { destruct HQ as [_ Qe _ _]. rewrite Hq in Qe. apply Forall_inv in Qe.
    destruct Qe as (_ & Hle & _). exact Hle. }
  pose proof (observations_ok_pop st ev q Hq Hle H) as H1.
  destruct (ev_action ev) as [| |id|r|id| | |e|] eqn:Hact; simpl step_state.
  - apply observations_ok_arrivals_loop. exact H1.
  - unfold resume, customer_arrivals_resumed, bind, effect.
    apply observations_ok_arrivals_loop.
    apply observations_ok_schedule; [discriminate|].
    destruct H1 as [A1 A2 A3 A4]. constructor; assumption.
  - unfold resume, customer_arrive, bind, effect, get_now, ret, bank_request.
    apply observations_ok_trigger_put.
    destruct H1 as [A1 A2 A3 A4]. constructor; simpl; try assumption.
    apply Forall_app. split; [exact A3|]. constructor; [simpl; lra | constructor].
  - assert (Harr : req_arrival_time r <= env_now st).
    { destruct H as [_ _ _ A4]. rewrite Hq in A4. apply Forall_inv in A4.
      exact (A4 r Hact). }
    assert (H2 : observations_ok
                   (emit (Starts_service (req_customer r) (ev_time ev)
                            (ev_time ev - req_arrival_time r))
                      (set_waiting_times
                         (obs_waiting_times st ++ [ev_time ev - req_arrival_time r])
                         (set_queue q (set_now (ev_time ev) st))))).
    { destruct H1 as [A1 A2 A3 A4]. constructor; simpl; try assumption.
      apply Forall_app. split; [exact A1|]. constructor; [lra | constructor]. }
    destruct (start_service_cases draws mean_service_time r
                (set_queue q (set_now (ev_time ev) st)))
      as [[-> Hs]|(e & k & ss' & -> & Hss)].
    + apply observations_ok_schedule; [discriminate|].
      destruct H2 as [A1 A2 A3 A4]. constructor; simpl; try assumption.
      apply Forall_app. split; [exact A2|]. constructor; [exact Hs | constructor].
    + apply observations_ok_schedule; [discriminate|].
      apply observations_ok_release.
      destruct H2 as [A1 A2 A3 A4]. constructor; simpl; try assumption.
      destruct Hss as [->|[-> Hneg]]; [exact A2|].
      exfalso. simpl in Hneg.
      pose proof (service_time_nonneg (draws (random_pos st)) mean_service_time
                    (draws_nonneg _) mean_service_time_nonneg). lra.
  - unfold resume, customer_leave, with_request, bind, effect, get_now, ret.
    apply observations_ok_schedule; [discriminate|].
    apply observations_ok_release.
    destruct H1 as [A1 A2 A3 A4]. constructor; assumption.
  - apply observations_ok_trigger_put. exact H1.
  - exact H1.
  - exact H1.
  - exact H1.
Qed.

End ObservationFacts.

(** * Whole runs *)

Lemma only_timers_no_failure (q : list event) :
  Forall (fun e => is_timer (ev_action e) = true) q -> ~ failure_pending q.
Proof.
  unfold failure_pending. intros Hall Hex. apply List.Exists_exists in Hex as (e & He & x & Hx).
  rewrite List.Forall_forall in Hall. specialize (Hall e He). rewrite Hx in Hall. discriminate.
Qed.

Lemma only_timers_no_grant (q : list event) :
  Forall (fun e => is_timer (ev_action e) = true) q -> pending_grants q = [].
Proof.
  intros Hall. apply pending_grants_none. eapply Forall_impl; [exact Hall|].
  intros e He r Hr. simpl in He. rewrite Hr in He. discriminate.
Qed.

Lemma initial_queue (num_tellers : Z) (sim_time : Q) (pos : nat) :
  0 < sim_time ->
  env_queue (initial_state num_tellers sim_time pos)
  = [ {| ev_time := 0 + 0; ev_priority := URGENT; ev_eid := 0;
         ev_action := Initialize_arrivals |};
      {| ev_time := 0 + (sim_time - 0); ev_priority := URGENT; ev_eid := 1;
         ev_action := Stop_simulation |} ].
Proof.
  intros HT. unfold initial_state, schedule. simpl. unfold key_ltb. simpl ev_time.
  assert (Hgt : 0 + 0 < 0 + (sim_time - 0)) by lra.
  apply Qgt_alt in Hgt. rewrite Hgt. reflexivity.
Qed.

Lemma initial_state_ok (num_tellers : Z) (sim_time : Q) (pos : nat) :
  (0 < num_tellers)%Z -> 0 < sim_time ->
  run_ok num_tellers (initial_state num_tellers sim_time pos)
  /\ lengths_ok (initial_state num_tellers sim_time pos)
  /\ observations_ok (initial_state num_tellers sim_time pos).
Proof.
  intros Hc HT. pose proof (initial_queue num_tellers sim_time pos HT) as Hq.
  assert (Hk : key_lt
                 {| ev_time := 0 + 0; ev_priority := URGENT; ev_eid := 0;
                    ev_action := Initialize_arrivals |}
                 {| ev_time := 0 + (sim_time - 0); ev_priority := URGENT;
                    ev_eid := 1; ev_action := Stop_simulation |}).
  { unfold key_lt. rewrite key_ltb_spec. simpl. left. lra. }
  assert (HQ : queue_ok (initial_state num_tellers sim_time pos)).
  { constructor.
    - rewrite Hq. repeat constructor. exact Hk.
    - rewrite Hq. simpl env_now. simpl env_eid.
      repeat constructor; simpl; try lia; try lra; try discriminate.
    - rewrite Hq. simpl env_now.
      repeat constructor; simpl; try lia; try lra; try discriminate; intros; try lra.
    - simpl. lia. }
  assert (HH : history_ok (initial_state num_tellers sim_time pos)).
  { constructor.
    - unfold granted_ids, waiting_ids. rewrite Hq. reflexivity.
    - rewrite Hq. simpl. constructor.
    - rewrite Hq. simpl. constructor.
    - reflexivity.
    - constructor.
    - constructor. }
  assert (HO : observations_ok (initial_state num_tellers sim_time pos)).
  { constructor.
    - constructor.
    - constructor.
    - constructor.
    - rewrite Hq. repeat constructor; simpl; discriminate. }
  split; [|split; [left; reflexivity | exact HO]].
  split; [exact HQ|]. split; [exact HH|]. split; [|reflexivity].
  unfold capacity_ok. simpl. lia.
Qed.

Section RunFacts.

Variable draws : nat -> Q.
Variables mean_interarrival mean_service_time : Q.

Lemma run_loop_invariant (I : state -> Prop) :
  (forall st, I st -> I (step_state (step draws mean_interarrival mean_service_time st))) ->
  forall fuel st,
    I st -> I (outcome_state (run_loop draws mean_interarrival mean_service_time fuel st)).
Proof.
  intros Hstep. induction fuel as [|fuel IH]; intros st HI; simpl.
  - exact HI.
  - specialize (Hstep st HI).
    destruct (step draws mean_interarrival mean_service_time st); simpl in *; auto.
Qed.

Lemma capacity_step (st : state) :
  bank_capacity (step_state (step draws mean_interarrival mean_service_time st))
  = bank_capacity st.
Proof.
  unfold step. destruct (env_queue st) as [|ev q]; [reflexivity|].
  destruct (ev_action ev) as [| |id|r|id| | |e|]; simpl step_state; try reflexivity.
  - destruct (arrivals_loop_cases draws mean_interarrival
                (set_queue q (set_now (ev_time ev) st))) as (k & d & a & -> & _).
    reflexivity.
  - unfold resume, customer_arrivals_resumed, bind, effect.
    match goal with |- bank_capacity (match customer_arrivals_loop _ _ ?s with _ => _ end) = _ =>
      destruct (arrivals_loop_cases draws mean_interarrival s) as (k & d & a & E & _);
      unfold resume in E; rewrite E end.
    reflexivity.
  - unfold resume, customer_arrive, bind, effect, get_now, ret, bank_request.
    match goal with |- bank_capacity (trigger_put ?s) = _ =>
      destruct (trigger_put_cases s) as [->|(r & rest & _ & _ & ->)] end; reflexivity.
  - destruct (start_service_cases draws mean_service_time r
                (set_queue q (set_now (ev_time ev) st)))
      as [[-> _]|(e & k & ss' & -> & _)]; reflexivity.
  - match goal with |- bank_capacity (trigger_put ?s) = _ =>
      destruct (trigger_put_cases s) as [->|(r & rest & _ & _ & ->)] end; reflexivity.
Qed.

Lemma run_ok_step (num_tellers : Z) (st : state) :
  run_ok num_tellers st ->
  run_ok num_tellers (step_state (step draws mean_interarrival mean_service_time st)).
Proof.
  intros (HQ & H & C & E). split; [|split; [|split]].
  - apply queue_ok_step, HQ.
  - apply history_ok_step; assumption.
  - apply capacity_ok_step, C.
  - rewrite capacity_step. exact E.
Qed.

(** At the cutoff nothing granted is left unresumed, no crash is due,
    and both lists have one entry per service start. *)
Lemma run_loop_stopped (fuel : nat) (st st' : state) :
  queue_ok st -> lengths_ok st ->
  run_loop draws mean_interarrival mean_service_time fuel st = Stopped st' ->
  Forall (fun e => is_timer (ev_action e) = true) (env_queue st')
  /\ length (obs_service_times st') = length (obs_waiting_times st').
Proof.
  revert st. induction fuel as [|fuel IH]; intros st HQ L Hrun; simpl in Hrun.
  - discriminate.
  - pose proof (queue_ok_step draws mean_interarrival mean_service_time st HQ) as Q1.
    pose proof (lengths_ok_step draws mean_interarrival mean_service_time st) as L1.
    destruct (step draws mean_interarrival mean_service_time st) as [s1|s1|e s1] eqn:Hs.
    + apply (IH s1); [exact Q1 | | exact Hrun]. apply (L1 s1 L). left. reflexivity.
    + injection Hrun as <-.
      pose proof (halt_only_timers draws mean_interarrival mean_service_time st s1 HQ Hs) as Ht.
      split; [exact Ht|].
      destruct (L1 s1 L (or_intror eq_refl)) as [Hl|Hf]; [exact Hl|].
      exfalso. exact (only_timers_no_failure _ Ht Hf).
    + discriminate.
Qed.

(** A run that gets past the two checks loops from [initial_state]. *)
Lemma simulate_ok (num_tellers : Z) (sim_time : Q) (pos fuel : nat) (o : outcome) :
  simulate draws mean_interarrival mean_service_time num_tellers sim_time pos fuel = Ok o ->
  (0 < num_tellers)%Z /\ 0 < sim_time
  /\ o = run_loop draws mean_interarrival mean_service_time fuel
           (initial_state num_tellers sim_time pos).
Proof.
  unfold simulate, new_resource, env_run. intros H.
  destruct (num_tellers <=? 0)%Z eqn:Hc; [discriminate|].
  apply Z.leb_gt in Hc. simpl env_now in H.
  destruct (Qle_bool sim_time 0) eqn:HT; [discriminate|].
  injection H as <-.
  assert (~ sim_time <= 0) as Hn.
  { intros Hle. apply Qle_bool_iff in Hle. congruence. }
  split; [exact Hc|]. split; [lra | reflexivity].
Qed.

End RunFacts.

(** * The statistics of one run *)

Lemma recorded_waits_length (tr : list line) :
  length (recorded_waits tr) = length (started tr).
Proof.
  unfold recorded_waits, started. induction tr as [|l tr IH]; simpl; [reflexivity|].
  destruct l; simpl; rewrite ?IH; reflexivity.
Qed.

Lemma start_times_length (tr : list line) :
  length (start_times tr) = length (started tr).
Proof.
  unfold start_times, started. induction tr as [|l tr IH]; simpl; [reflexivity|].
  destruct l; simpl; rewrite ?IH; reflexivity.
Qed.

Lemma StronglySorted_lookup (l : list Q) (i j : nat) (a b : Q) :
  StronglySorted Qle l -> (i < j)%nat ->
  l !! i = Some a -> l !! j = Some b -> a <= b.
Proof.
  intros Hs. revert i j. induction Hs as [|x l Hs IH Hx]; intros i j Hij Ha Hb.
  - discriminate.
  - destruct j as [|j]; [lia|]. simpl in Hb.
    destruct i as [|i]; simpl in Ha.
    + injection Ha as <-. rewrite Forall_forall in Hx. apply Hx.
      eapply list_elem_of_lookup_2. exact Hb.
    + apply (IH i j); [lia | exact Ha | exact Hb].
Qed.

(** The dict of lines 89 to 97 is always built; its two lists are new
    objects holding what the run recorded, and no older object changes. *)
Lemma run_statistics_spec (run : Z) (st : state) (h : heap) :
  exists stats h',
    run_statistics run st h = (Ok stats, h')
    /\ run_number stats = run
    /\ customers_served stats = Z.of_nat (length (obs_waiting_times st))
    /\ h' !! waiting_times stats = Some (obs_waiting_times st)
    /\ h' !! service_times stats = Some (obs_service_times st)
    /\ (obs_waiting_times st = [] ->
        avg_waiting_time stats = 0 /\ max_waiting_time stats = 0)
    /\ (obs_service_times st = [] -> avg_service_time stats = 0)
    /\ forall k, is_Some (h !! k) -> h' !! k = h !! k.
Proof.
  unfold run_statistics, bind, lift, ret.
  destruct (guarded_mean_ok (obs_waiting_times st)) as [v1 E1].
  destruct (guarded_max_ok (obs_waiting_times st)) as [v2 E2].
  destruct (guarded_mean_ok (obs_service_times st)) as [v3 E3].
  rewrite E1, E2, E3.
  destruct (alloc_spec (obs_waiting_times st) h) as (lw & -> & Hlw).
  destruct (alloc_spec (obs_service_times st) (<[lw := obs_waiting_times st]> h))
    as (ls & -> & Hls).
  assert (Hne : lw <> ls).
  { intros ->. rewrite lookup_insert_eq in Hls. discriminate. }
  eexists _, _. split; [reflexivity|]. simpl.
  split; [reflexivity|]. split; [reflexivity|].
  split; [rewrite lookup_insert_ne by congruence; apply lookup_insert_eq|].
  split; [apply lookup_insert_eq|].
  split; [|split].
  - intros Hw. rewrite Hw in E1, E2. simpl in E1, E2.
    injection E1 as <-. injection E2 as <-. split; reflexivity.
  - intros Hs. rewrite Hs in E3. simpl in E3. injection E3 as <-. reflexivity.
  - intros k [v Hk].
    assert (k <> lw) by (intros ->; congruence).
    assert (k <> ls).
    { intros ->. rewrite lookup_insert_ne in Hls by congruence. congruence. }
    rewrite !lookup_insert_ne by congruence. reflexivity.
Qed.

(** * The claims about a run *)

Section RunClaims.

Variable draws : nat -> Q.
Variables mean_interarrival mean_service_time : Q.

Lemma simulate_run_ok (num_tellers : Z) (sim_time : Q) (pos fuel : nat) (o : outcome) :
  simulate draws mean_interarrival mean_service_time num_tellers sim_time pos fuel = Ok o ->
  run_ok num_tellers (outcome_state o).
Proof.
  intros H. apply simulate_ok in H as (Hc & HT & ->).
  apply run_loop_invariant.
  - apply run_ok_step.
  - apply initial_state_ok; assumption.
Qed.

Lemma simulate_stopped (num_tellers : Z) (sim_time : Q) (pos fuel : nat) (st : state) :
  simulate draws mean_interarrival mean_service_time num_tellers sim_time pos fuel
  = Ok (Stopped st) ->
  Forall (fun e => is_timer (ev_action e) = true) (env_queue st)
  /\ length (obs_service_times st) = length (obs_waiting_times st).
Proof.
  intros H. apply simulate_ok in H as (Hc & HT & H). symmetry in H.
  destruct (initial_state_ok num_tellers sim_time pos Hc HT) as ((HQ & _) & HL & _).
  exact (run_loop_stopped _ _ _ _ _ _ HQ HL H).
Qed.

End RunClaims.

(** A run of one teller, mean gap 2, mean service 1, cutoff 10, on
    [example_draws]: four customers arrive and start service, the second
    after waiting for the first to leave, and the fourth is still being
    served at the cutoff. *)
Example example_run :
  exists st,
    simulate example_draws 2 1 1 10 0 100 = Ok (Stopped st)
    /\ arrived (verbose_trace st) = [1; 2; 3; 4]%nat
    /\ started (verbose_trace st) = [1; 2; 3; 4]%nat
    /\ departed (verbose_trace st) = [1; 2; 3]%nat
    /\ map Qred (obs_waiting_times st) = [0; 1; 0; 0]
    /\ map Qred (obs_service_times st) = [3; 1; 1; 2]
    /\ bank_users st = [4%nat].
Proof.
  eexists. split; [vm_compute; reflexivity|].
  split; [vm_compute; reflexivity|]. split; [vm_compute; reflexivity|].
  split; [vm_compute; reflexivity|]. split; [vm_compute; reflexivity|].
  split; vm_compute; reflexivity.
Qed.

(** No teller, or a cutoff at 0: rejected before the loop, whatever the fuel. *)
Example example_rejected :
  simulate example_draws 2 1 0 10 0 0 = Raise ValueError
  /\ simulate example_draws 2 1 1 0 0 0 = Raise ValueError.
Proof. split; vm_compute; reflexivity. Qed.

(** C5. At every point of every run the number of customers holding a
    teller of the resource created with capacity [num_tellers] is at most
    [num_tellers].  [fuel] is the number of events dispatched so far, so
    the outcomes range over the states after every event as well as over
    the state at the cutoff or at a crash. *)
Theorem tellers_in_use_bounded (draws : nat -> Q) (num_tellers : Z)
    (mean_interarrival mean_service_time sim_time : Q) (pos fuel : nat) (o : outcome) :
  simulate draws mean_interarrival mean_service_time num_tellers sim_time pos fuel = Ok o ->
  (Z.of_nat (length (bank_users (outcome_state o))) <= num_tellers)%Z.
Proof.
  intros H. apply simulate_run_ok in H as (_ & _ & Hc & Hn).
  unfold capacity_ok in Hc. rewrite Hn in Hc. exact Hc.
Qed.

Lemma tellers_in_use_bounded_witness :
  exists o, simulate example_draws 2 1 1 10 0 12 = Ok o
            /\ bank_users (outcome_state o) = [2%nat]
            /\ (Z.of_nat (length (bank_users (outcome_state o))) <= 1)%Z.
Proof.
  eexists. split; [vm_compute; reflexivity|]. split; [vm_compute; reflexivity|].
  apply (tellers_in_use_bounded example_draws 1 2 1 10 0 12). vm_compute. reflexivity.
Defined.

Lemma simulate_observations_ok (draws : nat -> Q) (num_tellers : Z)
    (mean_interarrival mean_service_time sim_time : Q) (pos fuel : nat) (o : outcome) :
  (forall n, 0 <= draws n) -> 0 <= mean_service_time ->
  simulate draws mean_interarrival mean_service_time num_tellers sim_time pos fuel = Ok o ->
  observations_ok (outcome_state o).
Proof.
  intros Hd Hm H. apply simulate_ok in H as (Hc & HT & ->).
  destruct (initial_state_ok num_tellers sim_time pos Hc HT) as ((HQ & _) & _ & HO).
  apply (run_loop_invariant draws mean_interarrival mean_service_time
           (fun st => queue_ok st /\ observations_ok st)).
  - intros st [A B]. split.
    + apply queue_ok_step, A.
    + apply observations_ok_step; assumption.
  - split; assumption.
Qed.

Lemma run_single_simulation_returns (draws : nat -> Q) (num_tellers : Z)
    (mean_interarrival mean_service_time sim_time : Q) (run : Z) (fuel : nat)
    (w w' : world) (stats : run_stats) :
  run_single_simulation draws num_tellers mean_interarrival mean_service_time
    sim_time run fuel w = Returns (stats, w') ->
  exists st,
    simulate draws mean_interarrival mean_service_time num_tellers sim_time
      (world_random_pos w) fuel = Ok (Stopped st)
    /\ run_statistics run st (world_heap w) = (Ok stats, world_heap w')
    /\ world_random_pos w' = random_pos st.
Proof.
  unfold run_single_simulation. intros H.
  destruct (simulate _ _ _ _ _ _ _) as [[st|e st|st]|e]; try discriminate.
  destruct (run_statistics run st (world_heap w)) as [[s|e] h] eqn:Hs; try discriminate.
  injection H as <- <-. exists st. repeat split. exact Hs.
Qed.

(** C7. For every valid configuration and every run, the returned
    [customers_served] is at least 0, and every value appended to the
    run's [waiting_times] and [service_times] lists is at least 0: at
    every point of the run, and in the lists the returned dict refers to.
    The random stream is one of non-negative draws, as
    [-log(1.0 - random())] is. *)
Theorem recorded_times_nonneg (draws : nat -> Q) (num_tellers : Z)
    (mean_interarrival mean_service_time sim_time : Q) (num_runs run : Z)
    (fuel : nat) (w : world) :
  (forall n, 0 <= draws n) ->
  valid_configuration num_tellers mean_interarrival mean_service_time sim_time num_runs ->
  (forall o,
     simulate draws mean_interarrival mean_service_time num_tellers sim_time
       (world_random_pos w) fuel = Ok o ->
     Forall (fun x => 0 <= x) (obs_waiting_times (outcome_state o))
     /\ Forall (fun x => 0 <= x) (obs_service_times (outcome_state o)))
  /\ (forall stats w',
        run_single_simulation draws num_tellers mean_interarrival mean_service_time
          sim_time run fuel w = Returns (stats, w') ->
        (0 <= customers_served stats)%Z
        /\ exists ws ss,
             world_heap w' !! waiting_times stats = Some ws
             /\ world_heap w' !! service_times stats = Some ss
             /\ Forall (fun x => 0 <= x) ws /\ Forall (fun x => 0 <= x) ss).
Proof.
  intros Hd (_ & _ & Hm & _ & _).
  assert (Hm' : 0 <= mean_service_time) by lra.
  split.
  - intros o Ho.
    destruct (simulate_observations_ok _ _ _ _ _ _ _ _ Hd Hm' Ho) as [A B _ _].
    split; assumption.
  - intros stats w' Hrun.
    apply run_single_simulation_returns in Hrun as (st & Hsim & Hstat & _).
    destruct (simulate_observations_ok _ _ _ _ _ _ _ _ Hd Hm' Hsim) as [A B _ _].
    destruct (run_statistics_spec run st (world_heap w))
      as (stats' & h' & E & _ & Hc & Hw & Hs & _).
    rewrite Hstat in E. injection E as <- <-.
    split; [rewrite Hc; lia|].
    exists (obs_waiting_times st), (obs_service_times st).
    repeat split; assumption.
Qed.

Lemma recorded_times_nonneg_witness :
  (forall n, 0 <= example_draws n)
  /\ valid_configuration 1 2 1 10 3
  /\ exists stats w',
       run_single_simulation example_draws 1 2 1 10 1 100 empty_world = Returns (stats, w')
       /\ customers_served stats = 4%Z
       /\ (0 <= customers_served stats)%Z.
Proof.
  assert (Hd : forall n, 0 <= example_draws n).
  { intros n. unfold example_draws.
    do 8 (destruct n as [|n]; [vm_compute; discriminate|]).
    simpl. destruct n; vm_compute; discriminate. }
  assert (Hv : valid_configuration 1 2 1 10 3).
  { unfold valid_configuration. repeat split; try lia; reflexivity. }
  split; [exact Hd|]. split; [exact Hv|].
  eexists _, _. split; [vm_compute; reflexivity|]. split; [reflexivity|].
  destruct (recorded_times_nonneg example_draws 1 2 1 10 3 1 100 empty_world Hd Hv)
    as [_ Hret].
  refine (proj1 (Hret _ _ _)). vm_compute. reflexivity.
Defined.

(** C4. Pending requests are served in the order they were issued: at
    every point of every run the customers that have requested a teller
    are, in request order, those that started service, then those granted
    a teller and not yet resumed, then those still in the queue.  Hence
    for customers A and B with A's request before B's: if B has been
    granted a teller, A was granted one before, at a time no later. *)
Theorem tellers_granted_in_request_order (draws : nat -> Q) (num_tellers : Z)
    (mean_interarrival mean_service_time sim_time : Q) (pos fuel : nat) (o : outcome) :
  simulate draws mean_interarrival mean_service_time num_tellers sim_time pos fuel = Ok o ->
  let st := outcome_state o in
  let tr := verbose_trace st in
  arrived tr = started tr ++ granted_ids st ++ waiting_ids st
  /\ forall (i j k : nat) (A B : nat) (tB : Q),
       (i < j)%nat ->
       arrived tr !! i = Some A -> arrived tr !! j = Some B ->
       started tr !! k = Some B -> start_times tr !! k = Some tB ->
       k = j /\ started tr !! i = Some A
       /\ exists tA, start_times tr !! i = Some tA /\ tA <= tB.
Proof.
  intros H st tr. apply simulate_run_ok in H as (_ & [H1 H2 _ _ _ H6] & _).
  fold st in H1, H2, H6. fold tr in H1, H2, H6.
  split; [exact H1|].
  intros i j k A B tB Hij HA HB Hk Ht.
  apply NoDup_app in H2 as (Hnd & _ & _).
  assert (Hk' : arrived tr !! k = Some B).
  { rewrite H1. apply lookup_app_l_Some. exact Hk. }
  assert (Ekj : k = j) by (eapply NoDup_lookup; eassumption).
  subst k. split; [reflexivity|].
  pose proof (lookup_lt_Some _ _ _ Hk) as Hlen.
  assert (Hi : started tr !! i = Some A).
  { rewrite H1 in HA. rewrite lookup_app_l in HA by lia. exact HA. }
  split; [exact Hi|].
  destruct (lookup_lt_is_Some_2 (start_times tr) i) as [tA HtA].
  { rewrite start_times_length. lia. }
  exists tA. split; [exact HtA|].
  exact (StronglySorted_lookup _ _ _ _ _ H6 Hij HtA Ht).
Qed.

Lemma tellers_granted_in_request_order_witness :
  exists o tB,
    simulate example_draws 2 1 1 10 0 100 = Ok o
    /\ arrived (verbose_trace (outcome_state o)) !! 0%nat = Some 1%nat
    /\ arrived (verbose_trace (outcome_state o)) !! 1%nat = Some 2%nat
    /\ started (verbose_trace (outcome_state o)) !! 1%nat = Some 2%nat
    /\ start_times (verbose_trace (outcome_state o)) !! 1%nat = Some tB
    /\ started (verbose_trace (outcome_state o)) !! 0%nat = Some 1%nat
    /\ exists tA, start_times (verbose_trace (outcome_state o)) !! 0%nat = Some tA
                  /\ tA <= tB.
Proof.
  eexists _, _. split; [vm_compute; reflexivity|].
  split; [vm_compute; reflexivity|]. split; [vm_compute; reflexivity|].
  split; [vm_compute; reflexivity|]. split; [vm_compute; reflexivity|].
  refine (proj2 (proj2 (tellers_granted_in_request_order example_draws 1 2 1 10 0 100 _ _)
                         0%nat 1%nat 1%nat 1%nat 2%nat _ _ _ _ _ _)).
  - vm_compute. reflexivity.
  - lia.
  - vm_compute. reflexivity.
  - vm_compute. reflexivity.
  - vm_compute. reflexivity.
  - vm_compute. reflexivity.
Defined.

(** C8. The waiting time and the service time of a customer are appended
    when its service starts, whatever happens to it afterwards.  At every
    point of a run [waiting_times] is exactly the list of waits printed on
    the service-start lines.  At the cutoff both lists have one entry per
    customer that started service, at that customer's place in start
    order, whether or not it has left; no grant is left unresumed; a
    customer still in the queue has arrived and has no entry; and
    [customers_served] is the number of customers that started service. *)
Theorem observations_recorded_at_service_start (draws : nat -> Q) (num_tellers : Z)
    (mean_interarrival mean_service_time sim_time : Q) (pos fuel : nat) :
  (forall o,
     simulate draws mean_interarrival mean_service_time num_tellers sim_time pos fuel = Ok o ->
     obs_waiting_times (outcome_state o)
     = recorded_waits (verbose_trace (outcome_state o)))
  /\ (forall st,
        simulate draws mean_interarrival mean_service_time num_tellers sim_time pos fuel
        = Ok (Stopped st) ->
        let tr := verbose_trace st in
        length (obs_waiting_times st) = length (started tr)
        /\ length (obs_service_times st) = length (started tr)
        /\ (forall id, id ∈ started tr ->
              exists k w s, started tr !! k = Some id
                            /\ obs_waiting_times st !! k = Some w
                            /\ obs_service_times st !! k = Some s)
        /\ granted_ids st = []
        /\ (forall id, id ∈ waiting_ids st -> id ∈ arrived tr /\ id ∉ started tr)
        /\ forall run h stats h',
             run_statistics run st h = (Ok stats, h') ->
             customers_served stats = Z.of_nat (length (started tr))).
Proof.
  split.
  - intros o H. apply simulate_run_ok in H as (_ & [_ _ _ H4 _ _] & _). exact H4.
  - intros st H tr.
    pose proof (simulate_run_ok _ _ _ _ _ _ _ _ H) as (_ & [H1 H2 _ H4 _ _] & _).
    pose proof (simulate_stopped _ _ _ _ _ _ _ _ H) as [Ht Hlen].
    simpl outcome_state in *. fold tr in H1, H2, H4.
    assert (Hw : length (obs_waiting_times st) = length (started tr)).
    { rewrite H4. apply recorded_waits_length. }
    assert (Hg : granted_ids st = []).
    { unfold granted_ids. rewrite (only_timers_no_grant _ Ht). reflexivity. }
    split; [exact Hw|]. split; [lia|]. split; [|split; [exact Hg|split]].
    + intros id Hin. apply list_elem_of_lookup in Hin as [k Hk].
      pose proof (lookup_lt_Some _ _ _ Hk) as Hlt.
      destruct (lookup_lt_is_Some_2 (obs_waiting_times st) k) as [w' Hw']; [lia|].
      destruct (lookup_lt_is_Some_2 (obs_service_times st) k) as [s' Hs']; [lia|].
      exists k, w', s'. repeat split; assumption.
    + intros id Hin. rewrite Hg in H1. simpl in H1.
      apply NoDup_app in H2 as (Hnd & _ & _). rewrite H1 in Hnd.
      apply NoDup_app in Hnd as (_ & Hdis & _).
      split.
      * rewrite H1. apply elem_of_app. right. exact Hin.
      * intros Hs. exact (Hdis id Hs Hin).
    + intros run h stats h' Hstat.
      destruct (run_statistics_spec run st h) as (stats' & h'' & E & _ & Hc & _).
      rewrite Hstat in E. injection E as <- <-. rewrite Hc, Hw. reflexivity.
Qed.

Lemma observations_recorded_at_service_start_witness :
  exists st,
    simulate steady_draws 1 5 1 7 0 100 = Ok (Stopped st)
    /\ started (verbose_trace st) = [1%nat]
    /\ departed (verbose_trace st) = []
    /\ waiting_ids st = [2%nat; 3%nat]
    /\ length (obs_waiting_times st) = 1%nat
    /\ length (obs_service_times st) = 1%nat.
Proof.
  eexists. split; [vm_compute; reflexivity|].
  split; [vm_compute; reflexivity|]. split; [vm_compute; reflexivity|].
  split; [vm_compute; reflexivity|].
  destruct (proj2 (observations_recorded_at_service_start steady_draws 1 1 5 7 0 100)
              _ ltac:(vm_compute; reflexivity)) as (Hw & Hs & _).
  split; [exact Hw | exact Hs].
Defined.

(** * The claims about the aggregation *)

(** C2. A run in which no customer started service returns a result with
    [customers_served = 0] and the three averages equal to 0; and a result
    with no customer, wherever it stands in the list, is left out of
    [mean_avg_waiting_time], [std_avg_waiting_time],
    [mean_max_waiting_time] and [mean_avg_service_time] (they are what the
    other runs alone give, and 0 when there is no other run), while it
    counts in [total_runs] and in [avg_customers_per_run]. *)
Theorem zero_customer_runs (sqrt : Q -> Q) (draws : nat -> Q) (num_tellers : Z)
    (mean_interarrival mean_service_time sim_time : Q) (run : Z) (fuel : nat)
    (w : world) (st : state)
    (l1 l2 : list run_stats) (z : run_stats) (h h' : heap) (r' : overall_stats) :
  simulate draws mean_interarrival mean_service_time num_tellers sim_time
    (world_random_pos w) fuel = Ok (Stopped st) ->
  started (verbose_trace st) = [] ->
  customers_served z = 0%Z ->
  valid_refs h (l1 ++ z :: l2) ->
  calculate_overall_statistics sqrt (l1 ++ z :: l2) h = (Ok (Some r'), h') ->
  (exists stats w',
     run_single_simulation draws num_tellers mean_interarrival mean_service_time
       sim_time run fuel w = Returns (stats, w')
     /\ customers_served stats = 0%Z
     /\ avg_waiting_time stats = 0
     /\ max_waiting_time stats = 0
     /\ avg_service_time stats = 0)
  /\ total_runs r' = Z.of_nat (length (l1 ++ z :: l2))
  /\ avg_customers_per_run r'
     == inject_Z (total_customers_served r') / inject_Z (total_runs r')
  /\ match l1 ++ l2 with
     | [] =>
         mean_avg_waiting_time r' = 0 /\ std_avg_waiting_time r' = 0
         /\ mean_max_waiting_time r' = 0 /\ mean_avg_service_time r' = 0
     | _ :: _ =>
         exists r h'',
           calculate_overall_statistics sqrt (l1 ++ l2) h = (Ok (Some r), h'')
           /\ mean_avg_waiting_time r' = mean_avg_waiting_time r
           /\ std_avg_waiting_time r' = std_avg_waiting_time r
           /\ mean_max_waiting_time r' = mean_max_waiting_time r
           /\ mean_avg_service_time r' = mean_avg_service_time r
           /\ total_customers_served r' = total_customers_served r
           /\ total_runs r' = (total_runs r + 1)%Z
     end.
Proof.
  intros Hsim Hnone Hz Hvalid Hcalc. split.
  - pose proof (simulate_run_ok _ _ _ _ _ _ _ _ Hsim) as (_ & [_ _ _ H4 _ _] & _).
    pose proof (simulate_stopped _ _ _ _ _ _ _ _ Hsim) as [_ Hlen].
    simpl outcome_state in H4.
    assert (Hw : obs_waiting_times st = []).
    { apply length_zero_iff_nil. rewrite H4, recorded_waits_length, Hnone. reflexivity. }
    assert (Hs : obs_service_times st = []).
    { apply length_zero_iff_nil. rewrite Hlen, Hw. reflexivity. }
    destruct (run_statistics_spec run st (world_heap w))
      as (stats & h1 & E & _ & Hc & _ & _ & Ha & Hb & _).
    exists stats, {| world_random_pos := random_pos st; world_heap := h1 |}.
    split.
    + unfold run_single_simulation. rewrite Hsim, E. reflexivity.
    + rewrite Hc, Hw. destruct (Ha Hw) as [-> ->]. rewrite (Hb Hs). auto.
  - assert (Hne : l1 ++ z :: l2 <> []) by (destruct l1; discriminate).
    destruct (calculate_overall_statistics_spec sqrt _ h Hne Hvalid) as (h1 & E & _).
    rewrite Hcalc in E.
    destruct (overall_record sqrt (l1 ++ z :: l2) _ _) as [r0|] eqn:Hrec;
      [|discriminate].
    injection E as -> _.
    destruct (overall_record_counts sqrt _ _ _ _ Hrec) as (Hruns & _ & Havg).
    split; [exact Hruns|]. split; [exact Havg|].
    destruct (l1 ++ l2) as [|s0 rest] eqn:Hrest.
    + apply app_eq_nil in Hrest as [-> ->].
      refine (overall_record_only_zero_runs sqrt _ _ _ _ _ Hrec).
      constructor; [exact Hz | constructor].
    + assert (Hne' : l1 ++ l2 <> []) by (rewrite Hrest; discriminate).
      assert (Hvalid' : valid_refs h (l1 ++ l2)).
      { unfold valid_refs in *. apply Forall_app in Hvalid as [V1 V2].
        apply Forall_app. split; [exact V1|]. apply Forall_inv_tail in V2. exact V2. }
      destruct (calculate_overall_statistics_spec sqrt _ h Hne' Hvalid') as (h2 & E2 & _).
      destruct (overall_record_zero_run sqrt l1 l2 z _ _
                  (flattened waiting_times h (l1 ++ l2))
                  (flattened service_times h (l1 ++ l2)) _ Hz Hne' Hrec)
        as (r & Hr & Hfields).
      rewrite Hr in E2. rewrite <- Hrest. exists r, h2. split; [exact E2 | exact Hfields].
Qed.

Lemma zero_customer_runs_witness :
  exists st r' h',
    simulate sparse_draws 1 1 1 10 (world_random_pos empty_world) 100 = Ok (Stopped st)
    /\ started (verbose_trace st) = []
    /\ customers_served example_zero_run = 0%Z
    /\ valid_refs example_heap ([example_busy_run] ++ example_zero_run :: [])
    /\ calculate_overall_statistics example_sqrt
         ([example_busy_run] ++ example_zero_run :: []) example_heap
       = (Ok (Some r'), h')
    /\ total_runs r' = 2%Z
    /\ mean_avg_waiting_time r' = 3
    /\ exists stats w',
         run_single_simulation sparse_draws 1 1 1 10 1 100 empty_world
         = Returns (stats, w')
         /\ customers_served stats = 0%Z.
Proof.
  assert (Hv : valid_refs example_heap ([example_busy_run] ++ example_zero_run :: [])).
  { repeat constructor; eexists; vm_compute; reflexivity. }
  eexists _, _, _.
  split; [vm_compute; reflexivity|]. split; [vm_compute; reflexivity|].
  split; [reflexivity|]. split; [exact Hv|].
  split; [vm_compute; reflexivity|].
  split; [vm_compute; reflexivity|]. split; [vm_compute; reflexivity|].
  destruct (zero_customer_runs example_sqrt sparse_draws 1 1 1 10 1 100 empty_world
              _ [example_busy_run] [] example_zero_run example_heap _ _
              ltac:(vm_compute; reflexivity) ltac:(vm_compute; reflexivity)
              eq_refl Hv ltac:(vm_compute; reflexivity))
    as ((stats & w' & Hrun & Hc & _) & _).
  exists stats, w'. split; [exact Hrun | exact Hc].
Defined.

(** C3 as stated fails on the empty list: it has fewer than
    two qualifying runs, and the call returns [None], not a record whose
    deviation and interval are 0. *)
Lemma aggregation_underflow_counterexample :
  (length (List.filter served []) < 2)%nat
  /\ calculate_overall_statistics example_sqrt [] ∅ = (Ok None, ∅)
  /\ ~ exists r h',
         calculate_overall_statistics example_sqrt [] ∅ = (Ok (Some r), h')
         /\ std_avg_waiting_time r = 0
         /\ waiting_time_95ci_low r = 0
         /\ waiting_time_95ci_high r = 0.
Proof.
  split; [simpl; lia|]. split; [reflexivity|].
  intros (r & h' & H & _). discriminate H.
Qed.

(** C3, amended. For every non-empty list of run results with fewer than
    two runs with [customers_served > 0], the call returns a record with
    [std_avg_waiting_time], [waiting_time_95ci_low] and
    [waiting_time_95ci_high] equal to 0, and raises nothing. *)
Theorem aggregation_underflow (sqrt : Q -> Q) (all_stats : list run_stats) (h : heap) :
  all_stats <> [] ->
  (length (List.filter served all_stats) < 2)%nat ->
  valid_refs h all_stats ->
  exists r h',
    calculate_overall_statistics sqrt all_stats h = (Ok (Some r), h')
    /\ std_avg_waiting_time r = 0
    /\ waiting_time_95ci_low r = 0
    /\ waiting_time_95ci_high r = 0.
Proof.
  intros Hne Hfew Hvalid.
  destruct (calculate_overall_statistics_spec sqrt all_stats h Hne Hvalid) as (h' & E & _).
  destruct (overall_record_few sqrt all_stats
              (flattened waiting_times h all_stats)
              (flattened service_times h all_stats) Hne Hfew) as (r & Hr & Hz).
  rewrite Hr in E. exists r, h'. split; [exact E | exact Hz].
Qed.

Lemma aggregation_underflow_witness :
  [example_busy_run; example_zero_run] <> []
  /\ (length (List.filter served [example_busy_run; example_zero_run]) < 2)%nat
  /\ valid_refs example_heap [example_busy_run; example_zero_run]
  /\ exists r h',
       calculate_overall_statistics example_sqrt
         [example_busy_run; example_zero_run] example_heap = (Ok (Some r), h')
       /\ std_avg_waiting_time r = 0
       /\ waiting_time_95ci_low r = 0
       /\ waiting_time_95ci_high r = 0.
Proof.
  assert (Hv : valid_refs example_heap [example_busy_run; example_zero_run]).
  { repeat constructor; eexists; vm_compute; reflexivity. }
  split; [discriminate|]. split; [simpl; lia|]. split; [exact Hv|].
  apply (aggregation_underflow example_sqrt [example_busy_run; example_zero_run]
           example_heap); [discriminate | simpl; lia | exact Hv].
Defined.

(** C9. Two successive calls on the same list of run results return the
    same output, and a call leaves every list object that existed before
    it, so every list a run result refers to, as it was. *)
Theorem aggregation_is_repeatable (sqrt : Q -> Q) (all_stats : list run_stats) (h : heap) :
  valid_refs h all_stats ->
  exists out h1 h2,
    calculate_overall_statistics sqrt all_stats h = (out, h1)
    /\ calculate_overall_statistics sqrt all_stats h1 = (out, h2)
    /\ (forall k, is_Some (h !! k) -> h1 !! k = h !! k)
    /\ flattened waiting_times h1 all_stats = flattened waiting_times h all_stats
    /\ flattened service_times h1 all_stats = flattened service_times h all_stats.
Proof.
  intros Hvalid. destruct all_stats as [|s rest] eqn:Hl.
  - exists (Ok None), h, h. repeat split; reflexivity.
  - rewrite <- Hl in *.
    assert (Hne : all_stats <> []) by (rewrite Hl; discriminate).
    destruct (calculate_overall_statistics_spec sqrt all_stats h Hne Hvalid)
      as (h1 & E1 & Hkeep).
    assert (Hvalid1 : valid_refs h1 all_stats).
    { eapply Forall_impl; [exact Hvalid|]. intros x [Hw Hs].
      rewrite (Hkeep _ Hw), (Hkeep _ Hs). split; assumption. }
    assert (Fw : flattened waiting_times h1 all_stats = flattened waiting_times h all_stats).
    { apply flattened_ext. eapply Forall_impl; [exact Hvalid|].
      intros x [Hw _]. apply Hkeep, Hw. }
    assert (Fs : flattened service_times h1 all_stats = flattened service_times h all_stats).
    { apply flattened_ext. eapply Forall_impl; [exact Hvalid|].
      intros x [_ Hs]. apply Hkeep, Hs. }
    destruct (calculate_overall_statistics_spec sqrt all_stats h1 Hne Hvalid1)
      as (h2 & E2 & _).
    rewrite Fw, Fs in E2.
    eexists _, h1, h2. split; [exact E1|]. split; [exact E2|].
    split; [exact Hkeep|]. split; assumption.
Qed.

Lemma aggregation_is_repeatable_witness :
  valid_refs example_heap [example_busy_run; example_zero_run]
  /\ exists out h1 h2,
       calculate_overall_statistics example_sqrt
         [example_busy_run; example_zero_run] example_heap = (out, h1)
       /\ calculate_overall_statistics example_sqrt
            [example_busy_run; example_zero_run] h1 = (out, h2)
       /\ h1 !! 2%nat = Some [3].
Proof.
  assert (Hv : valid_refs example_heap [example_busy_run; example_zero_run]).
  { repeat constructor; eexists; vm_compute; reflexivity. }
  split; [exact Hv|].
  destruct (aggregation_is_repeatable example_sqrt [example_busy_run; example_zero_run]
              example_heap Hv) as (out & h1 & h2 & E1 & E2 & Hkeep & _).
  exists out, h1, h2. split; [exact E1|]. split; [exact E2|].
  rewrite Hkeep; [vm_compute; reflexivity | eexists; vm_compute; reflexivity].
Defined.

(** C10. On the empty list of run results the call returns [None], and
    allocates nothing. *)
Theorem aggregation_of_no_runs (sqrt : Q -> Q) (h : heap) :
  calculate_overall_statistics sqrt [] h = (Ok None, h).
Proof. reflexivity. Qed.

(** * Determinism *)

Section Determinism.

Variables draws1 draws2 : nat -> Q.
Hypothesis same_stream : forall n, draws1 n = draws2 n.

Variables mean_interarrival mean_service_time : Q.

Lemma step_ext (st : state) :
  step draws1 mean_interarrival mean_service_time st
  = step draws2 mean_interarrival mean_service_time st.
Proof using same_stream.
  unfold step. destruct (env_queue st) as [|ev q]; [reflexivity|].
  destruct (ev_action ev); try reflexivity;
    unfold resume, customer_arrivals_resumed, customer_arrivals_loop,
      customer_start_service, with_request, bind, effect, lift, get_now, ret,
      expovariate, timeout; simpl; rewrite ?same_stream; reflexivity.
Qed.

Lemma run_loop_ext (fuel : nat) (st : state) :
  run_loop draws1 mean_interarrival mean_service_time fuel st
  = run_loop draws2 mean_interarrival mean_service_time fuel st.
Proof using same_stream.
  revert st. induction fuel as [|fuel IH]; intros st; simpl; [reflexivity|].
  rewrite step_ext. destruct (step draws2 _ _ st); [apply IH | reflexivity..].
Qed.

(** More fuel does not change a run that has ended. *)
Lemma run_loop_more (fuel fuel' : nat) (st : state) :
  (fuel <= fuel')%nat ->
  match run_loop draws1 mean_interarrival mean_service_time fuel st with
  | Out_of_fuel _ => True
  | o => run_loop draws1 mean_interarrival mean_service_time fuel' st = o
  end.
Proof.
  revert fuel' st. induction fuel as [|fuel IH]; intros fuel' st Hle; simpl; [exact I|].
  destruct fuel' as [|fuel']; [lia|]. simpl.
  destruct (step draws1 _ _ st); [apply IH; lia | reflexivity..].
Qed.

Lemma simulate_deterministic (num_tellers : Z) (sim_time : Q) (pos : nat)
    (fuel1 fuel2 : nat) (st1 st2 : state) :
  simulate draws1 mean_interarrival mean_service_time num_tellers sim_time pos fuel1
  = Ok (Stopped st1) ->
  simulate draws2 mean_interarrival mean_service_time num_tellers sim_time pos fuel2
  = Ok (Stopped st2) ->
  st1 = st2.
Proof using same_stream.
  intros H1 H2.
  apply simulate_ok in H1 as (_ & _ & H1). apply simulate_ok in H2 as (_ & _ & H2).
  rewrite <- run_loop_ext in H2.
  pose proof (run_loop_more fuel1 (Nat.max fuel1 fuel2)
                (initial_state num_tellers sim_time pos) ltac:(lia)) as M1.
  pose proof (run_loop_more fuel2 (Nat.max fuel1 fuel2)
                (initial_state num_tellers sim_time pos) ltac:(lia)) as M2.
  rewrite <- H1 in M1. rewrite <- H2 in M2. congruence.
Qed.

End Determinism.

Lemma run_sequences_kept (h h' : heap) (l : list run_stats) :
  valid_refs h l ->
  (forall k, is_Some (h !! k) -> h' !! k = h !! k) ->
  map (run_sequences h') l = map (run_sequences h) l /\ valid_refs h' l.
Proof.
  intros Hv Hkeep. split.
  - apply map_ext_Forall. eapply Forall_impl; [exact Hv|].
    intros s [Hw Hs]. unfold run_sequences. rewrite (Hkeep _ Hw), (Hkeep _ Hs). reflexivity.
  - eapply Forall_impl; [exact Hv|]. intros s [Hw Hs].
    rewrite (Hkeep _ Hw), (Hkeep _ Hs). split; assumption.
Qed.

Section RunsDeterminism.

Variables draws1 draws2 : nat -> Q.
Hypothesis same_stream : forall n, draws1 n = draws2 n.

Variable num_tellers : Z.
Variables mean_interarrival mean_service_time sim_time : Q.
Variables fuel1 fuel2 : nat.

Lemma run_single_simulation_deterministic (run : Z) (w1 w2 w1' w2' : world)
    (s1 s2 : run_stats) :
  world_random_pos w1 = world_random_pos w2 ->
  run_single_simulation draws1 num_tellers mean_interarrival mean_service_time
    sim_time run fuel1 w1 = Returns (s1, w1') ->
  run_single_simulation draws2 num_tellers mean_interarrival mean_service_time
    sim_time run fuel2 w2 = Returns (s2, w2') ->
  world_random_pos w1' = world_random_pos w2'
  /\ run_sequences (world_heap w1') s1 = run_sequences (world_heap w2') s2
  /\ valid_refs (world_heap w1') [s1] /\ valid_refs (world_heap w2') [s2]
  /\ (forall k, is_Some (world_heap w1 !! k) -> world_heap w1' !! k = world_heap w1 !! k)
  /\ (forall k, is_Some (world_heap w2 !! k) -> world_heap w2' !! k = world_heap w2 !! k).
Proof using same_stream.
  intros Hpos H1 H2.
  apply run_single_simulation_returns in H1 as (st1 & Hsim1 & Hstat1 & Hp1).
  apply run_single_simulation_returns in H2 as (st2 & Hsim2 & Hstat2 & Hp2).
  rewrite Hpos in Hsim1.
  pose proof (simulate_deterministic draws1 draws2 same_stream _ _ _ _ _ _ _ _ _
                Hsim1 Hsim2) as <-.
  destruct (run_statistics_spec run st1 (world_heap w1))
    as (x1 & h1 & E1 & _ & _ & Hw1 & Hs1 & _ & _ & K1).
  destruct (run_statistics_spec run st1 (world_heap w2))
    as (x2 & h2 & E2 & _ & _ & Hw2 & Hs2 & _ & _ & K2).
  rewrite Hstat1 in E1. injection E1 as <- <-.
  rewrite Hstat2 in E2. injection E2 as <- <-.
  split; [congruence|]. split; [unfold run_sequences; congruence|].
  split; [constructor; [split; eauto | constructor]|].
  split; [constructor; [split; eauto | constructor]|].
  split; assumption.
Qed.

Lemma simulation_runs_deterministic (runs : list Z) :
  forall (all1 all2 : list run_stats) (w1 w2 w1' w2' : world) (l1 l2 : list run_stats),
    world_random_pos w1 = world_random_pos w2 ->
    map (run_sequences (world_heap w1)) all1 = map (run_sequences (world_heap w2)) all2 ->
    valid_refs (world_heap w1) all1 -> valid_refs (world_heap w2) all2 ->
    simulation_runs draws1 num_tellers mean_interarrival mean_service_time sim_time
      fuel1 runs all1 w1 = Returns (l1, w1') ->
    simulation_runs draws2 num_tellers mean_interarrival mean_service_time sim_time
      fuel2 runs all2 w2 = Returns (l2, w2') ->
    map (run_sequences (world_heap w1')) l1 = map (run_sequences (world_heap w2')) l2
    /\ valid_refs (world_heap w1') l1 /\ valid_refs (world_heap w2') l2
    /\ world_random_pos w1' = world_random_pos w2'.
Proof using same_stream.
  induction runs as [|run rest IH]; intros all1 all2 w1 w2 w1' w2' l1 l2 Hpos Hseq V1 V2 H1 H2;
    simpl in H1, H2.
  - injection H1 as <- <-. injection H2 as <- <-. auto.
  - destruct (run_single_simulation draws1 _ _ _ _ run fuel1 w1) as [[s1 v1]| |] eqn:R1;
      try discriminate.
    destruct (run_single_simulation draws2 _ _ _ _ run fuel2 w2) as [[s2 v2]| |] eqn:R2;
      try discriminate.
    destruct (run_single_simulation_deterministic run _ _ _ _ _ _ Hpos R1 R2)
      as (Hp & Hs & Vs1 & Vs2 & K1 & K2).
    destruct (run_sequences_kept _ _ _ V1 K1) as [M1 V1'].
    destruct (run_sequences_kept _ _ _ V2 K2) as [M2 V2'].
    apply (IH (all1 ++ [s1]) (all2 ++ [s2]) v1 v2 w1' w2' l1 l2); try assumption.
    + rewrite !map_app, M1, M2, Hseq. simpl. rewrite Hs. reflexivity.
    + apply Forall_app. split; assumption.
    + apply Forall_app. split; assumption.
Qed.

End RunsDeterminism.

(** C6. Executing the whole set of runs twice on the same random stream
    gives, run by run, the same waiting-time and service-time sequences.
    The two executions may differ in everything else they depend on: the
    stream is the same draw by draw, the heaps they start from and the
    fuel they are given need not be. *)
Theorem runs_are_deterministic (draws1 draws2 : nat -> Q) (num_tellers : Z)
    (mean_interarrival mean_service_time sim_time : Q) (num_runs : Z)
    (fuel1 fuel2 : nat) (w1 w2 w1' w2' : world) (l1 l2 : list run_stats) :
  (forall n, draws1 n = draws2 n) ->
  world_random_pos w1 = world_random_pos w2 ->
  run_multiple_simulations draws1 num_tellers mean_interarrival mean_service_time
    sim_time num_runs fuel1 w1 = Returns (l1, w1') ->
  run_multiple_simulations draws2 num_tellers mean_interarrival mean_service_time
    sim_time num_runs fuel2 w2 = Returns (l2, w2') ->
  map (run_sequences (world_heap w1')) l1 = map (run_sequences (world_heap w2')) l2
  /\ valid_refs (world_heap w1') l1 /\ valid_refs (world_heap w2') l2
  /\ world_random_pos w1' = world_random_pos w2'.
Proof.
  intros Hd Hpos H1 H2. unfold run_multiple_simulations in H1, H2.
  eapply (simulation_runs_deterministic draws1 draws2 Hd); try eassumption.
  - reflexivity.
  - constructor.
  - constructor.
Qed.

Lemma runs_are_deterministic_witness :
  exists l1 w1' l2 w2',
    (forall n, example_draws n = example_draws n)
    /\ world_random_pos empty_world
       = world_random_pos {| world_random_pos := 0; world_heap := example_heap |}
    /\ run_multiple_simulations example_draws 1 2 1 10 2 100 empty_world
       = Returns (l1, w1')
    /\ run_multiple_simulations example_draws 1 2 1 10 2 150
         {| world_random_pos := 0; world_heap := example_heap |}
       = Returns (l2, w2')
    /\ length l1 = 2%nat
    /\ map (run_sequences (world_heap w1')) l1 = map (run_sequences (world_heap w2')) l2.
Proof.
  eexists _, _, _, _.
  split; [reflexivity|]. split; [reflexivity|].
  split; [vm_compute; reflexivity|]. split; [vm_compute; reflexivity|].
  split; [reflexivity|].
  refine (proj1 (runs_are_deterministic example_draws example_draws 1 2 1 10 2 100 150
                   empty_world {| world_random_pos := 0; world_heap := example_heap |}
                   _ _ _ _ (fun n => eq_refl) eq_refl _ _));
    vm_compute; reflexivity.
Defined.

(** * Configurations the run does not survive *)

Lemma key_ltb_earlier (a b : event) : ev_time a < ev_time b -> key_ltb a b = true.
Proof. intros H. apply key_ltb_spec. left. exact H. Qed.

Lemma key_ltb_later (a b : event) : ev_time b < ev_time a -> key_ltb a b = false.
Proof.
  intros H. destruct (key_ltb a b) eqn:E; [|reflexivity].
  apply key_ltb_spec in E as [E|[E _]]; lra.
Qed.

Lemma initial_state_eq (num_tellers : Z) (sim_time : Q) (pos : nat) :
  0 < sim_time ->
  initial_state num_tellers sim_time pos
  = {| env_now := 0;
       env_queue :=
         [ {| ev_time := 0 + 0; ev_priority := URGENT; ev_eid := 0;
              ev_action := Initialize_arrivals |};
           {| ev_time := 0 + (sim_time - 0); ev_priority := URGENT; ev_eid := 1;
              ev_action := Stop_simulation |} ];
       env_eid := 2;
       bank_capacity := num_tellers; bank_users := []; bank_put_queue := [];
       gen_customer_id := 0; random_pos := pos;
       obs_waiting_times := []; obs_service_times := []; verbose_trace := [] |}.
Proof.
  intros HT. unfold initial_state, schedule, set_eid, set_queue.
  cbn [env_now env_queue env_eid heappush].
  rewrite key_ltb_later by (simpl; lra). reflexivity.
Qed.

Section FailingArrivals.

Variable draws : nat -> Q.
Variables mean_interarrival mean_service_time : Q.
Variable pos : nat.

(** The mean is zero, or the first gap drawn is negative, which takes
    a negative mean. *)
Hypothesis bad_mean :
  mean_interarrival == 0
  \/ (~ mean_interarrival == 0 /\ draws pos / (1 / mean_interarrival) < 0).

(** The arrival generator fails before its first yield: on the
    division when the mean is zero, and otherwise on the negative delay
    it hands to [env.timeout], one draw later. *)
Lemma failing_arrivals_loop (st : state) :
  random_pos st = pos ->
  resume (customer_arrivals_loop draws mean_interarrival) st
  = schedule NORMAL 0
      (Process_failed (if Qeq_bool mean_interarrival 0
                       then ZeroDivisionError else ValueError))
      (set_random_pos (if Qeq_bool mean_interarrival 0 then pos else S pos) st).
Proof using bad_mean.
  intros Hpos.
  unfold resume, customer_arrivals_loop, bind, lift, expovariate, timeout, float_div.
  destruct bad_mean as [Hz|[Hnz Hgap]].
  - apply Qeq_bool_iff in Hz. rewrite Hz. rewrite <- Hpos.
    rewrite set_random_pos_same. reflexivity.
  - assert (E1 : Qeq_bool mean_interarrival 0 = false).
    { destruct (Qeq_bool mean_interarrival 0) eqn:E; [|reflexivity].
      apply Qeq_bool_iff in E. contradiction. }
    assert (E2 : Qeq_bool (1 / mean_interarrival) 0 = false).
    { destruct (Qeq_bool (1 / mean_interarrival) 0) eqn:E; [|reflexivity].
      apply Qeq_bool_iff in E.
      assert (H1 : 1 / mean_interarrival * mean_interarrival == 1)
        by (field; exact Hnz).
      rewrite E in H1. lra. }
    assert (E3 : Qlt_bool (draws (random_pos st) / (1 / mean_interarrival)) 0 = true).
    { unfold Qlt_bool. rewrite negb_true_iff. rewrite Hpos.
      destruct (Qle_bool 0 _) eqn:E; [|reflexivity].
      apply Qle_bool_iff in E. lra. }
    rewrite E1, E2, E3, Hpos. reflexivity.
Qed.

(** The failure is the next event dispatched. *)
Lemma failing_arrivals_first_step (num_tellers : Z) (sim_time : Q) :
  0 < sim_time ->
  step draws mean_interarrival mean_service_time (initial_state num_tellers sim_time pos)
  = Next {| env_now := 0 + 0;
            env_queue :=
              [ {| ev_time := 0 + 0 + 0; ev_priority := NORMAL; ev_eid := 2;
                   ev_action :=
                     Process_failed (if Qeq_bool mean_interarrival 0
                                     then ZeroDivisionError else ValueError) |};
                {| ev_time := 0 + (sim_time - 0); ev_priority := URGENT; ev_eid := 1;
                   ev_action := Stop_simulation |} ];
            env_eid := 3;
            bank_capacity := num_tellers; bank_users := []; bank_put_queue := [];
            gen_customer_id := 0;
            random_pos := if Qeq_bool mean_interarrival 0 then pos else S pos;
            obs_waiting_times := []; obs_service_times := []; verbose_trace := [] |}.
Proof using bad_mean.
  intros HT. rewrite (initial_state_eq _ _ _ HT).
  unfold step. cbn [env_queue ev_action ev_time].
  rewrite failing_arrivals_loop by reflexivity.
  unfold schedule, set_eid, set_queue, set_now, set_random_pos.
  cbn [env_now env_queue env_eid heappush bank_capacity bank_users bank_put_queue
       gen_customer_id random_pos obs_waiting_times obs_service_times verbose_trace].
  rewrite key_ltb_earlier by (simpl; lra). reflexivity.
Qed.

Lemma failing_arrivals_run (num_tellers : Z) (sim_time : Q) (fuel : nat) :
  0 < sim_time ->
  let o := run_loop draws mean_interarrival mean_service_time fuel
             (initial_state num_tellers sim_time pos) in
  ((2 <= fuel)%nat ->
   exists st, o = Crashed (if Qeq_bool mean_interarrival 0
                           then ZeroDivisionError else ValueError) st)
  /\ env_now (outcome_state o) == 0
  /\ obs_waiting_times (outcome_state o) = []
  /\ obs_service_times (outcome_state o) = []
  /\ verbose_trace (outcome_state o) = []
  /\ gen_customer_id (outcome_state o) = 0%nat.
Proof using bad_mean.
  intros HT o. subst o.
  destruct fuel as [|[|fuel]].
  - simpl. rewrite (initial_state_eq _ _ _ HT). simpl.
    split; [lia|]. repeat split; reflexivity.
  - simpl. rewrite (failing_arrivals_first_step _ _ HT). simpl.
    split; [lia|]. repeat split; try reflexivity; try lra.
  - simpl. rewrite (failing_arrivals_first_step _ _ HT). simpl.
    split; [intros _; eexists; reflexivity|]. repeat split; try reflexivity; try lra.
Qed.

End FailingArrivals.

(** C1 as stated fails.  With [num_runs = 0] no error is raised: the
    list of results is empty.  With [mean_service_time = 0] the division
    fails only when the first customer is resumed with its teller, after
    its wait has been recorded and two of its lines printed; and when no
    customer arrives before the cutoff the run returns a result and
    nothing is raised.  With a negative [mean_interarrival] and a first
    draw of zero the first gap is zero, not negative, and the first
    customer has arrived when the second gap, a negative delay, is
    rejected. *)
Lemma invalid_configuration_counterexample :
  run_multiple_simulations example_draws 1 2 1 10 0 100 empty_world
  = Returns ([], empty_world)
  /\ (exists st,
        simulate steady_draws 1 0 1 10 0 100 = Ok (Crashed ZeroDivisionError st)
        /\ length (obs_waiting_times st) = 1%nat
        /\ length (verbose_trace st) = 2%nat)
  /\ (exists stats w',
        run_single_simulation sparse_draws 1 1 0 10 1 100 empty_world
        = Returns (stats, w')
        /\ customers_served stats = 0%Z)
  /\ (exists st,
        simulate zero_first_draws (-1) 1 1 10 0 100 = Ok (Crashed ValueError st)
        /\ gen_customer_id st = 1%nat
        /\ arrived (verbose_trace st) = [1%nat]
        /\ run_single_simulation_output zero_first_draws 1 (-1) 1 10 1 true 100 empty_world
           = [Run_header 1; Customer_line (Arrives 1 (0 + 0 + 0))]).
Proof.
  split; [vm_compute; reflexivity|]. split; [|split].
  - eexists. split; [vm_compute; reflexivity|]. split; vm_compute; reflexivity.
  - eexists _, _. split; [vm_compute; reflexivity|]. reflexivity.
  - eexists. split; [vm_compute; reflexivity|]. split; [vm_compute; reflexivity|].
    split; vm_compute; reflexivity.
Qed.

(** C1, amended.  A configuration with [num_tellers <= 0], with
    [sim_time <= 0], with [mean_interarrival = 0], or one whose first
    inter-arrival gap, the first draw divided by [1 / mean_interarrival],
    is negative, makes [run_single_simulation] raise: [ValueError], from
    the resource or from [env.run], for the first two;
    [ZeroDivisionError] for a zero mean and [ValueError], from
    [env.timeout], for a negative gap, both from the arrival generator's
    first resumption.  Nothing of the
    simulation has happened by then: the clock is at 0, no customer has
    been spawned, nothing is recorded, and the output of the call is the
    run header alone for the verbose run and nothing otherwise.  With
    [num_runs <= 0] no run takes place and the empty list is returned
    without an error. *)
Theorem invalid_configuration_detected (draws : nat -> Q) (num_tellers : Z)
    (mean_interarrival mean_service_time sim_time : Q) (run num_runs : Z) (w : world) :
  ((num_tellers <= 0)%Z \/ sim_time <= 0 \/ mean_interarrival == 0
   \/ (~ mean_interarrival == 0
       /\ draws (world_random_pos w) / (1 / mean_interarrival) < 0) ->
   (forall fuel, (2 <= fuel)%nat ->
      run_single_simulation draws num_tellers mean_interarrival
        mean_service_time sim_time run fuel w
      = Raises (if (num_tellers <=? 0)%Z || Qle_bool sim_time 0 then ValueError
                else if Qeq_bool mean_interarrival 0 then ZeroDivisionError
                else ValueError))
   /\ (forall fuel o,
         simulate draws mean_interarrival mean_service_time num_tellers sim_time
           (world_random_pos w) fuel = Ok o ->
         env_now (outcome_state o) == 0
         /\ obs_waiting_times (outcome_state o) = []
         /\ obs_service_times (outcome_state o) = []
         /\ verbose_trace (outcome_state o) = []
         /\ gen_customer_id (outcome_state o) = 0%nat)
   /\ (forall fuel verbose,
         run_single_simulation_output draws num_tellers mean_interarrival
           mean_service_time sim_time run verbose fuel w
         = if verbose then [Run_header run] else []))
  /\ ((num_runs <= 0)%Z ->
      forall fuel,
        run_multiple_simulations draws num_tellers mean_interarrival
          mean_service_time sim_time num_runs fuel w = Returns ([], w)).
Proof.
  split.
  - intros Hbad.
    assert (Hout : (forall fuel o,
                      simulate draws mean_interarrival mean_service_time num_tellers
                        sim_time (world_random_pos w) fuel = Ok o ->
                      obs_waiting_times (outcome_state o) = []
                      /\ verbose_trace (outcome_state o) = []) ->
                   forall fuel verbose,
                     run_single_simulation_output draws num_tellers mean_interarrival
                       mean_service_time sim_time run verbose fuel w
                     = if verbose then [Run_header run] else []).
    { intros Hnone fuel verbose. unfold run_single_simulation_output.
      destruct verbose; [|reflexivity].
      destruct (simulate draws mean_interarrival mean_service_time num_tellers sim_time
                  (world_random_pos w) fuel) as [o|e] eqn:Ho; [|reflexivity].
      destruct (Hnone fuel o Ho) as [Hw Ht]. rewrite Ht.
      destruct o as [st|e st|st]; simpl in Hw; [rewrite Hw|..]; reflexivity. }
    destruct (Z.leb_spec num_tellers 0) as [Hc|Hc].
    { assert (Hsim : forall fuel,
                 simulate draws mean_interarrival mean_service_time num_tellers
                   sim_time (world_random_pos w) fuel = Raise ValueError).
      { intros fuel. unfold simulate, new_resource.
        apply Z.leb_le in Hc. rewrite Hc. reflexivity. }
      split; [|split].
      - intros fuel _. simpl orb.
        unfold run_single_simulation. rewrite Hsim. reflexivity.
      - intros fuel o Ho. rewrite Hsim in Ho. discriminate.
      - apply Hout. intros fuel o Ho. rewrite Hsim in Ho. discriminate. }
    destruct (Qlt_le_dec 0 sim_time) as [HT|HT].
    2:{ assert (Hsim : forall fuel,
                 simulate draws mean_interarrival mean_service_time num_tellers
                   sim_time (world_random_pos w) fuel = Raise ValueError).
        { intros fuel. unfold simulate, new_resource, env_run.
          apply Z.leb_gt in Hc. rewrite Hc. simpl env_now.
          apply Qle_bool_iff in HT. rewrite HT. reflexivity. }
        split; [|split].
        - intros fuel _. apply Qle_bool_iff in HT. rewrite HT. simpl orb.
          unfold run_single_simulation. rewrite Hsim. reflexivity.
        - intros fuel o Ho. rewrite Hsim in Ho. discriminate.
        - apply Hout. intros fuel o Ho. rewrite Hsim in Ho. discriminate. }
    assert (Hb : mean_interarrival == 0
                 \/ (~ mean_interarrival == 0
                     /\ draws (world_random_pos w) / (1 / mean_interarrival) < 0)).
    { destruct Hbad as [Hb|[Hb|Hb]]; [lia | lra | exact Hb]. }
    assert (Hsim : forall fuel,
               simulate draws mean_interarrival mean_service_time num_tellers
                 sim_time (world_random_pos w) fuel
               = Ok (run_loop draws mean_interarrival mean_service_time fuel
                       (initial_state num_tellers sim_time (world_random_pos w)))).
    { intros fuel. unfold simulate, new_resource, env_run.
      apply Z.leb_gt in Hc. rewrite Hc. simpl env_now.
      destruct (Qle_bool sim_time 0) eqn:E; [|reflexivity].
      apply Qle_bool_iff in E. lra. }
    assert (Hstate : forall fuel o,
               simulate draws mean_interarrival mean_service_time num_tellers sim_time
                 (world_random_pos w) fuel = Ok o ->
               env_now (outcome_state o) == 0
               /\ obs_waiting_times (outcome_state o) = []
               /\ obs_service_times (outcome_state o) = []
               /\ verbose_trace (outcome_state o) = []
               /\ gen_customer_id (outcome_state o) = 0%nat).
    { intros fuel o Ho. rewrite Hsim in Ho. injection Ho as <-.
      apply (failing_arrivals_run draws mean_interarrival mean_service_time
               (world_random_pos w) Hb num_tellers sim_time fuel HT). }
    split; [|split].
    + intros fuel Hf.
      destruct (Qle_bool sim_time 0) eqn:E; [apply Qle_bool_iff in E; lra|].
      simpl orb. unfold run_single_simulation. rewrite Hsim.
      destruct (failing_arrivals_run draws mean_interarrival mean_service_time
                  (world_random_pos w) Hb num_tellers sim_time fuel HT) as [Hcr _].
      destruct (Hcr Hf) as [st ->]. reflexivity.
    + exact Hstate.
    + apply Hout. intros fuel o Ho.
      destruct (Hstate fuel o Ho) as (_ & Hw & _ & Ht & _). split; assumption.
  - intros Hn fuel. unfold run_multiple_simulations, py_range.
    replace (Z.to_nat (num_runs + 1 - 1)) with 0%nat by lia. reflexivity.
Qed.

Lemma invalid_configuration_detected_witness :
  ((1 <= 0)%Z \/ 10 <= 0 \/ -2 == 0
   \/ (~ -2 == 0 /\ example_draws 0 / (1 / -2) < 0))
  /\ (0 <= 0)%Z
  /\ run_single_simulation example_draws 1 (-2) 1 10 1 100 empty_world = Raises ValueError
  /\ run_single_simulation_output example_draws 1 (-2) 1 10 1 true 100 empty_world
     = [Run_header 1]
  /\ run_multiple_simulations example_draws 1 (-2) 1 10 0 100 empty_world
     = Returns ([], empty_world).
Proof.
  assert (H1 : (1 <= 0)%Z \/ 10 <= 0 \/ -2 == 0
               \/ (~ -2 == 0 /\ example_draws 0 / (1 / -2) < 0)).
  { right. right. right. split; [lra | vm_compute; reflexivity]. }
  assert (H2 : (0 <= 0)%Z) by lia.
  split; [exact H1|]. split; [exact H2|].
  destruct (invalid_configuration_detected example_draws 1 (-2) 1 10 1 0 empty_world)
    as [HA HB].
  destruct (HA H1) as (Hraise & _ & Hout).
  split; [apply (Hraise 100%nat); lia|].
  split; [exact (Hout 100%nat true) | exact (HB H2 100%nat)].
Defined.

(** * More on [max] and [statistics.mean] *)

Lemma py_max_from (l : list Q) (acc : Q) :
  let m := fold_left (fun m y => if Qlt_bool m y then y else m) l acc in
  acc <= m /\ Forall (fun x => x <= m) l /\ (m = acc \/ In m l).
Proof.
  revert acc. induction l as [|y l IH]; intros acc; simpl.
  - split; [lra|]. split; [constructor | left; reflexivity].
  - destruct (IH (if Qlt_bool acc y then y else acc)) as (H1 & H2 & H3).
    assert (Hacc : acc <= (if Qlt_bool acc y then y else acc)
                   /\ y <= (if Qlt_bool acc y then y else acc)).
    { unfold Qlt_bool. destruct (Qle_bool y acc) eqn:E; simpl.
      - apply Qle_bool_iff in E. split; lra.
      - assert (~ y <= acc) by (intros Hle; apply Qle_bool_iff in Hle; congruence).
        split; lra. }
    destruct Hacc as [Ha Hy].
    split; [lra|]. split.
    + constructor; [lra | exact H2].
    + destruct H3 as [H3|H3]; [|right; right; exact H3].
      rewrite H3. destruct (Qlt_bool acc y); [right; left; reflexivity | left; reflexivity].
Qed.

(** [max] returns an element that no element exceeds. *)
Lemma py_max_spec (l : list Q) (m : Q) :
  py_max l = Ok m -> Forall (fun x => x <= m) l /\ In m l.
Proof.
  destruct l as [|x l]; [discriminate|]. simpl. intros H. injection H as <-.
  destruct (py_max_from l x) as (H1 & H2 & H3). split.
  - constructor; assumption.
  - destruct H3 as [->|H3]; [left; reflexivity | right; exact H3].
Qed.

Lemma Qsum_from (l : list Q) (acc : Q) : fold_left Qplus l acc == acc + Qsum l.
Proof.
  unfold Qsum. revert acc. induction l as [|x l IH]; intros acc; simpl.
  - lra.
  - rewrite (IH (acc + x)), (IH (0 + x)). lra.
Qed.

Lemma Qsum_cons (x : Q) (l : list Q) : Qsum (x :: l) == x + Qsum l.
Proof. unfold Qsum at 1. simpl. rewrite Qsum_from. lra. Qed.

Lemma len_cons (x : Q) (l : list Q) : len (x :: l) == 1 + len l.
Proof.
  unfold len. simpl length. rewrite Nat2Z.inj_succ, <- Z.add_1_l, inject_Z_plus.
  reflexivity.
Qed.

Lemma len_nonneg (l : list Q) : 0 <= len l.
Proof.
  unfold len. change 0 with (inject_Z 0). rewrite <- Zle_Qle. lia.
Qed.

Lemma Qsum_upper (l : list Q) (m : Q) :
  Forall (fun x => x <= m) l -> Qsum l <= len l * m.
Proof.
  induction 1 as [|x l Hx _ IH].
  - change (Qsum []) with 0. change (len []) with 0. lra.
  - rewrite Qsum_cons, len_cons. lra.
Qed.

Lemma Qsum_lower (l : list Q) (m : Q) :
  Forall (fun x => m <= x) l -> len l * m <= Qsum l.
Proof.
  induction 1 as [|x l Hx _ IH].
  - change (Qsum []) with 0. change (len []) with 0. lra.
  - rewrite Qsum_cons, len_cons. lra.
Qed.

(** The mean is no larger than a bound on every element, and no smaller. *)
Lemma mean_upper (l : list Q) (a m : Q) :
  mean l = Ok a -> Forall (fun x => x <= m) l -> a <= m.
Proof.
  unfold mean. destruct l as [|x l]; [discriminate|]. simpl Nat.ltb. cbv iota.
  intros H Hall. injection H as <-.
  assert (Hpos : 0 < len (x :: l)) by (rewrite len_cons; pose proof (len_nonneg l); lra).
  apply Qle_shift_div_r; [exact Hpos|].
  rewrite Qmult_comm. apply Qsum_upper. exact Hall.
Qed.

Lemma mean_lower (l : list Q) (a m : Q) :
  mean l = Ok a -> Forall (fun x => m <= x) l -> m <= a.
Proof.
  unfold mean. destruct l as [|x l]; [discriminate|]. simpl Nat.ltb. cbv iota.
  intros H Hall. injection H as <-.
  assert (Hpos : 0 < len (x :: l)) by (rewrite len_cons; pose proof (len_nonneg l); lra).
  apply Qle_shift_div_l; [exact Hpos|].
  rewrite Qmult_comm. apply Qsum_lower. exact Hall.
Qed.

(** * The results of several runs *)

Lemma run_statistics_fresh (run : Z) (st : state) (h h' : heap) (stats : run_stats) :
  run_statistics run st h = (Ok stats, h') ->
  h !! waiting_times stats = None /\ h !! service_times stats = None
  /\ waiting_times stats <> service_times stats.
Proof.
  unfold run_statistics, bind, lift, ret.
  destruct (guarded_mean_ok (obs_waiting_times st)) as [v1 E1].
  destruct (guarded_max_ok (obs_waiting_times st)) as [v2 E2].
  destruct (guarded_mean_ok (obs_service_times st)) as [v3 E3].
  rewrite E1, E2, E3.
  destruct (alloc_spec (obs_waiting_times st) h) as (lw & -> & Hlw).
  destruct (alloc_spec (obs_service_times st) (<[lw := obs_waiting_times st]> h))
    as (ls & -> & Hls).
  intros H. injection H as <- _. simpl.
  assert (Hne : lw <> ls).
  { intros ->. rewrite lookup_insert_eq in Hls. discriminate. }
  split; [exact Hlw|]. split; [|exact Hne].
  rewrite lookup_insert_ne in Hls by exact Hne. exact Hls.
Qed.

(** The three summary entries are what the guarded expressions of lines
    92 to 94 evaluate to. *)
Lemma run_statistics_values (run : Z) (st : state) (h h' : heap) (stats : run_stats) :
  run_statistics run st h = (Ok stats, h') ->
  match obs_waiting_times st with [] => Ok 0 | _ => mean (obs_waiting_times st) end
  = Ok (avg_waiting_time stats)
  /\ match obs_waiting_times st with [] => Ok 0 | _ => py_max (obs_waiting_times st) end
     = Ok (max_waiting_time stats)
  /\ match obs_service_times st with [] => Ok 0 | _ => mean (obs_service_times st) end
     = Ok (avg_service_time stats).
Proof.
  unfold run_statistics, bind, lift, ret.
  destruct (guarded_mean_ok (obs_waiting_times st)) as [v1 E1].
  destruct (guarded_max_ok (obs_waiting_times st)) as [v2 E2].
  destruct (guarded_mean_ok (obs_service_times st)) as [v3 E3].
  rewrite E1, E2, E3.
  destruct (alloc_spec (obs_waiting_times st) h) as (lw & -> & Hlw).
  destruct (alloc_spec (obs_service_times st) (<[lw := obs_waiting_times st]> h))
    as (ls & -> & Hls).
  intros H. injection H as <- _. simpl. auto.
Qed.

(** A guarded mean lies between any bounds of its data. *)
Lemma guarded_mean_between (l : list Q) (a lo hi : Q) :
  match l with [] => Ok 0 | _ => mean l end = Ok a ->
  l <> [] ->
  Forall (fun x => lo <= x <= hi) l ->
  lo <= a <= hi.
Proof.
  intros Ha Hne Hall. destruct l as [|x l]; [congruence|].
  split.
  - apply (mean_lower _ _ _ Ha). eapply Forall_impl; [exact Hall|].
    intros y Hy. simpl in Hy. lra.
  - apply (mean_upper _ _ _ Ha). eapply Forall_impl; [exact Hall|].
    intros y Hy. simpl in Hy. lra.
Qed.

Lemma guarded_mean_max (l : list Q) (a m : Q) :
  match l with [] => Ok 0 | _ => mean l end = Ok a ->
  match l with [] => Ok 0 | _ => py_max l end = Ok m ->
  Forall (fun x => x <= m) l /\ (l <> [] -> In m l) /\ a <= m.
Proof.
  destruct l as [|x l]; intros Ha Hm.
  - injection Ha as <-. injection Hm as <-.
    split; [constructor|]. split; [congruence | lra].
  - destruct (py_max_spec _ _ Hm) as [Hall Hin].
    split; [exact Hall|]. split; [intros _; exact Hin|].
    exact (mean_upper _ _ _ Ha Hall).
Qed.

Lemma result_ok_kept (h0 h h' : heap) (l : list run_stats) :
  Forall (result_ok h0 h) l ->
  (forall k, is_Some (h !! k) -> h' !! k = h !! k) ->
  Forall (result_ok h0 h') l.
Proof.
  intros Hall Hkeep. eapply Forall_impl; [exact Hall|].
  intros s (ws & ss & Hw & Hs & Hrest). exists ws, ss.
  rewrite (Hkeep _ (ex_intro _ ws Hw)), (Hkeep _ (ex_intro _ ss Hs)). auto.
Qed.

Lemma summary_ok_kept (h h' : heap) (l : list run_stats) :
  Forall (summary_ok h) l ->
  (forall k, is_Some (h !! k) -> h' !! k = h !! k) ->
  Forall (summary_ok h') l.
Proof.
  intros Hall Hkeep. eapply Forall_impl; [exact Hall|].
  intros s (ws & ss & Hw & Hs & Hrest). exists ws, ss.
  rewrite (Hkeep _ (ex_intro _ ws Hw)), (Hkeep _ (ex_intro _ ss Hs)). auto.
Qed.

Lemma result_refs_app (l1 l2 : list run_stats) :
  result_refs (l1 ++ l2) = result_refs l1 ++ result_refs l2.
Proof. unfold result_refs. apply flat_map_app. Qed.

Lemma result_refs_live (h0 h : heap) (l : list run_stats) (k : nat) :
  Forall (result_ok h0 h) l -> In k (result_refs l) -> is_Some (h !! k).
Proof.
  intros Hall Hin. unfold result_refs in Hin.
  apply in_flat_map in Hin as (s & Hs & Hk).
  rewrite List.Forall_forall in Hall.
  destruct (Hall s Hs) as (ws & ss & Hw & Hss & _).
  destruct Hk as [<-|[<-|[]]]; eauto.
Qed.

Section SeveralRuns.

Variable draws : nat -> Q.
Variable num_tellers : Z.
Variables mean_interarrival mean_service_time sim_time : Q.
Variable fuel : nat.

Lemma run_single_simulation_result (run : Z) (w w' : world) (s : run_stats) :
  run_single_simulation draws num_tellers mean_interarrival mean_service_time
    sim_time run fuel w = Returns (s, w') ->
  run_number s = run
  /\ result_ok (world_heap w) (world_heap w') s
  /\ summary_ok (world_heap w') s
  /\ waiting_times s <> service_times s
  /\ (forall k, is_Some (world_heap w !! k) -> world_heap w' !! k = world_heap w !! k).
Proof.
  intros H.
  apply run_single_simulation_returns in H as (st & Hsim & Hstat & Hpos).
  destruct (run_statistics_spec run st (world_heap w))
    as (s' & h' & E & Hrun & Hc & Hw & Hs & _ & _ & Hkeep).
  rewrite Hstat in E. injection E as <- <-.
  destruct (run_statistics_fresh _ _ _ _ _ Hstat) as (Fw & Fs & Hne).
  pose proof (simulate_stopped _ _ _ _ _ _ _ _ Hsim) as [_ Hlen].
  destruct (run_statistics_values _ _ _ _ _ Hstat) as (Ea & Em & Es).
  split; [exact Hrun|]. split.
  { exists (obs_waiting_times st), (obs_service_times st). repeat split; assumption. }
  split.
  { exists (obs_waiting_times st), (obs_service_times st). repeat split; assumption. }
  split; [exact Hne | exact Hkeep].
Qed.

(** The loop of [run_multiple_simulations]: results are appended in the
    order of the run numbers, each with two list objects of its own. *)
Lemma simulation_runs_results (runs : list Z) :
  forall (h0 : heap) (all l : list run_stats) (w w' : world),
    Forall (result_ok h0 (world_heap w)) all ->
    Forall (summary_ok (world_heap w)) all ->
    List.NoDup (result_refs all) ->
    (forall k, is_Some (h0 !! k) -> world_heap w !! k = h0 !! k) ->
    simulation_runs draws num_tellers mean_interarrival mean_service_time sim_time
      fuel runs all w = Returns (l, w') ->
    map run_number l = map run_number all ++ runs
    /\ Forall (result_ok h0 (world_heap w')) l
    /\ Forall (summary_ok (world_heap w')) l
    /\ List.NoDup (result_refs l)
    /\ (forall k, is_Some (h0 !! k) -> world_heap w' !! k = h0 !! k).
Proof.
  induction runs as [|run rest IH]; intros h0 all l w w' Hall Hsum Hnd Hkeep H; simpl in H.
  - injection H as <- <-. rewrite app_nil_r. auto.
  - destruct (run_single_simulation draws _ _ _ _ run fuel w) as [[s v]| |] eqn:R;
      try discriminate.
    destruct (run_single_simulation_result _ _ _ _ R) as (Hrun & Hs & Hsm & Hne & K).
    assert (Hsum' : Forall (summary_ok (world_heap v)) (all ++ [s])).
    { apply Forall_app. split; [exact (summary_ok_kept _ _ _ Hsum K)|].
      constructor; [exact Hsm | constructor]. }
    assert (Hkeep' : forall k, is_Some (h0 !! k) -> world_heap v !! k = h0 !! k).
    { intros k Hk. rewrite <- (Hkeep k Hk). apply K. rewrite (Hkeep k Hk). exact Hk. }
    assert (Hall' : Forall (result_ok h0 (world_heap v)) (all ++ [s])).
    { apply Forall_app. split; [exact (result_ok_kept _ _ _ _ Hall K)|].
      constructor; [|constructor].
      destruct Hs as (ws & ss & Hw & Hss & Hc & Hl & Fw & Fs).
      exists ws, ss. repeat split; try assumption.
      - destruct (h0 !! waiting_times s) eqn:E0; [|reflexivity].
        rewrite <- (Hkeep _ (ex_intro _ _ E0)) in E0. congruence.
      - destruct (h0 !! service_times s) eqn:E0; [|reflexivity].
        rewrite <- (Hkeep _ (ex_intro _ _ E0)) in E0. congruence. }
    assert (Hnd' : List.NoDup (result_refs (all ++ [s]))).
    { rewrite result_refs_app. simpl. apply List.NoDup_app; [exact Hnd| |].
      - destruct Hs as (ws & ss & _ & _ & _ & _ & Fw & Fs).
        constructor.
        + intros [E|[]]. exact (Hne (eq_sym E)).
        + constructor; [intros []|constructor].
      - intros k Hk Hin.
        destruct (result_refs_live _ _ _ _ Hall Hk) as [x Hx].
        destruct Hs as (ws & ss & _ & _ & _ & _ & Fw & Fs).
        destruct Hin as [<-|[<-|[]]]; congruence. }
    destruct (IH h0 _ _ _ _ Hall' Hsum' Hnd' Hkeep' H) as (Hnum & Hres & Hsm2 & Hnd2 & K2).
    split; [|auto].
    rewrite Hnum, map_app. simpl. rewrite Hrun, <- app_assoc. reflexivity.
Qed.

End SeveralRuns.

Lemma py_range_lookup (a b : Z) (i : nat) (x : Z) :
  py_range a b !! i = Some x -> x = (a + Z.of_nat i)%Z.
Proof.
  unfold py_range. rewrite list_lookup_fmap. intros H.
  destruct (seq 0 (Z.to_nat (b - a)) !! i) as [j|] eqn:E; [|discriminate].
  apply lookup_seq in E as [-> _]. simpl in H. injection H as <-. reflexivity.
Qed.

Lemma py_range_length (a b : Z) : length (py_range a b) = Z.to_nat (b - a).
Proof. unfold py_range. rewrite length_map, length_seq. reflexivity. Qed.

(** X1. [run_multiple_simulations] returns one result per run, in run
    order: the list has [num_runs] entries (none when [num_runs] is not
    positive) and the entry at index [i] carries [run_number] [i + 1]. *)
Theorem runs_numbered_in_order (draws : nat -> Q) (num_tellers : Z)
    (mean_interarrival mean_service_time sim_time : Q) (num_runs : Z) (fuel : nat)
    (w w' : world) (l : list run_stats) :
  run_multiple_simulations draws num_tellers mean_interarrival mean_service_time
    sim_time num_runs fuel w = Returns (l, w') ->
  length l = Z.to_nat num_runs
  /\ forall i s, l !! i = Some s -> run_number s = (Z.of_nat i + 1)%Z.
Proof.
  unfold run_multiple_simulations. intros H.
  apply (simulation_runs_results draws num_tellers mean_interarrival mean_service_time
           sim_time fuel _ (world_heap w)) in H as (Hnum & _);
    [|constructor | constructor | constructor | reflexivity].
  simpl in Hnum. split.
  - rewrite <- (length_map run_number), Hnum, py_range_length. f_equal. lia.
  - intros i s Hi.
    assert (Hx : map run_number l !! i = Some (run_number s)).
    { rewrite list_lookup_fmap, Hi. reflexivity. }
    rewrite Hnum in Hx. apply py_range_lookup in Hx. lia.
Qed.

Lemma runs_numbered_in_order_witness :
  exists l w',
    run_multiple_simulations example_draws 1 2 1 10 3 100 empty_world = Returns (l, w')
    /\ length l = 3%nat
    /\ forall i s, l !! i = Some s -> run_number s = (Z.of_nat i + 1)%Z.
Proof.
  eexists _, _. split; [vm_compute; reflexivity|].
  eapply (runs_numbered_in_order example_draws 1 2 1 10 3 100 empty_world).
  vm_compute. reflexivity.
Defined.

(** X2. The results of [run_multiple_simulations] share no list object:
    the [waiting_times] and [service_times] lists of all returned dicts
    are pairwise distinct objects, none of which existed before the call;
    in each dict [customers_served] is the length of its [waiting_times]
    list and its [service_times] list has the same length; and every list
    object that existed before the call is unchanged. *)
Theorem run_results_are_separate (draws : nat -> Q) (num_tellers : Z)
    (mean_interarrival mean_service_time sim_time : Q) (num_runs : Z) (fuel : nat)
    (w w' : world) (l : list run_stats) :
  run_multiple_simulations draws num_tellers mean_interarrival mean_service_time
    sim_time num_runs fuel w = Returns (l, w') ->
  List.NoDup (result_refs l)
  /\ Forall (result_ok (world_heap w) (world_heap w')) l
  /\ forall k, is_Some (world_heap w !! k) -> world_heap w' !! k = world_heap w !! k.
Proof.
  unfold run_multiple_simulations. intros H.
  apply (simulation_runs_results draws num_tellers mean_interarrival mean_service_time
           sim_time fuel _ (world_heap w)) in H as (_ & Hres & _ & Hnd & K);
    [|constructor | constructor | constructor | reflexivity].
  auto.
Qed.

Lemma run_results_are_separate_witness :
  exists l w',
    run_multiple_simulations example_draws 1 2 1 10 2 100
      {| world_random_pos := 0; world_heap := example_heap |} = Returns (l, w')
    /\ result_refs l = [4; 5; 6; 7]%nat
    /\ List.NoDup (result_refs l)
    /\ Forall (result_ok example_heap (world_heap w')) l
    /\ forall k, is_Some (example_heap !! k) -> world_heap w' !! k = example_heap !! k.
Proof.
  eexists _, _. split; [vm_compute; reflexivity|]. split; [vm_compute; reflexivity|].
  eapply (run_results_are_separate example_draws 1 2 1 10 2 100
           {| world_random_pos := 0; world_heap := example_heap |}).
  vm_compute. reflexivity.
Defined.

(** X3. The summary entries of the dict [run_single_simulation] returns
    agree with its lists: [max_waiting_time] bounds every recorded wait
    and is one of them when there is any, the average wait never exceeds
    the maximum, and [avg_waiting_time] and [avg_service_time] lie
    between any lower and upper bound of the waits, respectively of the
    service times, that were recorded. *)
Theorem run_summary_consistent (draws : nat -> Q) (num_tellers : Z)
    (mean_interarrival mean_service_time sim_time : Q) (run : Z) (fuel : nat)
    (w w' : world) (s : run_stats) :
  run_single_simulation draws num_tellers mean_interarrival mean_service_time
    sim_time run fuel w = Returns (s, w') ->
  exists ws ss,
    world_heap w' !! waiting_times s = Some ws
    /\ world_heap w' !! service_times s = Some ss
    /\ Forall (fun x => x <= max_waiting_time s) ws
    /\ (ws <> [] -> In (max_waiting_time s) ws)
    /\ avg_waiting_time s <= max_waiting_time s
    /\ (forall lo hi, ws <> [] -> Forall (fun x => lo <= x <= hi) ws ->
                      lo <= avg_waiting_time s <= hi)
    /\ (forall lo hi, ss <> [] -> Forall (fun x => lo <= x <= hi) ss ->
                      lo <= avg_service_time s <= hi).
Proof.
  intros H.
  apply run_single_simulation_returns in H as (st & Hsim & Hstat & Hpos).
  destruct (run_statistics_spec run st (world_heap w))
    as (s' & h' & E & _ & _ & Hw & Hs & _ & _ & _).
  rewrite Hstat in E. injection E as <- <-.
  destruct (run_statistics_values _ _ _ _ _ Hstat) as (Ea & Em & Es).
  destruct (guarded_mean_max _ _ _ Ea Em) as (Hall & Hin & Hle).
  exists (obs_waiting_times st), (obs_service_times st).
  split; [exact Hw|]. split; [exact Hs|]. split; [exact Hall|]. split; [exact Hin|].
  split; [exact Hle|]. split.
  - intros lo hi Hne Hb. exact (guarded_mean_between _ _ _ _ Ea Hne Hb).
  - intros lo hi Hne Hb. exact (guarded_mean_between _ _ _ _ Es Hne Hb).
Qed.

Lemma run_summary_consistent_witness :
  exists s w',
    run_single_simulation example_draws 1 2 1 10 1 100 empty_world = Returns (s, w')
    /\ Qred (max_waiting_time s) = 1
    /\ Qred (avg_waiting_time s) = 1 # 4
    /\ exists ws ss,
         world_heap w' !! waiting_times s = Some ws
         /\ world_heap w' !! service_times s = Some ss
         /\ Forall (fun x => x <= max_waiting_time s) ws
         /\ (ws <> [] -> In (max_waiting_time s) ws)
         /\ avg_waiting_time s <= max_waiting_time s
         /\ (forall lo hi, ws <> [] -> Forall (fun x => lo <= x <= hi) ws ->
                           lo <= avg_waiting_time s <= hi)
         /\ (forall lo hi, ss <> [] -> Forall (fun x => lo <= x <= hi) ss ->
                           lo <= avg_service_time s <= hi).
Proof.
  eexists _, _. split; [vm_compute; reflexivity|]. split; [vm_compute; reflexivity|].
  split; [vm_compute; reflexivity|].
  eapply (run_summary_consistent example_draws 1 2 1 10 1 100 empty_world).
  vm_compute. reflexivity.
Defined.

(** * More on the aggregation *)

Lemma len_positive (x : Q) (l : list Q) : 0 < len (x :: l).
Proof. rewrite len_cons. pose proof (len_nonneg l). lra. Qed.

Lemma float_div_nonzero (x y : Q) : ~ y == 0 -> float_div x y = Ok (x / y).
Proof.
  intros Hy. unfold float_div.
  destruct (Qeq_bool y 0) eqn:E; [|reflexivity].
  apply Qeq_bool_iff in E. contradiction.
Qed.

Section AggregationValues.

Variable sqrt : Q -> Q.

Ltac open_record H :=
  match type of H with
  | result_bind ?x _ = _ =>
      let v := fresh "v" in
      let E := fresh "E" in
      destruct x as [v|] eqn:E; simpl result_bind in H; [|discriminate H]
  end.

(** Each entry of the record is the value of its expression. *)
Lemma overall_record_inv (all_stats : list run_stats) (all_w all_s : list Q)
    (r : overall_stats) :
  overall_record sqrt all_stats all_w all_s = Ok r ->
  let avgs := map avg_waiting_time (List.filter served all_stats) in
  let maxs := map max_waiting_time (List.filter served all_stats) in
  match avgs with [] => Ok 0 | _ => mean avgs end = Ok (mean_avg_waiting_time r)
  /\ (if (1 <? length avgs)%nat then stdev sqrt avgs else Ok 0)
     = Ok (std_avg_waiting_time r)
  /\ match maxs with [] => Ok 0 | _ => mean maxs end = Ok (mean_max_waiting_time r)
  /\ match all_w with [] => Ok 0 | _ => mean all_w end = Ok (overall_avg_waiting_time r)
  /\ match all_w with [] => Ok 0 | _ => py_max all_w end = Ok (overall_max_waiting_time r)
  /\ match all_s with [] => Ok 0 | _ => mean all_s end = Ok (overall_avg_service_time r)
  /\ (if (1 <? length avgs)%nat then
        let+ m := mean avgs in let+ hw := half_width sqrt avgs in Ok (m - hw)
      else Ok 0) = Ok (waiting_time_95ci_low r)
  /\ (if (1 <? length avgs)%nat then
        let+ m := mean avgs in let+ hw := half_width sqrt avgs in Ok (m + hw)
      else Ok 0) = Ok (waiting_time_95ci_high r).
Proof.
  intros H. unfold overall_record in H.
  open_record H. open_record H. open_record H. open_record H. open_record H.
  open_record H. open_record H. open_record H. open_record H. open_record H.
  injection H as <-. simpl. repeat split; assumption.
Qed.

Lemma overall_record_service (all_stats : list run_stats) (all_w all_s : list Q)
    (r : overall_stats) :
  overall_record sqrt all_stats all_w all_s = Ok r ->
  match map avg_service_time (List.filter served all_stats) with
  | [] => Ok 0
  | _ => mean (map avg_service_time (List.filter served all_stats))
  end = Ok (mean_avg_service_time r).
Proof.
  intros H. unfold overall_record in H.
  open_record H. open_record H. open_record H. open_record H. open_record H.
  open_record H. open_record H. open_record H. open_record H. open_record H.
  injection H as <-. reflexivity.
Qed.

(** What a returned record was computed from. *)
Lemma calculate_overall_statistics_returns (all_stats : list run_stats) (h h' : heap)
    (r : overall_stats) :
  valid_refs h all_stats ->
  calculate_overall_statistics sqrt all_stats h = (Ok (Some r), h') ->
  all_stats <> []
  /\ overall_record sqrt all_stats (flattened waiting_times h all_stats)
       (flattened service_times h all_stats) = Ok r.
Proof.
  intros Hv H.
  assert (Hne : all_stats <> []).
  { intros ->. discriminate. }
  split; [exact Hne|].
  destruct (calculate_overall_statistics_spec sqrt all_stats h Hne Hv) as (h2 & E & _).
  rewrite H in E.
  destruct (overall_record sqrt all_stats _ _) as [r'|e]; [|discriminate].
  injection E as <- _. reflexivity.
Qed.

(** With a square root that is not zero on positive numbers every
    expression of the record has a value. *)
Lemma overall_record_total (all_stats : list run_stats) (all_w all_s : list Q) :
  (forall x, 0 < x -> ~ sqrt x == 0) ->
  all_stats <> [] ->
  exists r, overall_record sqrt all_stats all_w all_s = Ok r.
Proof.
  intros Hsqrt Hne. unfold overall_record.
  rewrite mean_nonempty by (destruct all_stats; [congruence | discriminate]).
  simpl result_bind.
  destruct (guarded_mean_ok (map avg_waiting_time (List.filter served all_stats)))
    as [v1 ->].
  destruct (guarded_mean_ok (map max_waiting_time (List.filter served all_stats)))
    as [v2 ->].
  destruct (guarded_mean_ok (map avg_service_time (List.filter served all_stats)))
    as [v3 ->].
  destruct (guarded_mean_ok all_w) as [v4 ->].
  destruct (guarded_max_ok all_w) as [v5 ->].
  destruct (guarded_mean_ok all_s) as [v6 ->].
  simpl result_bind.
  destruct (1 <? length (map avg_waiting_time (List.filter served all_stats)))%nat eqn:E.
  - apply Nat.ltb_lt in E.
    set (avgs := map avg_waiting_time (List.filter served all_stats)) in *.
    assert (Hm : mean avgs = Ok (Qsum avgs / len avgs)).
    { apply mean_nonempty. destruct avgs; [simpl in E; lia | discriminate]. }
    assert (Hv : exists v, variance avgs = Ok v).
    { unfold variance. replace (length avgs <? 2)%nat with false
        by (symmetry; apply Nat.ltb_ge; lia).
      rewrite Hm. simpl. eexists. reflexivity. }
    destruct Hv as [v Hv].
    assert (Hs : stdev sqrt avgs = Ok (sqrt v)).
    { unfold stdev. rewrite Hv. reflexivity. }
    assert (Hh : half_width sqrt avgs = Ok ((196 # 100) * sqrt v / sqrt (len avgs))).
    { unfold half_width. rewrite Hs. simpl. apply float_div_nonzero.
      apply Hsqrt. destruct avgs as [|a avgs']; [simpl in E; lia|]. apply len_positive. }
    rewrite Hs, Hm, Hh. simpl. eexists. reflexivity.
  - simpl. eexists. reflexivity.
Qed.

(** With two or more qualifying runs the interval is the mean of the
    per-run averages plus and minus the same half-width. *)
Lemma overall_record_interval (all_stats : list run_stats) (all_w all_s : list Q)
    (r : overall_stats) :
  (1 < length (List.filter served all_stats))%nat ->
  overall_record sqrt all_stats all_w all_s = Ok r ->
  exists v,
    variance (map avg_waiting_time (List.filter served all_stats)) = Ok v
    /\ std_avg_waiting_time r = sqrt v
    /\ waiting_time_95ci_low r
       == mean_avg_waiting_time r
          - (196 # 100) * std_avg_waiting_time r
            / sqrt (inject_Z (Z.of_nat (length (List.filter served all_stats))))
    /\ waiting_time_95ci_high r
       == mean_avg_waiting_time r
          + (196 # 100) * std_avg_waiting_time r
            / sqrt (inject_Z (Z.of_nat (length (List.filter served all_stats)))).
Proof.
  intros Hlen H.
  apply overall_record_inv in H as (Hm & Hsd & _ & _ & _ & _ & Hlo & Hhi).
  set (avgs := map avg_waiting_time (List.filter served all_stats)) in *.
  assert (Hl : length avgs = length (List.filter served all_stats)).
  { unfold avgs. apply length_map. }
  replace (1 <? length avgs)%nat with true in *
    by (symmetry; apply Nat.ltb_lt; lia).
  assert (Hm' : mean avgs = Ok (mean_avg_waiting_time r)).
  { destruct avgs; [simpl in Hl; lia | exact Hm]. }
  rewrite Hm' in Hlo, Hhi. simpl in Hlo, Hhi.
  unfold stdev in Hsd. unfold half_width, stdev in Hlo, Hhi.
  destruct (variance avgs) as [v|] eqn:Hv; [|discriminate].
  simpl in Hsd, Hlo, Hhi. injection Hsd as Hsd.
  exists v. split; [reflexivity|]. split; [symmetry; exact Hsd|].
  unfold float_div in Hlo, Hhi.
  destruct (Qeq_bool (sqrt (len avgs)) 0); [discriminate|].
  simpl in Hlo, Hhi. injection Hlo as Hlo. injection Hhi as Hhi.
  rewrite <- Hlo, <- Hhi, <- Hsd. unfold len. rewrite Hl. split; reflexivity.
Qed.

End AggregationValues.

Lemma flattened_cons (field : run_stats -> loc) (h : heap) (s : run_stats)
    (l : list run_stats) :
  flattened field h (s :: l) = contents h (field s) ++ flattened field h l.
Proof. reflexivity. Qed.

Lemma flattened_In (field : run_stats -> loc) (h : heap) (l : list run_stats)
    (s : run_stats) (xs : list Q) (x : Q) :
  In s l -> h !! field s = Some xs -> In x xs -> In x (flattened field h l).
Proof.
  intros Hs Hxs Hx. unfold flattened. apply in_concat.
  exists xs. split; [|exact Hx].
  apply in_map_iff. exists s. split; [|exact Hs].
  unfold contents. rewrite Hxs. reflexivity.
Qed.

Lemma In_flattened (field : run_stats -> loc) (h : heap) (l : list run_stats) (x : Q) :
  In x (flattened field h l) ->
  exists s xs, In s l /\ h !! field s = Some xs /\ In x xs.
Proof.
  unfold flattened. intros Hin. apply in_concat in Hin as (xs & Hxs & Hx).
  apply in_map_iff in Hxs as (s & Hc & Hs).
  exists s, xs. split; [exact Hs|]. split; [|exact Hx].
  unfold contents in Hc. destruct (h !! field s) as [ys|]; simpl in Hc.
  - congruence.
  - subst xs. destruct Hx.
Qed.

(** The flattened waits are as many as the customers served. *)
Lemma flattened_length (h0 h : heap) (l : list run_stats) :
  Forall (result_ok h0 h) l ->
  Z.of_nat (length (flattened waiting_times h l)) = Zsum (map customers_served l).
Proof.
  induction l as [|s l IH]; intros Hr.
  - reflexivity.
  - pose proof (Forall_inv Hr) as (ws & ss & Hw & _ & Hc & _).
    rewrite flattened_cons. unfold contents. rewrite Hw. simpl default.
    rewrite length_app, Nat2Z.inj_add, (IH (Forall_inv_tail Hr)). simpl map.
    rewrite Zsum_cons, Hc. reflexivity.
Qed.

(** The maximum of a run that served somebody is one of the flattened
    waits. *)
Lemma served_max_flattened (h0 h : heap) (l : list run_stats) (s : run_stats) :
  Forall (result_ok h0 h) l -> Forall (summary_ok h) l ->
  In s l -> served s = true ->
  In (max_waiting_time s) (flattened waiting_times h l)
  /\ In (avg_waiting_time s) (map avg_waiting_time (List.filter served l)).
Proof.
  intros Hr Hs Hin Hsv.
  rewrite List.Forall_forall in Hr, Hs.
  destruct (Hr s Hin) as (ws & ss & Hw & _ & Hc & _).
  destruct (Hs s Hin) as (ws' & ss' & Hw' & _ & _ & Hm & _).
  rewrite Hw in Hw'. injection Hw' as <-.
  split.
  - apply (flattened_In waiting_times h l s ws); [exact Hin | exact Hw |].
    destruct ws as [|x ws].
    + unfold served in Hsv. rewrite Hc in Hsv. discriminate.
    + apply (py_max_spec _ _ Hm).
  - apply in_map. apply List.filter_In. split; assumption.
Qed.

(** X4. The guards of [calculate_overall_statistics] suffice: with a
    square root that is not zero on positive numbers, on any non-empty
    list of run results whose lists exist, however many runs served a
    customer, the call raises no [StatisticsError] (every [mean] is
    guarded by non-emptiness, [stdev] by two data points), no
    [ValueError] ([max] is guarded) and no [ZeroDivisionError] (the
    divisor [len ** 0.5] is the root of a positive number).  Overflow of
    floating-point numbers inside [statistics.stdev] is outside the
    model and is not covered. *)
Theorem aggregation_guards_suffice (sqrt : Q -> Q) (all_stats : list run_stats)
    (h : heap) :
  (forall x, 0 < x -> ~ sqrt x == 0) ->
  all_stats <> [] ->
  valid_refs h all_stats ->
  fst (calculate_overall_statistics sqrt all_stats h) <> Raise StatisticsError
  /\ fst (calculate_overall_statistics sqrt all_stats h) <> Raise ValueError
  /\ fst (calculate_overall_statistics sqrt all_stats h) <> Raise ZeroDivisionError.
Proof.
  intros Hsqrt Hne Hv.
  destruct (calculate_overall_statistics_spec sqrt all_stats h Hne Hv) as (h' & E & _).
  destruct (overall_record_total sqrt all_stats (flattened waiting_times h all_stats)
              (flattened service_times h all_stats) Hsqrt Hne) as [r Hr].
  rewrite Hr in E. rewrite E. simpl. repeat split; discriminate.
Qed.

Lemma aggregation_guards_suffice_witness :
  (forall x, 0 < x -> ~ example_sqrt x == 0)
  /\ fst (calculate_overall_statistics example_sqrt
            [example_busy_run; example_busy_run; example_zero_run] example_heap)
     <> Raise StatisticsError
  /\ fst (calculate_overall_statistics example_sqrt
            [example_busy_run; example_busy_run; example_zero_run] example_heap)
     <> Raise ValueError
  /\ fst (calculate_overall_statistics example_sqrt
            [example_busy_run; example_busy_run; example_zero_run] example_heap)
     <> Raise ZeroDivisionError.
Proof.
  assert (Hs : forall x, 0 < x -> ~ example_sqrt x == 0).
  { unfold example_sqrt. intros x Hx E. rewrite E in Hx. lra. }
  split; [exact Hs|].
  apply (aggregation_guards_suffice example_sqrt
           [example_busy_run; example_busy_run; example_zero_run] example_heap Hs).
  - discriminate.
  - repeat constructor; eexists; vm_compute; reflexivity.
Defined.

(** X5. With two or more runs that served a customer, the reported 95%
    interval is centred on [mean_avg_waiting_time] with half-width
    [1.96 * std_avg_waiting_time / sqrt n], [n] the number of those runs;
    with a square root that is never negative, [std_avg_waiting_time] is
    not negative and the mean lies inside the interval. *)
Theorem confidence_interval_centred (sqrt : Q -> Q) (all_stats : list run_stats)
    (h h' : heap) (r : overall_stats) :
  (forall x, 0 <= sqrt x) ->
  valid_refs h all_stats ->
  (1 < length (List.filter served all_stats))%nat ->
  calculate_overall_statistics sqrt all_stats h = (Ok (Some r), h') ->
  let n := inject_Z (Z.of_nat (length (List.filter served all_stats))) in
  waiting_time_95ci_low r
  == mean_avg_waiting_time r - (196 # 100) * std_avg_waiting_time r / sqrt n
  /\ waiting_time_95ci_high r
     == mean_avg_waiting_time r + (196 # 100) * std_avg_waiting_time r / sqrt n
  /\ 0 <= std_avg_waiting_time r
  /\ waiting_time_95ci_low r <= mean_avg_waiting_time r <= waiting_time_95ci_high r.
Proof.
  intros Hsqrt Hv Hlen H n.
  apply calculate_overall_statistics_returns in H as [_ H]; [|exact Hv].
  destruct (overall_record_interval sqrt _ _ _ _ Hlen H) as (v & _ & Hsd & Hlo & Hhi).
  fold n in Hlo, Hhi.
  assert (Hs : 0 <= std_avg_waiting_time r) by (rewrite Hsd; apply Hsqrt).
  assert (Hhw : 0 <= (196 # 100) * std_avg_waiting_time r / sqrt n).
  { unfold Qdiv. apply Qmult_le_0_compat.
    - apply Qmult_le_0_compat; [lra | exact Hs].
    - apply Qinv_le_0_compat, Hsqrt. }
  split; [exact Hlo|]. split; [exact Hhi|]. split; [exact Hs|].
  rewrite Hlo, Hhi. split; lra.
Qed.

Lemma confidence_interval_centred_witness :
  exists r h',
    calculate_overall_statistics unit_sqrt
      [example_busy_run; example_busy_run; example_zero_run] example_heap
    = (Ok (Some r), h')
    /\ waiting_time_95ci_low r <= mean_avg_waiting_time r <= waiting_time_95ci_high r.
Proof.
  eexists _, _. split; [vm_compute; reflexivity|].
  eapply (confidence_interval_centred unit_sqrt
            [example_busy_run; example_busy_run; example_zero_run] example_heap).
  - intros x. unfold unit_sqrt. lra.
  - repeat constructor; eexists; vm_compute; reflexivity.
  - simpl. lia.
  - vm_compute. reflexivity.
Defined.

(** X6. The overall waiting figures are taken over every customer of
    every run: [overall_max_waiting_time] is at least every entry of
    every run's [waiting_times] list and is one of those entries when
    there is any, and [overall_avg_waiting_time] never exceeds it and
    lies between any lower and upper bound of those entries. *)
Theorem overall_figures_cover_all_runs (sqrt : Q -> Q) (all_stats : list run_stats)
    (h h' : heap) (r : overall_stats) :
  valid_refs h all_stats ->
  calculate_overall_statistics sqrt all_stats h = (Ok (Some r), h') ->
  (forall s ws x, In s all_stats -> h !! waiting_times s = Some ws -> In x ws ->
                  x <= overall_max_waiting_time r)
  /\ (flattened waiting_times h all_stats <> [] ->
      exists s ws, In s all_stats /\ h !! waiting_times s = Some ws
                   /\ In (overall_max_waiting_time r) ws)
  /\ overall_avg_waiting_time r <= overall_max_waiting_time r
  /\ (forall lo hi,
        flattened waiting_times h all_stats <> [] ->
        (forall s ws x, In s all_stats -> h !! waiting_times s = Some ws -> In x ws ->
                        lo <= x <= hi) ->
        lo <= overall_avg_waiting_time r <= hi).
Proof.
  intros Hv H.
  apply calculate_overall_statistics_returns in H as [_ H]; [|exact Hv].
  apply overall_record_inv in H as (_ & _ & _ & Ha & Hm & _).
  destruct (guarded_mean_max _ _ _ Ha Hm) as (Hall & Hin & Hle).
  split; [|split; [|split]].
  - intros s ws x Hs Hws Hx. rewrite List.Forall_forall in Hall. apply Hall.
    exact (flattened_In waiting_times h all_stats s ws x Hs Hws Hx).
  - intros Hne. apply In_flattened. exact (Hin Hne).
  - exact Hle.
  - intros lo hi Hne Hb. apply (guarded_mean_between _ _ _ _ Ha Hne).
    apply List.Forall_forall. intros x Hx.
    apply In_flattened in Hx as (s & ws & Hs & Hws & Hxs). exact (Hb s ws x Hs Hws Hxs).
Qed.

Lemma overall_figures_cover_all_runs_witness :
  exists r h',
    calculate_overall_statistics example_sqrt
      [example_busy_run; example_zero_run] example_heap = (Ok (Some r), h')
    /\ Qred (overall_max_waiting_time r) = 3
    /\ overall_avg_waiting_time r <= overall_max_waiting_time r.
Proof.
  eexists _, _. split; [vm_compute; reflexivity|]. split; [vm_compute; reflexivity|].
  refine (proj1 (proj2 (proj2
            (overall_figures_cover_all_runs example_sqrt
               [example_busy_run; example_zero_run] example_heap _ _ _ _)))).
  - repeat constructor; eexists; vm_compute; reflexivity.
  - vm_compute. reflexivity.
Defined.

(** X7. [calculate_overall_statistics] applied to what
    [run_multiple_simulations] returned: [total_runs] is [num_runs],
    [total_customers_served] is the number of flattened waits, and
    neither the mean of the per-run maxima nor the mean of the per-run
    averages exceeds [overall_max_waiting_time]. *)
Theorem overall_figures_of_runs (sqrt : Q -> Q) (draws : nat -> Q) (num_tellers : Z)
    (mean_interarrival mean_service_time sim_time : Q) (num_runs : Z) (fuel : nat)
    (w w' : world) (l : list run_stats) (h' : heap) (r : overall_stats) :
  run_multiple_simulations draws num_tellers mean_interarrival mean_service_time
    sim_time num_runs fuel w = Returns (l, w') ->
  calculate_overall_statistics sqrt l (world_heap w') = (Ok (Some r), h') ->
  total_runs r = num_runs
  /\ total_customers_served r
     = Z.of_nat (length (flattened waiting_times (world_heap w') l))
  /\ mean_max_waiting_time r <= overall_max_waiting_time r
  /\ mean_avg_waiting_time r <= overall_max_waiting_time r.
Proof.
  unfold run_multiple_simulations. intros Hruns H.
  apply (simulation_runs_results draws num_tellers mean_interarrival mean_service_time
           sim_time fuel _ (world_heap w)) in Hruns as (Hnum & Hres & Hsum & _ & _);
    [|constructor | constructor | constructor | reflexivity].
  assert (Hv : valid_refs (world_heap w') l).
  { eapply Forall_impl; [exact Hres|]. intros s (ws & ss & Hw & Hs & _). eauto. }
  apply calculate_overall_statistics_returns in H as [Hne H]; [|exact Hv].
  destruct (overall_record_counts sqrt _ _ _ _ H) as (Hruns & Hcust & _).
  pose proof (flattened_length _ _ _ Hres) as Hlen.
  pose proof (overall_record_inv sqrt _ _ _ _ H) as (Hma & _ & Hmm & Ha & Hm & _).
  cbv zeta in Hma, Hmm.
  destruct (guarded_mean_max _ _ _ Ha Hm) as (Hall & _ & _).
  assert (Hlenl : length l = Z.to_nat num_runs).
  { rewrite <- (length_map run_number), Hnum. simpl. rewrite py_range_length.
    f_equal. lia. }
  assert (Hmaxs : Forall (fun x => x <= overall_max_waiting_time r)
                    (map max_waiting_time (List.filter served l))).
  { apply List.Forall_forall. intros x Hx.
    apply in_map_iff in Hx as (s & <- & Hs). apply List.filter_In in Hs as [Hs Hsv].
    rewrite List.Forall_forall in Hall. apply Hall.
    apply (served_max_flattened _ _ _ _ Hres Hsum Hs Hsv). }
  assert (Havgs : Forall (fun x => x <= overall_max_waiting_time r)
                    (map avg_waiting_time (List.filter served l))).
  { apply List.Forall_forall. intros x Hx.
    apply in_map_iff in Hx as (s & <- & Hs). apply List.filter_In in Hs as [Hs Hsv].
    rewrite List.Forall_forall in Hmaxs, Hsum.
    destruct (Hsum s Hs) as (ws & ss & _ & _ & Has & Hms & _).
    destruct (guarded_mean_max _ _ _ Has Hms) as (_ & _ & Hle).
    assert (max_waiting_time s <= overall_max_waiting_time r).
    { apply Hmaxs. apply in_map. apply List.filter_In. split; assumption. }
    lra. }
  assert (Hzero : List.filter served l = [] -> 0 <= overall_max_waiting_time r).
  { intros Hf.
    destruct (flattened waiting_times (world_heap w') l) as [|x xs] eqn:Hfl.
    - injection Hm as <-. lra.
    - exfalso.
      assert (Hx : In x (flattened waiting_times (world_heap w') l))
        by (rewrite Hfl; left; reflexivity).
      apply In_flattened in Hx as (s & ws & Hs & Hws & Hxin).
      rewrite List.Forall_forall in Hres.
      destruct (Hres s Hs) as (ws' & ss & Hw' & _ & Hc & _).
      rewrite Hws in Hw'. injection Hw' as <-.
      assert (Hsv : served s = true).
      { unfold served. rewrite Hc. destruct ws; [destruct Hxin|]. reflexivity. }
      assert (Hin : In s (List.filter served l)) by (apply List.filter_In; auto).
      rewrite Hf in Hin. destruct Hin. }
  split; [|split; [|split]].
  - rewrite Hruns, Hlenl.
    destruct l as [|s0 l0]; [congruence|]. simpl length in Hlenl. lia.
  - rewrite Hcust, Hlen. reflexivity.
  - destruct (map max_waiting_time (List.filter served l)) as [|x xs] eqn:E.
    + injection Hmm as <-. apply Hzero.
      destruct (List.filter served l); [reflexivity | discriminate].
    + exact (mean_upper _ _ _ Hmm Hmaxs).
  - destruct (map avg_waiting_time (List.filter served l)) as [|x xs] eqn:E.
    + injection Hma as <-. apply Hzero.
      destruct (List.filter served l); [reflexivity | discriminate].
    + exact (mean_upper _ _ _ Hma Havgs).
Qed.

Lemma overall_figures_of_runs_witness :
  exists l w' r h',
    run_multiple_simulations example_draws 1 2 1 10 2 100 empty_world = Returns (l, w')
    /\ calculate_overall_statistics example_sqrt l (world_heap w') = (Ok (Some r), h')
    /\ total_runs r = 2%Z
    /\ total_customers_served r = 6%Z
    /\ mean_max_waiting_time r <= overall_max_waiting_time r.
Proof.
  eexists _, _, _, _. split; [vm_compute; reflexivity|].
  split; [vm_compute; reflexivity|].
  split; [vm_compute; reflexivity|]. split; [vm_compute; reflexivity|].
  eapply (overall_figures_of_runs example_sqrt example_draws 1 2 1 10 2 100 empty_world).
  - vm_compute. reflexivity.
  - vm_compute. reflexivity.
Defined.

(** * Runs of a valid configuration *)

Lemma no_failure_heappush (e : event) (q : list event) :
  (forall x, ev_action e <> Process_failed x) -> no_failure q ->
  no_failure (heappush e q).
Proof. intros He Hq. apply heappush_Forall. split; assumption. Qed.

Lemma stop_pending_heappush (sim_time : Q) (e : event) (q : list event) :
  stop_pending sim_time q -> stop_pending sim_time (heappush e q).
Proof.
  unfold stop_pending. rewrite !List.Exists_exists. intros (u & Hu & H).
  exists u. split; [|exact H]. apply heappush_In. right. exact Hu.
Qed.

Section ValidRun.

Variable draws : nat -> Q.
Variables mean_interarrival mean_service_time : Q.

Hypothesis draws_nonneg : forall n, 0 <= draws n.
Hypothesis mean_interarrival_pos : 0 < mean_interarrival.
Hypothesis mean_service_time_pos : 0 < mean_service_time.

Lemma positive_rate (m : Q) : 0 < m -> Qeq_bool m 0 = false /\ Qeq_bool (1 / m) 0 = false.
Proof.
  intros Hm. split.
  - destruct (Qeq_bool m 0) eqn:E; [|reflexivity].
    apply Qeq_bool_iff in E. lra.
  - destruct (Qeq_bool (1 / m) 0) eqn:E; [|reflexivity].
    apply Qeq_bool_iff in E.
    assert (H1 : 1 / m * m == 1) by (field; lra).
    rewrite E in H1. lra.
Qed.

Lemma draw_over_rate (d m : Q) : 0 < m -> d / (1 / m) == d * m.
Proof. intros Hm. field. lra. Qed.

Lemma delay_ok (d m : Q) : 0 <= d -> 0 < m -> Qlt_bool (d / (1 / m)) 0 = false.
Proof.
  intros Hd Hm. unfold Qlt_bool. rewrite negb_false_iff. apply Qle_bool_iff.
  rewrite draw_over_rate by exact Hm. apply Qmult_le_0_compat; lra.
Qed.

(** The arrival generator always reaches its yield. *)
Lemma arrivals_loop_valid (st : state) :
  resume (customer_arrivals_loop draws mean_interarrival) st
  = schedule NORMAL (draws (random_pos st) / (1 / mean_interarrival)) Timeout_arrivals
      (set_random_pos (S (random_pos st)) st).
Proof using draws_nonneg mean_interarrival_pos.
  unfold resume, customer_arrivals_loop, bind, lift, expovariate, timeout, ret, float_div.
  destruct (positive_rate _ mean_interarrival_pos) as [-> ->].
  rewrite (delay_ok _ _ (draws_nonneg _) mean_interarrival_pos). reflexivity.
Qed.

(** The customer granted a teller always reaches its service timeout. *)
Lemma start_service_valid (r : request) (st : state) :
  let wait := env_now st - req_arrival_time r in
  let s := draws (random_pos st) / (1 / mean_service_time) in
  resume (customer_start_service draws mean_service_time r) st
  = schedule NORMAL s (Timeout_service (req_customer r))
      (set_service_times (obs_service_times st ++ [s])
         (set_random_pos (S (random_pos st))
            (emit (Starts_service (req_customer r) (env_now st) wait)
               (set_waiting_times (obs_waiting_times st ++ [wait]) st)))).
Proof using draws_nonneg mean_service_time_pos.
  intros wait s.
  unfold resume, customer_start_service, with_request, bind, effect, get_now,
    lift, ret, expovariate, timeout, float_div.
  destruct (positive_rate _ mean_service_time_pos) as [-> ->].
  simpl random_pos.
  rewrite (delay_ok _ _ (draws_nonneg _) mean_service_time_pos). reflexivity.
Qed.

(** One turn of the scheduler, event by event. *)
Lemma step_valid (st : state) (ev : event) (q : list event) :
  env_queue st = ev :: q ->
  let st1 := set_queue q (set_now (ev_time ev) st) in
  step draws mean_interarrival mean_service_time st
  = match ev_action ev with
    | Initialize_arrivals =>
        Next (schedule NORMAL (draws (random_pos st) / (1 / mean_interarrival))
                Timeout_arrivals (set_random_pos (S (random_pos st)) st1))
    | Timeout_arrivals =>
        Next (schedule NORMAL (draws (random_pos st) / (1 / mean_interarrival))
                Timeout_arrivals
                (set_random_pos (S (random_pos st))
                   (schedule URGENT 0 (Initialize_customer (S (gen_customer_id st)))
                      (set_customer_id (S (gen_customer_id st)) st1))))
    | Initialize_customer id =>
        Next (bank_request {| req_customer := id; req_arrival_time := ev_time ev |}
                (emit (Arrives id (ev_time ev)) st1))
    | Request_granted r =>
        let wait := ev_time ev - req_arrival_time r in
        let s := draws (random_pos st) / (1 / mean_service_time) in
        Next (schedule NORMAL s (Timeout_service (req_customer r))
                (set_service_times (obs_service_times st ++ [s])
                   (set_random_pos (S (random_pos st))
                      (emit (Starts_service (req_customer r) (ev_time ev) wait)
                         (set_waiting_times (obs_waiting_times st ++ [wait]) st1)))))
    | Timeout_service id =>
        Next (schedule NORMAL 0 Process_end
                (bank_release id (emit (Leaves id (ev_time ev)) st1)))
    | Release_done => Next (trigger_put st1)
    | Process_end => Next st1
    | Process_failed e => Crash e st1
    | Stop_simulation => Halt st1
    end.
Proof using draws_nonneg mean_interarrival_pos mean_service_time_pos.
  intros Hq st1. unfold step. rewrite Hq. fold st1.
  destruct (ev_action ev) as [| |id|r|id| | |e|]; try reflexivity.
  - rewrite arrivals_loop_valid. reflexivity.
  - unfold resume at 1, customer_arrivals_resumed, bind at 1 2, effect.
    fold (resume (customer_arrivals_loop draws mean_interarrival)
            (schedule URGENT 0
               (Initialize_customer (gen_customer_id (set_customer_id (S (gen_customer_id st1)) st1)))
               (set_customer_id (S (gen_customer_id st1)) st1))).
    rewrite arrivals_loop_valid. reflexivity.
  - rewrite start_service_valid. reflexivity.
Qed.

End ValidRun.

(** * A valid configuration never crashes *)

Lemma no_failure_schedule (p : nat) (d : Q) (a : action) (st : state) :
  (forall x, a <> Process_failed x) ->
  no_failure (env_queue st) -> no_failure (env_queue (schedule p d a st)).
Proof. intros Ha H. simpl. apply no_failure_heappush; [exact Ha | exact H]. Qed.

Lemma stop_pending_schedule (sim_time : Q) (p : nat) (d : Q) (a : action) (st : state) :
  stop_pending sim_time (env_queue st) ->
  stop_pending sim_time (env_queue (schedule p d a st)).
Proof. intros H. simpl. apply stop_pending_heappush. exact H. Qed.

Lemma no_failure_trigger_put (st : state) :
  no_failure (env_queue st) -> no_failure (env_queue (trigger_put st)).
Proof.
  intros H. destruct (trigger_put_cases st) as [->|(r & rest & _ & _ & ->)]; [exact H|].
  simpl. apply no_failure_heappush; [discriminate | exact H].
Qed.

Lemma stop_pending_trigger_put (sim_time : Q) (st : state) :
  stop_pending sim_time (env_queue st) ->
  stop_pending sim_time (env_queue (trigger_put st)).
Proof.
  intros H. destruct (trigger_put_cases st) as [->|(r & rest & _ & _ & ->)]; [exact H|].
  simpl. apply stop_pending_heappush. exact H.
Qed.

Lemma stop_pending_pop (sim_time : Q) (ev : event) (q : list event) :
  stop_pending sim_time (ev :: q) -> ev_action ev <> Stop_simulation ->
  stop_pending sim_time q.
Proof.
  unfold stop_pending. intros H Hne. apply List.Exists_cons in H as [[H _]|H].
  - contradiction.
  - exact H.
Qed.

(** An event dispatched before the [until] event is due no later. *)
Lemma dispatched_before_cutoff (sim_time : Q) (st : state) (ev : event) (q : list event) :
  queue_ok st -> env_queue st = ev :: q -> stop_pending sim_time (env_queue st) ->
  ev_time ev <= sim_time.
Proof.
  intros [Hs _ _ _] Hq Hstop. rewrite Hq in *.
  apply StronglySorted_inv in Hs as [_ Hlt].
  unfold stop_pending in Hstop. apply List.Exists_cons in Hstop as [[_ E]|Hstop].
  - lra.
  - apply List.Exists_exists in Hstop as (u & Hu & _ & E).
    rewrite List.Forall_forall in Hlt.
    pose proof (key_lt_time _ _ (Hlt u Hu)). lra.
Qed.

Section SafeRun.

Variable draws : nat -> Q.
Variables mean_interarrival mean_service_time sim_time : Q.

Hypothesis draws_nonneg : forall n, 0 <= draws n.
Hypothesis mean_interarrival_pos : 0 < mean_interarrival.
Hypothesis mean_service_time_pos : 0 < mean_service_time.

(** One turn from a good state: the cutoff, or another good state. *)
Lemma valid_run_step (st : state) :
  valid_run_ok sim_time st ->
  (exists st', step draws mean_interarrival mean_service_time st = Halt st')
  \/ (exists st', step draws mean_interarrival mean_service_time st = Next st'
                  /\ valid_run_ok sim_time st').
Proof using draws_nonneg mean_interarrival_pos mean_service_time_pos.
  intros (HQ & HF & HS).
  pose proof (queue_ok_step draws mean_interarrival mean_service_time st HQ) as HQ'.
  destruct (env_queue st) as [|ev q] eqn:Hq.
  { exfalso. unfold stop_pending in HS. apply List.Exists_nil in HS. exact HS. }
  rewrite (step_valid draws mean_interarrival mean_service_time
             draws_nonneg mean_interarrival_pos mean_service_time_pos st ev q Hq) in *.
  pose proof (Forall_inv HF) as Hev. pose proof (Forall_inv_tail HF) as HFq.
  pose proof (stop_pending_pop sim_time ev q HS) as HSq.
  destruct (ev_action ev) as [| |id|r|id| | |e|] eqn:Hact;
    try (right; eexists; split; [reflexivity|]; split; [exact HQ'|];
         specialize (HSq ltac:(discriminate))).
  - split.
    + apply no_failure_schedule; [discriminate | exact HFq].
    + apply stop_pending_schedule. exact HSq.
  - split.
    + apply no_failure_schedule; [discriminate|].
      apply (no_failure_schedule URGENT 0 (Initialize_customer _)
               (set_customer_id _ _)); [discriminate | exact HFq].
    + apply stop_pending_schedule.
      apply (stop_pending_schedule sim_time URGENT 0 (Initialize_customer _)
               (set_customer_id _ _)). exact HSq.
  - split.
    + apply no_failure_trigger_put. exact HFq.
    + apply stop_pending_trigger_put. exact HSq.
  - split.
    + apply no_failure_schedule; [discriminate | exact HFq].
    + apply stop_pending_schedule. exact HSq.
  - split.
    + apply no_failure_schedule; [discriminate|].
      apply (no_failure_schedule NORMAL 0 Release_done (set_users _ _));
        [discriminate | exact HFq].
    + apply stop_pending_schedule.
      apply (stop_pending_schedule sim_time NORMAL 0 Release_done (set_users _ _)).
      exact HSq.
  - split.
    + apply no_failure_trigger_put. exact HFq.
    + apply stop_pending_trigger_put. exact HSq.
  - split; [exact HFq | exact HSq].
  - exfalso. exact (Hev e Hact).
  - left. eexists. reflexivity.
Qed.

(** The loop ends at the cutoff or runs out of fuel; it never crashes. *)
Lemma valid_run_loop (fuel : nat) (st : state) :
  valid_run_ok sim_time st ->
  (exists st', run_loop draws mean_interarrival mean_service_time fuel st = Stopped st')
  \/ (exists st', run_loop draws mean_interarrival mean_service_time fuel st
                  = Out_of_fuel st').
Proof using draws_nonneg mean_interarrival_pos mean_service_time_pos.
  revert st. induction fuel as [|fuel IH]; intros st Hok; simpl.
  - right. eexists. reflexivity.
  - destruct (valid_run_step st Hok) as [[st' ->]|(st' & -> & Hok')].
    + left. eexists. reflexivity.
    + apply IH. exact Hok'.
Qed.

End SafeRun.

Lemma initial_state_valid (num_tellers : Z) (sim_time : Q) (pos : nat) :
  (0 < num_tellers)%Z -> 0 < sim_time ->
  valid_run_ok sim_time (initial_state num_tellers sim_time pos).
Proof.
  intros Hc HT.
  destruct (initial_state_ok num_tellers sim_time pos Hc HT) as ((HQ & _) & _).
  split; [exact HQ|]. rewrite (initial_queue num_tellers sim_time pos HT). split.
  - repeat constructor; simpl; discriminate.
  - unfold stop_pending. apply List.Exists_cons_tl, List.Exists_cons_hd.
    simpl. split; [reflexivity | lra].
Qed.

Lemma simulate_valid (draws : nat -> Q) (num_tellers : Z)
    (mean_interarrival mean_service_time sim_time : Q) (pos fuel : nat) :
  (0 < num_tellers)%Z -> 0 < sim_time ->
  simulate draws mean_interarrival mean_service_time num_tellers sim_time pos fuel
  = Ok (run_loop draws mean_interarrival mean_service_time fuel
          (initial_state num_tellers sim_time pos)).
Proof.
  intros Hc HT. unfold simulate, new_resource, env_run.
  replace (num_tellers <=? 0)%Z with false by (symmetry; apply Z.leb_gt; exact Hc).
  simpl env_now.
  destruct (Qle_bool sim_time 0) eqn:E; [|reflexivity].
  apply Qle_bool_iff in E. lra.
Qed.

(** * Whole runs and the main program *)

Section SafeRuns.

Variable draws : nat -> Q.
Variable num_tellers : Z.
Variables mean_interarrival mean_service_time sim_time : Q.

Hypothesis draws_nonneg : forall n, 0 <= draws n.
Hypothesis num_tellers_pos : (0 < num_tellers)%Z.
Hypothesis mean_interarrival_pos : 0 < mean_interarrival.
Hypothesis mean_service_time_pos : 0 < mean_service_time.
Hypothesis sim_time_pos : 0 < sim_time.

Lemma run_single_simulation_safe (run : Z) (fuel : nat) (w : world) :
  (exists s w',
     run_single_simulation draws num_tellers mean_interarrival mean_service_time
       sim_time run fuel w = Returns (s, w'))
  \/ run_single_simulation draws num_tellers mean_interarrival mean_service_time
       sim_time run fuel w = Diverges.
Proof using draws_nonneg num_tellers_pos mean_interarrival_pos mean_service_time_pos
            sim_time_pos.
  unfold run_single_simulation. rewrite simulate_valid by assumption.
  destruct (valid_run_loop draws mean_interarrival mean_service_time sim_time
              draws_nonneg mean_interarrival_pos mean_service_time_pos fuel
              (initial_state num_tellers sim_time (world_random_pos w))
              (initial_state_valid _ _ _ num_tellers_pos sim_time_pos))
    as [[st ->]|[st ->]].
  - left. destruct (run_statistics_spec run st (world_heap w)) as (s & h' & -> & _).
    eexists _, _. reflexivity.
  - right. reflexivity.
Qed.

Lemma simulation_runs_safe (fuel : nat) (runs : list Z) :
  forall all w,
    (exists l w',
       simulation_runs draws num_tellers mean_interarrival mean_service_time
         sim_time fuel runs all w = Returns (l, w'))
    \/ simulation_runs draws num_tellers mean_interarrival mean_service_time
         sim_time fuel runs all w = Diverges.
Proof using draws_nonneg num_tellers_pos mean_interarrival_pos mean_service_time_pos
            sim_time_pos.
  induction runs as [|run rest IH]; intros all w; simpl.
  - left. eexists _, _. reflexivity.
  - destruct (run_single_simulation_safe run fuel w) as [(s & w1 & ->)| ->].
    + apply IH.
    + right. reflexivity.
Qed.

End SafeRuns.

(** X8. For every valid configuration, on a random stream of
    non-negative draws, nothing raises during the runs: no division by
    zero in [expovariate], no negative delay, no exhausted schedule, no
    failed process.  Whatever the number of events allowed,
    [run_multiple_simulations] has returned or is still running. *)
Theorem valid_runs_never_raise (draws : nat -> Q) (num_tellers : Z)
    (mean_interarrival mean_service_time sim_time : Q) (num_runs : Z) (fuel : nat)
    (w : world) :
  (forall n, 0 <= draws n) ->
  valid_configuration num_tellers mean_interarrival mean_service_time sim_time num_runs ->
  (exists l w',
     run_multiple_simulations draws num_tellers mean_interarrival mean_service_time
       sim_time num_runs fuel w = Returns (l, w'))
  \/ run_multiple_simulations draws num_tellers mean_interarrival mean_service_time
       sim_time num_runs fuel w = Diverges.
Proof.
  intros Hd (Hc & Hmi & Hms & HT & _). unfold run_multiple_simulations.
  apply simulation_runs_safe; try assumption. lia.
Qed.

Lemma valid_runs_never_raise_witness :
  (exists l w',
     run_multiple_simulations steady_draws 1 2 1 10 2 5 empty_world = Returns (l, w'))
  \/ run_multiple_simulations steady_draws 1 2 1 10 2 5 empty_world = Diverges.
Proof.
  apply (valid_runs_never_raise steady_draws 1 2 1 10 2 5 empty_world).
  - intros n. unfold steady_draws. lra.
  - unfold valid_configuration. repeat split; try lia; lra.
Defined.

(** X10. The main program on a valid configuration, with a random
    stream of non-negative draws and a square root that is not zero on
    positive numbers, fails nowhere: not in the runs, not in the
    aggregation, not in [display_results].  Whatever the number of
    events allowed, it is still running, or it has reached its last line
    and the report has the sixteen lines of the summary, one line per
    run and the three closing lines. *)
Theorem valid_program_never_fails (sqrt : Q -> Q) (draws : nat -> Q)
    (num_tellers : Z) (mean_interarrival mean_service_time sim_time : Q)
    (num_runs : Z) (fuel : nat) (w : world) :
  (forall x, 0 < x -> ~ sqrt x == 0) ->
  (forall n, 0 <= draws n) ->
  valid_configuration num_tellers mean_interarrival mean_service_time sim_time num_runs ->
  (exists out,
     main_program sqrt draws num_tellers mean_interarrival mean_service_time sim_time
       num_runs fuel w = (out, Completes)
     /\ Z.of_nat (length out) = (19 + num_runs)%Z)
  \/ main_program sqrt draws num_tellers mean_interarrival mean_service_time sim_time
       num_runs fuel w = ([], Hangs).
Proof.
  intros Hsqrt Hd (Hc & Hmi & Hms & HT & Hn). unfold main_program.
  destruct (simulation_runs_safe draws num_tellers mean_interarrival mean_service_time
              sim_time Hd ltac:(lia) Hmi Hms HT fuel (py_range 1 (num_runs + 1)) [] w)
    as [(l & w' & Hruns)|Hruns];
    unfold run_multiple_simulations; rewrite Hruns; [left | right; reflexivity].
  apply (simulation_runs_results draws num_tellers mean_interarrival mean_service_time
           sim_time fuel _ (world_heap w)) in Hruns as (Hnum & Hres & _);
    [|constructor | constructor | constructor | reflexivity].
  assert (Hlen : length l = Z.to_nat num_runs).
  { rewrite <- (length_map run_number), Hnum. simpl. rewrite py_range_length.
    f_equal. lia. }
  assert (Hne : l <> []).
  { intros ->. simpl in Hlen. lia. }
  assert (Hv : valid_refs (world_heap w') l).
  { eapply Forall_impl; [exact Hres|]. intros s (ws & ss & Hw & Hs & _). eauto. }
  destruct (calculate_overall_statistics_spec sqrt l (world_heap w') Hne Hv)
    as (h' & E & _).
  destruct (overall_record_total sqrt l (flattened waiting_times (world_heap w') l)
              (flattened service_times (world_heap w') l) Hsqrt Hne) as [r Hr].
  rewrite Hr in E. rewrite E. unfold display_results.
  eexists. split; [reflexivity|].
  rewrite !length_app, length_map, Hlen. simpl length. lia.
Qed.

Lemma valid_program_never_fails_witness :
  (exists out,
     main_program unit_sqrt steady_draws 1 2 1 10 2 100 empty_world = (out, Completes)
     /\ Z.of_nat (length out) = (19 + 2)%Z)
  \/ main_program unit_sqrt steady_draws 1 2 1 10 2 100 empty_world = ([], Hangs).
Proof.
  apply (valid_program_never_fails unit_sqrt steady_draws 1 2 1 10 2 100 empty_world).
  - intros x _. unfold unit_sqrt. lra.
  - intros n. unfold steady_draws. lra.
  - unfold valid_configuration. repeat split; try lia; lra.
Defined.

(** X11. With [num_runs] zero or negative the main program executes no
    run, so no other parameter is ever looked at;
    [calculate_overall_statistics] returns [None] and [display_results]
    prints its first rule and then fails with a [TypeError] on
    [overall_stats['total_runs']]. *)
Theorem no_runs_type_error (sqrt : Q -> Q) (draws : nat -> Q) (num_tellers : Z)
    (mean_interarrival mean_service_time sim_time : Q) (num_runs : Z) (fuel : nat)
    (w : world) :
  (num_runs <= 0)%Z ->
  main_program sqrt draws num_tellers mean_interarrival mean_service_time sim_time
    num_runs fuel w = ([Rule], Fails TypeError).
Proof.
  intros Hn. unfold main_program, run_multiple_simulations, py_range.
  replace (Z.to_nat (num_runs + 1 - 1)) with 0%nat by lia. reflexivity.
Qed.

Lemma no_runs_type_error_witness :
  main_program example_sqrt example_draws 0 0 0 0 0 0 empty_world
  = ([Rule], Fails TypeError).
Proof.
  apply (no_runs_type_error example_sqrt example_draws 0 0 0 0 0 0 empty_world). lia.
Defined.

(** * No teller idles while a customer queues *)

Lemma pending_releases_heappush (e : event) (q : list event) :
  pending_releases (heappush e q)
  = ((if is_release e then 1 else 0) + pending_releases q)%nat.
Proof.
  unfold pending_releases. induction q as [|x q IH]; simpl.
  - destruct (is_release e); reflexivity.
  - destruct (key_ltb e x); simpl.
    + destruct (is_release e); reflexivity.
    + destruct (is_release x); simpl; rewrite IH; destruct (is_release e); lia.
Qed.

Lemma pending_releases_timers (q : list event) :
  Forall (fun e => is_timer (ev_action e) = true) q -> pending_releases q = 0%nat.
Proof.
  unfold pending_releases. induction 1 as [|e q He _ IH]; simpl; [reflexivity|].
  unfold is_release. destruct (ev_action e); try discriminate; exact IH.
Qed.

Lemma list_remove_first_length_ge (id : nat) (l : list nat) :
  (length l <= S (length (list_remove_first id l)))%nat.
Proof.
  induction l as [|x l IH]; simpl; [lia|].
  destruct (x =? id)%nat; simpl; lia.
Qed.

Lemma work_conserving_same (st st' : state) :
  bank_put_queue st' = bank_put_queue st -> bank_capacity st' = bank_capacity st ->
  bank_users st' = bank_users st -> env_queue st' = env_queue st ->
  work_conserving st -> work_conserving st'.
Proof. unfold work_conserving. intros -> -> -> ->. exact (fun H => H). Qed.

Lemma work_conserving_schedule (p : nat) (d : Q) (a : action) (st : state) :
  work_conserving st -> work_conserving (schedule p d a st).
Proof.
  unfold work_conserving. simpl. intros [H|H]; [left; exact H|right].
  rewrite pending_releases_heappush. lia.
Qed.

Lemma work_conserving_pop (st : state) (ev : event) (q : list event) :
  env_queue st = ev :: q -> is_release ev = false ->
  work_conserving st -> work_conserving (set_queue q (set_now (ev_time ev) st)).
Proof.
  unfold work_conserving. simpl. intros -> Hev [H|H]; [left; exact H|right].
  unfold pending_releases in *. simpl in H. rewrite Hev in H. exact H.
Qed.

Lemma work_conserving_trigger_put (st : state) :
  work_conserving st -> work_conserving (trigger_put st).
Proof.
  intros H. destruct (trigger_put_cases st) as [->|(r & rest & Hpq & Hlt & ->)]; [exact H|].
  unfold work_conserving in *. simpl.
  destruct H as [H|H]; [congruence|]. right.
  rewrite pending_releases_heappush, length_app. simpl. lia.
Qed.

(** The callback of a release: one pending release fewer, and the head
    of the queue is granted the teller if one is free. *)
Lemma work_conserving_release_done (st : state) (ev : event) (q : list event) :
  env_queue st = ev :: q -> is_release ev = true ->
  work_conserving st ->
  work_conserving (trigger_put (set_queue q (set_now (ev_time ev) st))).
Proof.
  intros Hq Hev H. unfold work_conserving in H. rewrite Hq in H.
  unfold pending_releases in H. simpl in H. rewrite Hev in H. simpl in H.
  fold (pending_releases q) in H.
  unfold trigger_put. simpl bank_put_queue. simpl bank_users. simpl bank_capacity.
  destruct (bank_put_queue st) as [|r rest] eqn:Hpq.
  - left. simpl. exact Hpq.
  - destruct (Z.of_nat (length (bank_users st)) <? bank_capacity st)%Z eqn:Hlt.
    + unfold work_conserving. simpl. right.
      destruct H as [H|H]; [discriminate|].
      rewrite pending_releases_heappush, length_app. simpl. lia.
    + apply Z.ltb_ge in Hlt. unfold work_conserving. simpl. right. lia.
Qed.

Lemma work_conserving_request (r : request) (st : state) :
  work_conserving st -> work_conserving (bank_request r st).
Proof.
  intros H. unfold bank_request, trigger_put. simpl bank_put_queue.
  simpl bank_users. simpl bank_capacity.
  destruct (bank_put_queue st ++ [r]) as [|r0 rest] eqn:Hpq.
  { destruct (bank_put_queue st); discriminate. }
  destruct (Z.of_nat (length (bank_users st)) <? bank_capacity st)%Z eqn:Hlt.
  - unfold work_conserving in *. simpl.
    destruct H as [H|H].
    + left. rewrite H in Hpq. simpl in Hpq. congruence.
    + right. rewrite pending_releases_heappush, length_app. simpl. lia.
  - apply Z.ltb_ge in Hlt. unfold work_conserving. simpl. right. lia.
Qed.

Lemma work_conserving_bank_release (id : nat) (st : state) :
  work_conserving st -> work_conserving (bank_release id st).
Proof.
  unfold work_conserving, bank_release. simpl. intros [H|H]; [left; exact H|right].
  rewrite pending_releases_heappush. simpl.
  pose proof (list_remove_first_length_ge id (bank_users st)). lia.
Qed.

Section Conservation.

Variable draws : nat -> Q.
Variables mean_interarrival mean_service_time : Q.

Lemma work_conserving_arrivals_loop (st : state) :
  work_conserving st ->
  work_conserving (resume (customer_arrivals_loop draws mean_interarrival) st).
Proof.
  intros H.
  destruct (arrivals_loop_cases draws mean_interarrival st)
    as (k & d & a & -> & _ & _).
  apply work_conserving_schedule. exact H.
Qed.

Lemma work_conserving_step (st : state) :
  work_conserving st ->
  work_conserving (step_state (step draws mean_interarrival mean_service_time st)).
Proof.
  intros H. unfold step.
  destruct (env_queue st) as [|ev q] eqn:Hq; [exact H|].
  pose proof (work_conserving_pop st ev q Hq) as H1.
  destruct (ev_action ev) as [| |id|r|id| | |e|] eqn:Hact; simpl step_state;
    unfold is_release in H1; rewrite Hact in H1;
    try specialize (H1 eq_refl H).
  - apply work_conserving_arrivals_loop. exact H1.
  - unfold resume, customer_arrivals_resumed, bind, effect.
    apply work_conserving_arrivals_loop.
    apply (work_conserving_schedule URGENT 0 (Initialize_customer _)
             (set_customer_id _ _)). exact H1.
  - unfold resume, customer_arrive, bind, effect, get_now, ret.
    apply work_conserving_request. exact H1.
  - destruct (start_service_cases draws mean_service_time r
                (set_queue q (set_now (ev_time ev) st)))
      as [[-> _]|(e & k & ss' & -> & _)].
    + apply work_conserving_schedule. exact H1.
    + apply work_conserving_schedule.
      apply (work_conserving_bank_release (req_customer r)
               (set_service_times ss' (set_random_pos k
                  (emit _ (set_waiting_times _ (set_queue q (set_now (ev_time ev) st))))))).
      exact H1.
  - unfold resume, customer_leave, with_request, bind, effect, get_now, ret.
    apply work_conserving_schedule.
    apply (work_conserving_bank_release id (emit _ _)). exact H1.
  - apply (work_conserving_release_done st ev q Hq); [|exact H].
    unfold is_release. rewrite Hact. reflexivity.
  - exact H1.
  - exact H1.
  - exact H1.
Qed.

End Conservation.

(** X12. No teller idles while a customer queues.  At every point of
    every run, if anybody is waiting in the resource's queue then the
    free tellers are no more than the releases whose callback is still
    to run at that same instant; and at the cutoff, customers are left
    waiting only if all [num_tellers] tellers are taken. *)
Theorem queue_only_when_all_busy (draws : nat -> Q) (num_tellers : Z)
    (mean_interarrival mean_service_time sim_time : Q) (pos fuel : nat) (o : outcome) :
  simulate draws mean_interarrival mean_service_time num_tellers sim_time pos fuel = Ok o ->
  (bank_put_queue (outcome_state o) <> [] ->
   (num_tellers - Z.of_nat (length (bank_users (outcome_state o)))
    <= Z.of_nat (pending_releases (env_queue (outcome_state o))))%Z)
  /\ (forall st, o = Stopped st -> bank_put_queue st <> [] ->
                 Z.of_nat (length (bank_users st)) = num_tellers).
Proof.
  intros H.
  pose proof (simulate_run_ok _ _ _ _ _ _ _ _ H) as (_ & _ & Hcap & Hn).
  pose proof H as Hsim.
  apply simulate_ok in H as (Hc & HT & ->).
  assert (Hw : work_conserving
                 (outcome_state (run_loop draws mean_interarrival mean_service_time fuel
                                   (initial_state num_tellers sim_time pos)))).
  { apply run_loop_invariant.
    - apply work_conserving_step.
    - left. reflexivity. }
  assert (Hfree : bank_put_queue (outcome_state
                    (run_loop draws mean_interarrival mean_service_time fuel
                       (initial_state num_tellers sim_time pos))) <> [] ->
                  (num_tellers - Z.of_nat (length (bank_users (outcome_state
                     (run_loop draws mean_interarrival mean_service_time fuel
                        (initial_state num_tellers sim_time pos)))))
                   <= Z.of_nat (pending_releases (env_queue (outcome_state
                        (run_loop draws mean_interarrival mean_service_time fuel
                           (initial_state num_tellers sim_time pos))))))%Z).
  { intros Hne. destruct Hw as [Hw|Hw]; [contradiction|]. rewrite Hn in Hw. exact Hw. }
  split; [exact Hfree|].
  intros st Hst Hne. rewrite Hst in *. simpl outcome_state in *.
  destruct (simulate_stopped _ _ _ _ _ _ _ _ Hsim) as [Ht _].
  specialize (Hfree Hne). rewrite (pending_releases_timers _ Ht) in Hfree.
  unfold capacity_ok in Hcap. lia.
Qed.

Lemma queue_only_when_all_busy_witness :
  exists st,
    simulate steady_draws 1 3 1 10 0 100 = Ok (Stopped st)
    /\ length (bank_put_queue st) = 2%nat
    /\ Z.of_nat (length (bank_users st)) = 1%Z.
Proof.
  eexists. split; [vm_compute; reflexivity|]. split; [vm_compute; reflexivity|].
  eapply (proj2 (queue_only_when_all_busy steady_draws 1 1 3 10 0 100 _ _)).
  - reflexivity.
  - vm_compute. discriminate.
Unshelve. vm_compute. reflexivity.
Defined.

(** * The printed times *)

Section LoopOutcome.

Variable draws : nat -> Q.
Variables mean_interarrival mean_service_time : Q.

(** What is kept by the turns that go on holds when the loop is left:
    of the state reached, or of the state whose turn ended the loop. *)
Lemma run_loop_outcome (I : state -> Prop) :
  (forall st st', I st ->
     step draws mean_interarrival mean_service_time st = Next st' -> I st') ->
  forall fuel st,
    I st ->
    match run_loop draws mean_interarrival mean_service_time fuel st with
    | Out_of_fuel st' => I st'
    | Stopped st' =>
        exists s, I s /\ step draws mean_interarrival mean_service_time s = Halt st'
    | Crashed e st' =>
        exists s, I s /\ step draws mean_interarrival mean_service_time s = Crash e st'
    end.
Proof.
  intros Hstep. induction fuel as [|fuel IH]; intros st HI; simpl.
  - exact HI.
  - destruct (step draws mean_interarrival mean_service_time st) as [s1|s1|e s1] eqn:E.
    + apply IH. exact (Hstep st s1 HI E).
    + exists st. split; assumption.
    + exists st. split; assumption.
Qed.

End LoopOutcome.

Lemma trace_ok_same (sim_time : Q) (st st' : state) :
  verbose_trace st' = verbose_trace st -> env_now st' = env_now st ->
  env_queue st' = env_queue st -> trace_ok sim_time st -> trace_ok sim_time st'.
Proof.
  intros E1 E2 E3 [H1 H2 H3 H4]. constructor; rewrite ?E1, ?E2, ?E3; assumption.
Qed.

Lemma trace_ok_schedule (sim_time : Q) (p : nat) (d : Q) (a : action) (st : state) :
  trace_ok sim_time st -> trace_ok sim_time (schedule p d a st).
Proof.
  intros [H1 H2 H3 H4]. constructor; simpl; try assumption.
  apply stop_pending_heappush. exact H4.
Qed.

Lemma trace_ok_emit (sim_time : Q) (l : line) (st : state) :
  line_time l = env_now st ->
  trace_ok sim_time st -> trace_ok sim_time (emit l st).
Proof.
  intros Hl [H1 H2 H3 H4]. constructor; simpl; try assumption.
  - rewrite map_app. simpl. apply StronglySorted_snoc; [exact H1|].
    apply List.Forall_forall. intros t Ht. apply in_map_iff in Ht as (x & <- & Hx).
    rewrite List.Forall_forall in H2. specialize (H2 x Hx). simpl in H2.
    rewrite Hl. lra.
  - apply Forall_app. split; [exact H2|].
    constructor; [rewrite Hl; lra | constructor].
Qed.

Lemma trace_ok_trigger_put (sim_time : Q) (st : state) :
  trace_ok sim_time st -> trace_ok sim_time (trigger_put st).
Proof.
  intros H. destruct (trigger_put_cases st) as [->|(r & rest & _ & _ & ->)]; [exact H|].
  apply (trace_ok_same sim_time
           (schedule NORMAL 0 (Request_granted r) st)); try reflexivity.
  apply trace_ok_schedule. exact H.
Qed.

Lemma trace_ok_release (sim_time : Q) (id : nat) (st : state) :
  trace_ok sim_time st -> trace_ok sim_time (bank_release id st).
Proof.
  intros H. unfold bank_release.
  apply (trace_ok_same sim_time (schedule NORMAL 0 Release_done st)); try reflexivity.
  apply trace_ok_schedule. exact H.
Qed.

(** Popping an event other than the [until] event moves the clock
    forward. *)
Lemma trace_ok_pop (sim_time : Q) (st : state) (ev : event) (q : list event) :
  queue_ok st -> env_queue st = ev :: q -> ev_action ev <> Stop_simulation ->
  trace_ok sim_time st ->
  trace_ok sim_time (set_queue q (set_now (ev_time ev) st)).
Proof.
  intros HQ Hq Hne [H1 H2 H3 H4].
  assert (Hle : env_now st <= ev_time ev).
  { destruct HQ as [_ Qe _ _]. rewrite Hq in Qe. apply Forall_inv in Qe.
    destruct Qe as (_ & Hle & _). exact Hle. }
  constructor; simpl.
  - exact H1.
  - eapply Forall_impl; [exact H2|]. intros l Hl. simpl in Hl. lra.
  - lra.
  - rewrite Hq in H4. exact (stop_pending_pop sim_time ev q H4 Hne).
Qed.

(** The clock has not passed the cutoff. *)
Lemma trace_ok_before_cutoff (sim_time : Q) (st : state) :
  queue_ok st -> trace_ok sim_time st -> env_now st <= sim_time.
Proof.
  intros [_ Qe _ _] [_ _ _ H4]. unfold stop_pending in H4.
  apply List.Exists_exists in H4 as (u & Hu & _ & E).
  rewrite List.Forall_forall in Qe. destruct (Qe u Hu) as (_ & Hle & _). lra.
Qed.

Section TraceFacts.

Variable draws : nat -> Q.
Variables mean_interarrival mean_service_time sim_time : Q.

Lemma trace_ok_arrivals_loop (st : state) :
  trace_ok sim_time st ->
  trace_ok sim_time (resume (customer_arrivals_loop draws mean_interarrival) st).
Proof.
  intros H.
  destruct (arrivals_loop_cases draws mean_interarrival st)
    as (k & d & a & -> & _ & _).
  apply trace_ok_schedule.
  apply (trace_ok_same sim_time st); try reflexivity. exact H.
Qed.

Lemma trace_ok_step (st : state) :
  queue_ok st -> trace_ok sim_time st ->
  match step draws mean_interarrival mean_service_time st with
  | Next st' => trace_ok sim_time st'
  | Halt st' | Crash _ st' =>
      verbose_trace st' = verbose_trace st /\ env_now st' <= sim_time
  end.
Proof.
  intros HQ H. unfold step.
  destruct (env_queue st) as [|ev q] eqn:Hq.
  { split; [reflexivity|]. apply trace_ok_before_cutoff; assumption. }
  pose proof (trace_ok_pop sim_time st ev q HQ Hq) as H1.
  assert (Hcut : ev_time ev <= sim_time).
  { apply (dispatched_before_cutoff sim_time st ev q HQ Hq). exact (t_pending _ _ H). }
  destruct (ev_action ev) as [| |id|r|id| | |e|] eqn:Hact;
    try specialize (H1 ltac:(discriminate) H).
  - apply trace_ok_arrivals_loop. exact H1.
  - unfold resume, customer_arrivals_resumed, bind, effect.
    apply trace_ok_arrivals_loop.
    apply (trace_ok_schedule sim_time URGENT 0 (Initialize_customer _)
             (set_customer_id _ _)).
    apply (trace_ok_same sim_time (set_queue q (set_now (ev_time ev) st)));
      try reflexivity. exact H1.
  - unfold resume, customer_arrive, bind, effect, get_now, ret, bank_request.
    apply trace_ok_trigger_put.
    apply (trace_ok_same sim_time
             (emit (Arrives id (ev_time ev)) (set_queue q (set_now (ev_time ev) st))));
      try reflexivity.
    apply trace_ok_emit; [reflexivity | exact H1].
  - assert (H2 : trace_ok sim_time
                   (emit (Starts_service (req_customer r) (ev_time ev)
                            (ev_time ev - req_arrival_time r))
                      (set_waiting_times
                         (obs_waiting_times st ++ [ev_time ev - req_arrival_time r])
                         (set_queue q (set_now (ev_time ev) st))))).
    { apply trace_ok_emit; [reflexivity|].
      apply (trace_ok_same sim_time (set_queue q (set_now (ev_time ev) st)));
        try reflexivity. exact H1. }
    destruct (start_service_cases draws mean_service_time r
                (set_queue q (set_now (ev_time ev) st)))
      as [[-> _]|(e & k & ss' & -> & _)].
    + apply trace_ok_schedule.
      eapply trace_ok_same; [| | |exact H2]; reflexivity.
    + apply trace_ok_schedule. apply trace_ok_release.
      eapply trace_ok_same; [| | |exact H2]; reflexivity.
  - unfold resume, customer_leave, with_request, bind, effect, get_now, ret.
    apply trace_ok_schedule. apply trace_ok_release.
    apply trace_ok_emit; [reflexivity | exact H1].
  - apply trace_ok_trigger_put. exact H1.
  - exact H1.
  - split; [reflexivity | exact Hcut].
  - split; [reflexivity | exact Hcut].
Qed.

End TraceFacts.

Lemma initial_state_trace_ok (num_tellers : Z) (sim_time : Q) (pos : nat) :
  (0 < num_tellers)%Z -> 0 < sim_time ->
  trace_ok sim_time (initial_state num_tellers sim_time pos).
Proof.
  intros Hc HT.
  destruct (initial_state_valid num_tellers sim_time pos Hc HT) as (_ & _ & Hs).
  constructor; simpl verbose_trace; simpl env_now.
  - constructor.
  - constructor.
  - lra.
  - exact Hs.
Qed.

(** X13. The lines of a run are printed in time order, and every printed
    time lies between 0 and [sim_time]: the times on the arrival,
    service-start and departure lines never decrease down the output,
    whether the run is cut off, crashes, or is still going. *)
Theorem printed_times_ordered (draws : nat -> Q) (num_tellers : Z)
    (mean_interarrival mean_service_time sim_time : Q) (pos fuel : nat) (o : outcome) :
  simulate draws mean_interarrival mean_service_time num_tellers sim_time pos fuel = Ok o ->
  StronglySorted Qle (map line_time (verbose_trace (outcome_state o)))
  /\ Forall (fun l => 0 <= line_time l <= sim_time) (verbose_trace (outcome_state o)).
Proof.
  intros H. apply simulate_ok in H as (Hc & HT & ->).
  pose proof (run_loop_outcome draws mean_interarrival mean_service_time
                (fun st => queue_ok st /\ trace_ok sim_time st)) as Hout.
  specialize (Hout ltac:(
    intros st st' [HQ Ht] Hs;
    pose proof (queue_ok_step draws mean_interarrival mean_service_time st HQ) as HQ';
    pose proof (trace_ok_step draws mean_interarrival mean_service_time sim_time st HQ Ht)
      as Ht';
    rewrite Hs in HQ', Ht'; split; assumption)).
  specialize (Hout fuel (initial_state num_tellers sim_time pos)).
  destruct (initial_state_ok num_tellers sim_time pos Hc HT) as ((HQ & _) & _).
  specialize (Hout (conj HQ (initial_state_trace_ok num_tellers sim_time pos Hc HT))).
  assert (Hfinal : forall s s',
            queue_ok s -> trace_ok sim_time s ->
            verbose_trace s' = verbose_trace s -> env_now s' <= sim_time ->
            StronglySorted Qle (map line_time (verbose_trace s'))
            /\ Forall (fun l => 0 <= line_time l <= sim_time) (verbose_trace s')).
  { intros s s' HQs Hts Etr Hnow. rewrite Etr.
    pose proof (trace_ok_before_cutoff sim_time s HQs Hts) as Hle.
    destruct Hts as [H1 H2 _ _]. split; [exact H1|].
    eapply Forall_impl; [exact H2|]. intros l Hl. simpl in Hl. lra. }
  destruct (run_loop draws mean_interarrival mean_service_time fuel
              (initial_state num_tellers sim_time pos)) as [st'|e st'|st'];
    simpl outcome_state.
  - destruct Hout as (s & [HQs Hts] & Hs).
    pose proof (trace_ok_step draws mean_interarrival mean_service_time sim_time s HQs Hts)
      as Hlast.
    rewrite Hs in Hlast. destruct Hlast as [Etr Hnow].
    exact (Hfinal s st' HQs Hts Etr Hnow).
  - destruct Hout as (s & [HQs Hts] & Hs).
    pose proof (trace_ok_step draws mean_interarrival mean_service_time sim_time s HQs Hts)
      as Hlast.
    rewrite Hs in Hlast. destruct Hlast as [Etr Hnow].
    exact (Hfinal s st' HQs Hts Etr Hnow).
  - destruct Hout as [HQs Hts].
    apply (Hfinal st' st' HQs Hts eq_refl).
    apply trace_ok_before_cutoff; assumption.
Qed.

Lemma printed_times_ordered_witness :
  exists st,
    simulate example_draws 2 1 1 10 0 100 = Ok (Stopped st)
    /\ map Qred (map line_time (verbose_trace st)) = [2; 2; 4; 5; 5; 6; 6; 6; 7; 8; 8]
    /\ StronglySorted Qle (map line_time (verbose_trace st)).
Proof.
  eexists. split; [vm_compute; reflexivity|]. split; [vm_compute; reflexivity|].
  eapply (proj1 (printed_times_ordered example_draws 1 2 1 10 0 100 (Stopped _) _)).
Unshelve. vm_compute. reflexivity.
Defined.

(** * What a service-start line reports *)

Lemma waits_ok_same (st st' : state) :
  verbose_trace st' = verbose_trace st -> bank_put_queue st' = bank_put_queue st ->
  env_queue st' = env_queue st -> waits_ok st -> waits_ok st'.
Proof.
  intros E1 E2 E3 [H1 H2 H3]. constructor; rewrite ?E1, ?E2, ?E3; assumption.
Qed.

Lemma waits_ok_schedule (p : nat) (d : Q) (a : action) (st : state) :
  (forall r, a <> Request_granted r) ->
  waits_ok st -> waits_ok (schedule p d a st).
Proof.
  intros Ha [H1 H2 H3]. constructor; simpl; try assumption.
  apply heappush_Forall. split; [|exact H2].
  simpl. intros r Hr. exfalso. exact (Ha r Hr).
Qed.

Lemma waits_ok_pop (st : state) (ev : event) (q : list event) :
  env_queue st = ev :: q ->
  waits_ok st -> waits_ok (set_queue q (set_now (ev_time ev) st)).
Proof.
  intros Hq [H1 H2 H3]. rewrite Hq in H2. apply Forall_inv_tail in H2.
  constructor; simpl; assumption.
Qed.

Lemma waits_ok_trigger_put (st : state) : waits_ok st -> waits_ok (trigger_put st).
Proof.
  intros H. destruct (trigger_put_cases st) as [->|(r & rest & Hpq & _ & ->)]; [exact H|].
  destruct H as [H1 H2 H3]. rewrite Hpq in H1.
  constructor; simpl; try assumption.
  - apply Forall_inv_tail in H1. exact H1.
  - apply heappush_Forall. split; [|exact H2].
    simpl. intros r' Hr'. injection Hr' as <-. apply Forall_inv in H1. exact H1.
Qed.

Lemma waits_ok_release (id : nat) (st : state) :
  waits_ok st -> waits_ok (bank_release id st).
Proof.
  intros H. unfold bank_release. apply waits_ok_schedule; [discriminate|].
  apply (waits_ok_same st); try reflexivity. exact H.
Qed.

(** A line that is not a service start. *)
Lemma waits_ok_emit (l : line) (st : state) :
  (forall id t w, l <> Starts_service id t w) ->
  waits_ok st -> waits_ok (emit l st).
Proof.
  intros Hl [H1 H2 H3]. constructor; simpl.
  - eapply Forall_impl; [exact H1|]. intros r Hr. apply in_or_app. left. exact Hr.
  - eapply Forall_impl; [exact H2|]. intros e He r Hr. apply in_or_app. left. eauto.
  - intros i id t w Hi. apply lookup_snoc_Some in Hi as [[Hlt Hi]|[_ E]].
    + destruct (H3 i id t w Hi) as (j & ta & Hj & Hja & Hw).
      exists j, ta. split; [exact Hj|]. split; [|exact Hw].
      apply lookup_app_l_Some. exact Hja.
    + exfalso. exact (Hl id t w E).
Qed.

(** The service-start line of a customer whose arrival line is there. *)
Lemma waits_ok_start (r : request) (now : Q) (st : state) :
  In (Arrives (req_customer r) (req_arrival_time r)) (verbose_trace st) ->
  waits_ok st ->
  waits_ok (emit (Starts_service (req_customer r) now (now - req_arrival_time r)) st).
Proof.
  intros Hin [H1 H2 H3]. constructor; simpl.
  - eapply Forall_impl; [exact H1|]. intros x Hx. apply in_or_app. left. exact Hx.
  - eapply Forall_impl; [exact H2|]. intros e He x Hx. apply in_or_app. left. eauto.
  - intros i id t w Hi. apply lookup_snoc_Some in Hi as [[Hlt Hi]|[Hlen E]].
    + destruct (H3 i id t w Hi) as (j & ta & Hj & Hja & Hw).
      exists j, ta. split; [exact Hj|]. split; [|exact Hw].
      apply lookup_app_l_Some. exact Hja.
    + injection E as <- <- <-.
      apply list_elem_of_In, list_elem_of_lookup_1 in Hin as [j Hj].
      exists j, (req_arrival_time r).
      split; [rewrite Hlen; exact (lookup_lt_Some _ _ _ Hj)|].
      split; [apply lookup_app_l_Some; exact Hj | reflexivity].
Qed.

(** One arrival line per customer. *)
Lemma arrival_line_unique (tr : list line) :
  List.NoDup (arrived tr) ->
  forall j j' id a b,
    tr !! j = Some (Arrives id a) -> tr !! j' = Some (Arrives id b) -> j = j'.
Proof.
  assert (Hin : forall (l : list line) k id b,
            l !! k = Some (Arrives id b) -> In id (arrived l)).
  { intros l k id b Hk. unfold arrived. apply in_flat_map.
    exists (Arrives id b). split; [|left; reflexivity].
    apply list_elem_of_In. exact (list_elem_of_lookup_2 _ _ _ Hk). }
  induction tr as [|l tr IH]; intros Hnd j j' id a b Hj Hj'.
  - discriminate.
  - assert (Htl : List.NoDup (arrived tr)).
    { unfold arrived in Hnd. simpl in Hnd. apply List.NoDup_app_remove_l in Hnd. exact Hnd. }
    destruct j as [|j], j' as [|j']; simpl in Hj, Hj'.
    + reflexivity.
    + exfalso. injection Hj as ->. unfold arrived in Hnd. simpl in Hnd.
      apply List.NoDup_cons_iff in Hnd as [Hnot _]. apply Hnot.
      exact (Hin tr j' id b Hj').
    + exfalso. injection Hj' as ->. unfold arrived in Hnd. simpl in Hnd.
      apply List.NoDup_cons_iff in Hnd as [Hnot _]. apply Hnot.
      exact (Hin tr j id a Hj).
    + f_equal. exact (IH Htl j j' id a b Hj Hj').
Qed.

Section WaitFacts.

Variable draws : nat -> Q.
Variables mean_interarrival mean_service_time : Q.

Lemma waits_ok_arrivals_loop (st : state) :
  waits_ok st -> waits_ok (resume (customer_arrivals_loop draws mean_interarrival) st).
Proof.
  intros H.
  destruct (arrivals_loop_cases draws mean_interarrival st)
    as (k & d & a & -> & _ & Ha).
  apply waits_ok_schedule.
  - destruct Ha as [->|(e & -> & _)]; discriminate.
  - apply (waits_ok_same st); try reflexivity. exact H.
Qed.

Lemma waits_ok_step (st : state) :
  waits_ok st ->
  waits_ok (step_state (step draws mean_interarrival mean_service_time st)).
Proof.
  intros H. unfold step.
  destruct (env_queue st) as [|ev q] eqn:Hq; [exact H|].
  pose proof (waits_ok_pop st ev q Hq H) as H1.
  destruct (ev_action ev) as [| |id|r|id| | |e|] eqn:Hact; simpl step_state.
  - apply waits_ok_arrivals_loop. exact H1.
  - unfold resume, customer_arrivals_resumed, bind, effect.
    apply waits_ok_arrivals_loop.
    apply (waits_ok_schedule URGENT 0 (Initialize_customer _) (set_customer_id _ _));
      [discriminate|].
    apply (waits_ok_same (set_queue q (set_now (ev_time ev) st))); try reflexivity.
    exact H1.
  - unfold resume, customer_arrive, bind, effect, get_now, ret, bank_request.
    apply waits_ok_trigger_put.
    pose proof (waits_ok_emit (Arrives id (ev_time ev))
                  (set_queue q (set_now (ev_time ev) st)) ltac:(discriminate) H1)
      as [A1 A2 A3].
    constructor; simpl; try assumption.
    apply Forall_app. split; [exact A1|].
    constructor; [|constructor]. simpl. apply in_or_app. right. left. reflexivity.
  - assert (Hin : In (Arrives (req_customer r) (req_arrival_time r)) (verbose_trace st)).
    { destruct H as [_ H2 _]. rewrite Hq in H2. apply Forall_inv in H2.
      exact (H2 r Hact). }
    assert (H2 : waits_ok
                   (emit (Starts_service (req_customer r) (ev_time ev)
                            (ev_time ev - req_arrival_time r))
                      (set_waiting_times
                         (obs_waiting_times st ++ [ev_time ev - req_arrival_time r])
                         (set_queue q (set_now (ev_time ev) st))))).
    { apply waits_ok_start; [exact Hin|].
      apply (waits_ok_same (set_queue q (set_now (ev_time ev) st))); try reflexivity.
      exact H1. }
    destruct (start_service_cases draws mean_service_time r
                (set_queue q (set_now (ev_time ev) st)))
      as [[-> _]|(e & k & ss' & -> & _)].
    + apply waits_ok_schedule; [discriminate|].
      eapply waits_ok_same; [| | |exact H2]; reflexivity.
    + apply waits_ok_schedule; [discriminate|]. apply waits_ok_release.
      eapply waits_ok_same; [| | |exact H2]; reflexivity.
  - unfold resume, customer_leave, with_request, bind, effect, get_now, ret.
    apply waits_ok_schedule; [discriminate|]. apply waits_ok_release.
    apply waits_ok_emit; [discriminate | exact H1].
  - apply waits_ok_trigger_put. exact H1.
  - exact H1.
  - exact H1.
  - exact H1.
Qed.

End WaitFacts.

Lemma initial_state_waits_ok (num_tellers : Z) (sim_time : Q) (pos : nat) :
  0 < sim_time -> waits_ok (initial_state num_tellers sim_time pos).
Proof.
  intros HT. constructor.
  - constructor.
  - rewrite (initial_queue num_tellers sim_time pos HT).
    repeat constructor; simpl; discriminate.
  - intros i id t w Hi. discriminate.
Qed.

(** X14. The wait printed on a service-start line, which is the value
    recorded in [waiting_times], is exactly the time of that line minus
    the time printed on the same customer's arrival line; that arrival
    line comes earlier in the output and is the customer's only one. *)
Theorem wait_is_start_minus_arrival (draws : nat -> Q) (num_tellers : Z)
    (mean_interarrival mean_service_time sim_time : Q) (pos fuel : nat) (o : outcome)
    (i : nat) (id : nat) (t w : Q) :
  simulate draws mean_interarrival mean_service_time num_tellers sim_time pos fuel = Ok o ->
  verbose_trace (outcome_state o) !! i = Some (Starts_service id t w) ->
  exists j ta,
    (j < i)%nat
    /\ verbose_trace (outcome_state o) !! j = Some (Arrives id ta)
    /\ w = t - ta
    /\ forall j' ta', verbose_trace (outcome_state o) !! j' = Some (Arrives id ta') ->
                      j' = j.
Proof.
  intros H Hi.
  pose proof (simulate_run_ok _ _ _ _ _ _ _ _ H) as (_ & Hh & _).
  apply simulate_ok in H as (Hc & HT & ->).
  assert (Hw : waits_ok
                 (outcome_state (run_loop draws mean_interarrival mean_service_time fuel
                                   (initial_state num_tellers sim_time pos)))).
  { apply run_loop_invariant.
    - apply waits_ok_step.
    - apply initial_state_waits_ok. exact HT. }
  destruct (w_started _ Hw i id t w Hi) as (j & ta & Hj & Hja & Hwt).
  exists j, ta. split; [exact Hj|]. split; [exact Hja|]. split; [exact Hwt|].
  intros j' ta' Hj'.
  pose proof (h_nodup _ Hh) as Hnd. apply NoDup_ListNoDup in Hnd.
  apply List.NoDup_app_remove_r in Hnd.
  exact (arrival_line_unique _ Hnd j' j id ta' ta Hj' Hja).
Qed.

Lemma wait_is_start_minus_arrival_witness :
  exists st,
    simulate example_draws 2 1 1 10 0 100 = Ok (Stopped st)
    /\ verbose_trace st !! 4%nat = Some (Starts_service 2 5 1)
    /\ exists j ta,
         (j < 4)%nat
         /\ verbose_trace st !! j = Some (Arrives 2 ta)
         /\ 1 = 5 - ta
         /\ forall j' ta', verbose_trace st !! j' = Some (Arrives 2 ta') -> j' = j.
Proof.
  eexists. split; [vm_compute; reflexivity|].
  split; [vm_compute; reflexivity|].
  eapply (wait_is_start_minus_arrival example_draws 1 2 1 10 0 100 (Stopped _) 4 2 5 1).
  - vm_compute. reflexivity.
  - vm_compute. reflexivity.
Defined.

(** * Customers arrive in the order of their numbers *)

Lemma filter_heappush_length (f : event -> bool) (e : event) (q : list event) :
  length (List.filter f (heappush e q))
  = ((if f e then 1 else 0) + length (List.filter f q))%nat.
Proof.
  induction q as [|x q IH]; simpl.
  - destruct (f e); reflexivity.
  - destruct (key_ltb e x); simpl.
    + destruct (f e); reflexivity.
    + destruct (f x); simpl; rewrite IH; destruct (f e); lia.
Qed.

Lemma pending_arrivals_nil_cons (e : event) (q : list event) :
  pending_arrivals (e :: q) = [] ->
  (forall id, ev_action e <> Initialize_customer id) /\ pending_arrivals q = [].
Proof.
  unfold pending_arrivals. simpl. intros H. apply app_eq_nil in H as [H1 H2].
  split; [|exact H2]. intros id E. rewrite E in H1. discriminate.
Qed.

Lemma pending_arrivals_cons_other (e : event) (q : list event) :
  (forall id, ev_action e <> Initialize_customer id) ->
  pending_arrivals (e :: q) = pending_arrivals q.
Proof.
  intros He. unfold pending_arrivals. simpl.
  destruct (ev_action e); try reflexivity. exfalso. eapply He. reflexivity.
Qed.

Lemma seq_prefix (l1 l2 : list nat) (a n : nat) :
  l1 ++ l2 = seq a n -> l1 = seq a (length l1).
Proof.
  revert a n. induction l1 as [|x l1 IH]; intros a n H; [reflexivity|].
  destruct n as [|n]; [discriminate|]. simpl in H. injection H as -> H.
  simpl. f_equal. exact (IH _ _ H).
Qed.

Lemma numbering_ok_same (st st' : state) :
  env_queue st' = env_queue st -> verbose_trace st' = verbose_trace st ->
  gen_customer_id st' = gen_customer_id st ->
  numbering_ok st -> numbering_ok st'.
Proof.
  intros E1 E2 E3 [H1 H2 H3 H4 H5]. constructor; rewrite ?E1, ?E2, ?E3; assumption.
Qed.

(** An event of normal priority that is not a customer's first
    resumption; the generator's own timer only when it holds no other
    event. *)
Lemma numbering_ok_schedule (d : Q) (a : action) (st : state) :
  queue_ok st -> 0 <= d ->
  (forall id, a <> Initialize_customer id) ->
  (a = Initialize_arrivals \/ a = Timeout_arrivals ->
   List.filter is_generator_event (env_queue st) = []) ->
  numbering_ok st -> numbering_ok (schedule NORMAL d a st).
Proof.
  intros HQ Hd Ha Hgen [H1 H2 H3 H4 H5].
  set (e := {| ev_time := env_now st + d; ev_priority := NORMAL;
               ev_eid := env_eid st; ev_action := a |}).
  constructor; simpl; fold e.
  - rewrite filter_heappush_length.
    destruct (is_generator_event e) eqn:Eg; [|simpl; exact H1].
    rewrite Hgen; [simpl; lia|].
    unfold is_generator_event in Eg. simpl in Eg.
    destruct a; try discriminate; auto.
  - apply heappush_Forall. split; [|exact H2]. intros Hp. discriminate.
  - apply heappush_Forall. split; [|exact H3]. intros id Hid. exfalso. exact (Ha id Hid).
  - destruct (env_queue st) as [|x q] eqn:Hq; [reflexivity|].
    change (heappush e (x :: q))
      with (if key_ltb e x then e :: x :: q else x :: heappush e q).
    destruct (key_ltb e x) eqn:Hk.
    + destruct (ev_action x) as [| |id|r|id| | |y|] eqn:Hx;
        try (rewrite pending_arrivals_cons_other by (rewrite Hx; discriminate); exact H4).
      exfalso.
      destruct HQ as [_ Qe _ _]. rewrite Hq in Qe. apply Forall_inv in Qe.
      destruct Qe as (_ & _ & Himm & _). rewrite Hx in Himm. specialize (Himm eq_refl).
      apply Forall_inv in H3. specialize (H3 id Hx).
      apply key_ltb_spec in Hk. simpl in Hk. rewrite H3 in Hk. unfold URGENT, NORMAL in Hk.
      destruct Hk as [Hk|[_ [Hk|[Hk _]]]]; [lra | lia | lia].
    + rewrite pending_arrivals_heappush_other by exact Ha. exact H4.
  - rewrite pending_arrivals_heappush_other by exact Ha. exact H5.
Qed.

(** Spawning a customer while no other is pending and the generator
    holds no event: the new process goes to the head of the queue. *)
Lemma numbering_ok_spawn (st : state) :
  queue_ok st ->
  pending_arrivals (env_queue st) = [] ->
  List.filter is_generator_event (env_queue st) = [] ->
  numbering_ok st ->
  numbering_ok (schedule URGENT 0 (Initialize_customer (S (gen_customer_id st)))
                  (set_customer_id (S (gen_customer_id st)) st)).
Proof.
  intros HQ Hp Hg [H1 H2 H3 H4 H5].
  set (e := {| ev_time := env_now st + 0; ev_priority := URGENT;
               ev_eid := env_eid st;
               ev_action := Initialize_customer (S (gen_customer_id st)) |}).
  assert (Hhead : heappush e (env_queue st) = e :: env_queue st).
  { destruct (env_queue st) as [|x q] eqn:Hq; [reflexivity|]. simpl.
    replace (key_ltb e x) with true; [reflexivity|]. symmetry.
    apply key_ltb_spec. simpl.
    destruct HQ as [_ Qe Qu _]. rewrite Hq in Qe, Qu.
    apply Forall_inv in Qe. destruct Qe as (_ & Hle & _).
    apply Forall_inv in Qu. apply Forall_inv in H2.
    destruct (Qlt_le_dec (env_now st + 0) (ev_time x)) as [Hlt|Hge]; [left; exact Hlt|].
    right. split; [lra|]. left.
    destruct (ev_priority x) as [|p] eqn:Hpx; [|unfold URGENT; lia].
    exfalso. destruct (H2 Hpx) as [Hx|[[id Hx]|Hx]].
    - simpl in Hg. unfold is_generator_event at 1 in Hg. rewrite Hx in Hg. discriminate.
    - apply pending_arrivals_nil_cons in Hp as [Hp _]. exact (Hp id Hx).
    - destruct (Qu Hx) as (_ & _ & Hnow & _). lra. }
  constructor; simpl; fold e; rewrite ?Hhead.
  - simpl. unfold is_generator_event at 1. simpl. exact H1.
  - constructor; [|exact H2]. intros _. right. left. eexists. reflexivity.
  - constructor; [|exact H3]. intros id _. reflexivity.
  - exact Hp.
  - unfold pending_arrivals at 1. simpl. fold (pending_arrivals (env_queue st)).
    rewrite Hp in *. rewrite app_nil_r in H5. rewrite H5.
    change (1%nat :: seq 2 (gen_customer_id st)) with (seq 1 (S (gen_customer_id st))).
    rewrite seq_S. reflexivity.
Qed.

(** Popping an event that is not a customer's first resumption: none
    was pending. *)
Lemma numbering_ok_pop (st : state) (ev : event) (q : list event) :
  env_queue st = ev :: q -> (forall id, ev_action ev <> Initialize_customer id) ->
  numbering_ok st ->
  numbering_ok (set_queue q (set_now (ev_time ev) st))
  /\ pending_arrivals q = []
  /\ (is_generator_event ev = true -> List.filter is_generator_event q = []).
Proof.
  intros Hq Hev [H1 H2 H3 H4 H5]. rewrite Hq in *.
  rewrite (pending_arrivals_cons_other ev q Hev) in H5.
  split; [|split; [exact H4|]].
  - constructor; simpl.
    + simpl in H1. destruct (is_generator_event ev); simpl in H1; lia.
    + apply Forall_inv_tail in H2. exact H2.
    + apply Forall_inv_tail in H3. exact H3.
    + destruct q as [|x q']; [exact I|].
      apply pending_arrivals_nil_cons in H4 as [_ H4]. exact H4.
    + exact H5.
  - intros Hg. simpl in H1. rewrite Hg in H1. simpl in H1.
    destruct (List.filter is_generator_event q); [reflexivity | simpl in H1; lia].
Qed.

(** Popping a customer's first resumption and printing its arrival. *)
Lemma numbering_ok_arrive (st : state) (ev : event) (q : list event) (id : nat) :
  env_queue st = ev :: q -> ev_action ev = Initialize_customer id ->
  numbering_ok st ->
  numbering_ok (emit (Arrives id (ev_time ev)) (set_queue q (set_now (ev_time ev) st))).
Proof.
  intros Hq Hev [H1 H2 H3 H4 H5]. rewrite Hq in *.
  unfold pending_arrivals in H5. simpl in H5. rewrite Hev in H5.
  fold (pending_arrivals q) in H5. rewrite H4 in H5.
  constructor; simpl.
  - simpl in H1. destruct (is_generator_event ev); simpl in H1; lia.
  - apply Forall_inv_tail in H2. exact H2.
  - apply Forall_inv_tail in H3. exact H3.
  - destruct q as [|x q']; [exact I|].
    apply pending_arrivals_nil_cons in H4 as [_ H4]. exact H4.
  - rewrite H4, app_nil_r. unfold arrived. rewrite flat_map_snoc. exact H5.
Qed.

(** A line that is not an arrival. *)
Lemma numbering_ok_emit (l : line) (st : state) :
  (forall id t, l <> Arrives id t) ->
  numbering_ok st -> numbering_ok (emit l st).
Proof.
  intros Hl [H1 H2 H3 H4 H5]. constructor; simpl; try assumption.
  unfold arrived. rewrite flat_map_snoc.
  destruct l; try (rewrite app_nil_r; exact H5).
  exfalso. eapply Hl. reflexivity.
Qed.

Lemma numbering_ok_trigger_put (st : state) :
  queue_ok st -> numbering_ok st -> numbering_ok (trigger_put st).
Proof.
  intros HQ H. destruct (trigger_put_cases st) as [->|(r & rest & _ & _ & ->)]; [exact H|].
  apply (numbering_ok_same (schedule NORMAL 0 (Request_granted r) st)); try reflexivity.
  apply numbering_ok_schedule; try assumption; try discriminate; try lra.
  intros [E|E]; discriminate.
Qed.

Lemma numbering_ok_release (id : nat) (st : state) :
  queue_ok st -> numbering_ok st -> numbering_ok (bank_release id st).
Proof.
  intros HQ H. unfold bank_release.
  apply (numbering_ok_same (schedule NORMAL 0 Release_done st)); try reflexivity.
  apply numbering_ok_schedule; try assumption; try discriminate; try lra.
  intros [E|E]; discriminate.
Qed.

Section NumberingFacts.

Variable draws : nat -> Q.
Variables mean_interarrival mean_service_time : Q.

(** The generator back at its yield, holding no other event. *)
Lemma numbering_ok_arrivals_loop (st : state) :
  queue_ok st ->
  List.filter is_generator_event (env_queue st) = [] ->
  numbering_ok st ->
  numbering_ok (resume (customer_arrivals_loop draws mean_interarrival) st).
Proof.
  intros HQ Hg H.
  destruct (arrivals_loop_cases draws mean_interarrival st)
    as (k & d & a & -> & Hd & Ha).
  apply (numbering_ok_same (schedule NORMAL d a st)); try reflexivity.
  apply numbering_ok_schedule; try assumption.
  - destruct Ha as [->|(e & -> & _)]; discriminate.
  - intros _. exact Hg.
Qed.

Lemma numbering_ok_step (st : state) :
  queue_ok st -> numbering_ok st ->
  numbering_ok (step_state (step draws mean_interarrival mean_service_time st)).
Proof.
  intros HQ H. unfold step.
  destruct (env_queue st) as [|ev q] eqn:Hq; [exact H|].
  pose proof (queue_ok_pop st ev q HQ Hq) as Q1.
  pose proof (numbering_ok_pop st ev q Hq) as H1.
  set (st1 := set_queue q (set_now (ev_time ev) st)) in *.
  destruct (ev_action ev) as [| |id|r|id| | |e|] eqn:Hact; simpl step_state;
    try (destruct (H1 ltac:(discriminate) H) as (N1 & Hp & Hg)).
  - apply numbering_ok_arrivals_loop; [exact Q1 | | exact N1].
    apply Hg. unfold is_generator_event. rewrite Hact. reflexivity.
  - unfold resume, customer_arrivals_resumed, bind, effect.
    assert (Hg1 : List.filter is_generator_event (env_queue st1) = []).
    { apply Hg. unfold is_generator_event. rewrite Hact. reflexivity. }
    assert (Hs : numbering_ok
                   (schedule URGENT 0 (Initialize_customer (S (gen_customer_id st1)))
                      (set_customer_id (S (gen_customer_id st1)) st1))).
    { apply numbering_ok_spawn; assumption. }
    apply numbering_ok_arrivals_loop; [| |exact Hs].
    + apply queue_ok_schedule;
        [apply queue_ok_set_customer_id; exact Q1 | lra | intros _; lra
        | discriminate | intros r Hr; discriminate Hr].
    + simpl env_queue.
      assert (Hlen : length (List.filter is_generator_event
                               (heappush
                                  {| ev_time := ev_time ev + 0; ev_priority := URGENT;
                                     ev_eid := env_eid st;
                                     ev_action := Initialize_customer (S (gen_customer_id st)) |}
                                  q)) = 0%nat).
      { rewrite filter_heappush_length. unfold is_generator_event at 1. simpl.
        change (env_queue st1) with q in Hg1. rewrite Hg1. reflexivity. }
      apply List.length_zero_iff_nil. exact Hlen.
  - unfold resume, customer_arrive, bind, effect, get_now, ret, bank_request.
    apply numbering_ok_trigger_put.
    + apply queue_ok_set_put_queue, queue_ok_emit. exact Q1.
    + apply (numbering_ok_same (emit (Arrives id (ev_time ev)) st1)); try reflexivity.
      apply (numbering_ok_arrive st ev q id Hq Hact H).
  - assert (H2 : numbering_ok
                   (emit (Starts_service (req_customer r) (ev_time ev)
                            (ev_time ev - req_arrival_time r))
                      (set_waiting_times
                         (obs_waiting_times st ++ [ev_time ev - req_arrival_time r])
                         st1))).
    { apply numbering_ok_emit; [discriminate|].
      apply (numbering_ok_same st1); try reflexivity. exact N1. }
    assert (Q2 : queue_ok
                   (emit (Starts_service (req_customer r) (ev_time ev)
                            (ev_time ev - req_arrival_time r))
                      (set_waiting_times
                         (obs_waiting_times st ++ [ev_time ev - req_arrival_time r])
                         st1))).
    { apply queue_ok_emit, queue_ok_set_waiting_times. exact Q1. }
    destruct (start_service_cases draws mean_service_time r st1)
      as [[-> Hs]|(e & k & ss' & -> & _)].
    + apply numbering_ok_schedule; try discriminate; try exact Hs.
      * apply queue_ok_set_service_times, queue_ok_set_random_pos. exact Q2.
      * intros [E|E]; discriminate.
      * eapply numbering_ok_same; [| | |exact H2]; reflexivity.
    + apply numbering_ok_schedule; try discriminate; try lra.
      * apply queue_ok_release, queue_ok_set_service_times, queue_ok_set_random_pos.
        exact Q2.
      * intros [E|E]; discriminate.
      * apply numbering_ok_release.
        -- apply queue_ok_set_service_times, queue_ok_set_random_pos. exact Q2.
        -- eapply numbering_ok_same; [| | |exact H2]; reflexivity.
  - unfold resume, customer_leave, with_request, bind, effect, get_now, ret.
    assert (Q2 : queue_ok (emit (Leaves id (env_now st1)) st1))
      by (apply queue_ok_emit; exact Q1).
    apply numbering_ok_schedule; try discriminate; try lra.
    + apply queue_ok_release. exact Q2.
    + intros [E|E]; discriminate.
    + apply numbering_ok_release; [exact Q2|].
      apply numbering_ok_emit; [discriminate | exact N1].
  - apply numbering_ok_trigger_put; assumption.
  - exact N1.
  - exact N1.
  - exact N1.
Qed.

End NumberingFacts.

Lemma initial_state_numbering_ok (num_tellers : Z) (sim_time : Q) (pos : nat) :
  0 < sim_time -> numbering_ok (initial_state num_tellers sim_time pos).
Proof.
  intros HT. constructor; rewrite (initial_queue num_tellers sim_time pos HT).
  - simpl. lia.
  - repeat constructor; intros _; simpl; auto.
  - repeat constructor; simpl; discriminate.
  - reflexivity.
  - reflexivity.
Qed.

(** X15. Customers carry the numbers 1, 2, 3, ... in the order in which
    they arrive, and service starts in that same order: down the output,
    the arrival lines are those of Customer_1, Customer_2, ... without a
    gap, and so are the service-start lines. *)
Theorem customers_numbered_in_arrival_order (draws : nat -> Q) (num_tellers : Z)
    (mean_interarrival mean_service_time sim_time : Q) (pos fuel : nat) (o : outcome) :
  simulate draws mean_interarrival mean_service_time num_tellers sim_time pos fuel = Ok o ->
  arrived (verbose_trace (outcome_state o))
  = seq 1 (length (arrived (verbose_trace (outcome_state o))))
  /\ started (verbose_trace (outcome_state o))
     = seq 1 (length (started (verbose_trace (outcome_state o)))).
Proof.
  intros H.
  pose proof (simulate_run_ok _ _ _ _ _ _ _ _ H) as (_ & Hh & _).
  apply simulate_ok in H as (Hc & HT & ->).
  destruct (initial_state_ok num_tellers sim_time pos Hc HT) as ((HQ & _) & _).
  assert (Hn : queue_ok (outcome_state (run_loop draws mean_interarrival mean_service_time
                                          fuel (initial_state num_tellers sim_time pos)))
               /\ numbering_ok
                    (outcome_state (run_loop draws mean_interarrival mean_service_time
                                      fuel (initial_state num_tellers sim_time pos)))).
  { apply (run_loop_invariant draws mean_interarrival mean_service_time
             (fun st => queue_ok st /\ numbering_ok st)).
    - intros st [A B]. split.
      + apply queue_ok_step, A.
      + apply numbering_ok_step; assumption.
    - split; [exact HQ | apply initial_state_numbering_ok; exact HT]. }
  destruct Hn as [_ Hn]. pose proof (n_seq _ Hn) as Hseq.
  pose proof (seq_prefix _ _ _ _ Hseq) as Harr.
  split; [exact Harr|].
  pose proof (h_fifo _ Hh) as Hfifo. rewrite Hfifo in Harr.
  exact (seq_prefix _ _ _ _ Harr).
Qed.

Lemma customers_numbered_in_arrival_order_witness :
  exists st,
    simulate example_draws 2 1 1 10 0 100 = Ok (Stopped st)
    /\ length (arrived (verbose_trace st)) = 4%nat
    /\ arrived (verbose_trace st) = seq 1 (length (arrived (verbose_trace st))).
Proof.
  eexists. split; [vm_compute; reflexivity|]. split; [vm_compute; reflexivity|].
  apply (proj1 (customers_numbered_in_arrival_order example_draws 1 2 1 10 0 100
                  (Stopped _) ltac:(vm_compute; reflexivity))).
Defined.

(** * Only arrivals keep a run going *)

Lemma list_sum_heappush (f : event -> nat) (e : event) (q : list event) :
  list_sum (map f (heappush e q)) = (f e + list_sum (map f q))%nat.
Proof.
  induction q as [|x q IH]; simpl; [reflexivity|].
  destruct (key_ltb e x); simpl; [reflexivity|]. rewrite IH. lia.
Qed.

Lemma work_pending_schedule (p : nat) (d : Q) (a : action) (st : state) :
  work_pending (schedule p d a st) = (action_cost a + work_pending st)%nat.
Proof.
  unfold work_pending, schedule. simpl env_queue. simpl bank_put_queue.
  rewrite list_sum_heappush. simpl ev_action. lia.
Qed.

Lemma work_pending_pop (st : state) (ev : event) (q : list event) :
  env_queue st = ev :: q ->
  work_pending st
  = (action_cost (ev_action ev) + work_pending (set_queue q (set_now (ev_time ev) st)))%nat.
Proof. intros Hq. unfold work_pending. rewrite Hq. simpl. lia. Qed.

Lemma work_pending_trigger_put (st : state) :
  (work_pending (trigger_put st) <= work_pending st)%nat.
Proof.
  destruct (trigger_put_cases st) as [->|(r & rest & Hpq & _ & ->)]; [lia|].
  unfold work_pending at 1. simpl bank_put_queue. simpl env_queue.
  rewrite list_sum_heappush. unfold work_pending. rewrite Hpq.
  simpl ev_action. simpl action_cost. simpl length. lia.
Qed.

Lemma work_pending_request (r : request) (st : state) :
  (work_pending (bank_request r st) <= work_pending st + 4)%nat.
Proof.
  unfold bank_request.
  pose proof (work_pending_trigger_put (set_put_queue (bank_put_queue st ++ [r]) st)) as H.
  unfold work_pending at 2 in H. simpl env_queue in H. simpl bank_put_queue in H.
  rewrite length_app in H. simpl length in H. unfold work_pending at 2. lia.
Qed.

Lemma trigger_put_customer_id (st : state) :
  gen_customer_id (trigger_put st) = gen_customer_id st.
Proof.
  destruct (trigger_put_cases st) as [->|(r & rest & _ & _ & ->)]; reflexivity.
Qed.

Section EventCount.

Variable draws : nat -> Q.
Variables mean_interarrival mean_service_time : Q.

(** Every turn that goes on uses up one unit of the pending work,
    unless it spawns a customer, which adds five. *)
Lemma work_pending_step (st st' : state) :
  step draws mean_interarrival mean_service_time st = Next st' ->
  (1 + work_pending st' + 6 * gen_customer_id st
   <= work_pending st + 6 * gen_customer_id st')%nat.
Proof.
  unfold step. destruct (env_queue st) as [|ev q] eqn:Hq; [discriminate|].
  rewrite (work_pending_pop st ev q Hq).
  set (st1 := set_queue q (set_now (ev_time ev) st)).
  assert (Hgen : gen_customer_id st1 = gen_customer_id st) by reflexivity.
  destruct (ev_action ev) as [| |id|r|id| | |e|] eqn:Hact;
    intros Hstep; try discriminate; injection Hstep as <-; simpl action_cost.
  - destruct (arrivals_loop_cases draws mean_interarrival st1)
      as (k & d & a & -> & _ & Ha).
    rewrite work_pending_schedule.
    change (work_pending (set_random_pos k st1)) with (work_pending st1).
    change (gen_customer_id (schedule NORMAL d a (set_random_pos k st1)))
      with (gen_customer_id st).
    destruct Ha as [->|(e & -> & _)]; simpl action_cost; lia.
  - set (st2 := schedule URGENT 0
                  (Initialize_customer (S (gen_customer_id st1)))
                  (set_customer_id (S (gen_customer_id st1)) st1)).
    assert (E : resume (customer_arrivals_resumed draws mean_interarrival) st1
                = resume (customer_arrivals_loop draws mean_interarrival) st2)
      by reflexivity.
    rewrite E.
    destruct (arrivals_loop_cases draws mean_interarrival st2)
      as (k & d & a & -> & _ & Ha).
    rewrite work_pending_schedule.
    change (work_pending (set_random_pos k st2)) with (work_pending st2).
    unfold st2 at 1. rewrite work_pending_schedule. simpl action_cost.
    change (work_pending (set_customer_id (S (gen_customer_id st1)) st1))
      with (work_pending st1).
    change (gen_customer_id (schedule NORMAL d a (set_random_pos k st2)))
      with (S (gen_customer_id st)).
    destruct Ha as [->|(e & -> & _)]; simpl action_cost; lia.
  - unfold resume, customer_arrive, bind, effect, get_now, ret.
    match goal with
    | |- context [bank_request ?r ?s] =>
        pose proof (work_pending_request r s) as H;
        change (work_pending s) with (work_pending st1) in H;
        assert (Hg : gen_customer_id (bank_request r s) = gen_customer_id st)
          by (unfold bank_request; rewrite trigger_put_customer_id; reflexivity)
    end.
    rewrite Hg. lia.
  - destruct (start_service_cases draws mean_service_time r st1)
      as [[-> _]|(e & k & ss' & -> & _)].
    + rewrite work_pending_schedule. simpl action_cost.
      match goal with
      | |- context [work_pending ?s] =>
          change (work_pending s) with (work_pending st1)
      end.
      match goal with
      | |- context [gen_customer_id (schedule ?p ?d ?a ?s)] =>
          change (gen_customer_id (schedule p d a s)) with (gen_customer_id st)
      end.
      lia.
    + rewrite work_pending_schedule. unfold bank_release.
      rewrite work_pending_schedule. simpl action_cost.
      match goal with
      | |- context [work_pending ?s] =>
          change (work_pending s) with (work_pending st1)
      end.
      match goal with
      | |- context [gen_customer_id (schedule ?p ?d ?a ?s)] =>
          change (gen_customer_id (schedule p d a s)) with (gen_customer_id st)
      end.
      lia.
  - unfold resume, customer_leave, with_request, bind, effect, get_now, ret.
    rewrite work_pending_schedule. unfold bank_release.
    rewrite work_pending_schedule. simpl action_cost.
    match goal with
    | |- context [work_pending ?s] =>
        change (work_pending s) with (work_pending st1)
    end.
    match goal with
    | |- context [gen_customer_id (schedule ?p ?d ?a ?s)] =>
        change (gen_customer_id (schedule p d a s)) with (gen_customer_id st)
    end.
    lia.
  - pose proof (work_pending_trigger_put st1).
    rewrite trigger_put_customer_id. lia.
  - lia.
Qed.

(** Fuel runs out only when enough customers have been spawned. *)
Lemma run_loop_out_of_fuel (fuel : nat) :
  forall st st',
    run_loop draws mean_interarrival mean_service_time fuel st = Out_of_fuel st' ->
    (fuel + work_pending st' + 6 * gen_customer_id st
     <= work_pending st + 6 * gen_customer_id st')%nat.
Proof.
  induction fuel as [|fuel IH]; intros st st' H; simpl in H.
  - injection H as <-. lia.
  - destruct (step draws mean_interarrival mean_service_time st) as [s1|s1|e s1] eqn:E;
      try discriminate.
    pose proof (work_pending_step st s1 E). specialize (IH s1 st' H). lia.
Qed.

End EventCount.

(** X9. Only arrivals keep a run going: each customer causes at most
    six turns of the scheduler (the arrival timer that spawns it, its
    first resumption, its grant, its service timeout, its release and
    its end), so a run that has not reached its cutoff after [fuel]
    events has spawned at least [(fuel - 1) / 6] customers, all but at
    most one of which have printed their arrival line. *)
Theorem events_bounded_by_arrivals (draws : nat -> Q) (num_tellers : Z)
    (mean_interarrival mean_service_time sim_time : Q) (pos fuel : nat) (st : state) :
  simulate draws mean_interarrival mean_service_time num_tellers sim_time pos fuel
  = Ok (Out_of_fuel st) ->
  (fuel <= 6 * gen_customer_id st + 1)%nat
  /\ (gen_customer_id st <= length (arrived (verbose_trace st)) + 1)%nat.
Proof.
  intros H. apply simulate_ok in H as (Hc & HT & H). symmetry in H.
  split.
  - pose proof (run_loop_out_of_fuel draws mean_interarrival mean_service_time fuel
                  _ _ H) as Hw.
    unfold work_pending at 2 in Hw.
    rewrite (initial_queue num_tellers sim_time pos HT) in Hw.
    simpl in Hw. lia.
  - destruct (initial_state_ok num_tellers sim_time pos Hc HT) as ((HQ & _) & _).
    assert (Hn : queue_ok (outcome_state
                             (run_loop draws mean_interarrival mean_service_time
                                fuel (initial_state num_tellers sim_time pos)))
                 /\ numbering_ok
                      (outcome_state
                         (run_loop draws mean_interarrival mean_service_time
                            fuel (initial_state num_tellers sim_time pos)))).
    { apply (run_loop_invariant draws mean_interarrival mean_service_time
               (fun s => queue_ok s /\ numbering_ok s)).
      - intros s [A B]. split.
        + apply queue_ok_step, A.
        + apply numbering_ok_step; assumption.
      - split; [exact HQ | apply initial_state_numbering_ok; exact HT]. }
    rewrite H in Hn. simpl outcome_state in Hn. destruct Hn as [_ Hn].
    pose proof (n_seq _ Hn) as Hseq. pose proof (n_head _ Hn) as Hhead.
    assert (Hlen : (length (arrived (verbose_trace st))
                    + length (pending_arrivals (env_queue st)))%nat
                   = gen_customer_id st).
    { rewrite <- length_app, Hseq, length_seq. reflexivity. }
    assert (Hp : (length (pending_arrivals (env_queue st)) <= 1)%nat).
    { destruct (env_queue st) as [|e q]; [simpl; lia|].
      unfold pending_arrivals in *. simpl. rewrite Hhead, app_nil_r.
      destruct (ev_action e); simpl; lia. }
    lia.
Qed.

Lemma events_bounded_by_arrivals_witness :
  exists st,
    simulate steady_draws 2 1 1 10 0 5 = Ok (Out_of_fuel st)
    /\ gen_customer_id st = 1%nat
    /\ (5 <= 6 * gen_customer_id st + 1)%nat.
Proof.
  eexists. split; [vm_compute; reflexivity|]. split; [vm_compute; reflexivity|].
  apply (events_bounded_by_arrivals steady_draws 1 2 1 10 0 5).
  vm_compute. reflexivity.
Defined.

(** * Customers in service *)

Section ValidInvariant.

Variable draws : nat -> Q.
Variables mean_interarrival mean_service_time sim_time : Q.

Hypothesis draws_nonneg : forall n, 0 <= draws n.
Hypothesis mean_interarrival_pos : 0 < mean_interarrival.
Hypothesis mean_service_time_pos : 0 < mean_service_time.

(** What every turn from a good state keeps holds however the loop is
    left. *)
Lemma valid_run_invariant (I : state -> Prop) :
  (forall st, valid_run_ok sim_time st -> I st ->
              I (step_state (step draws mean_interarrival mean_service_time st))) ->
  forall fuel st,
    valid_run_ok sim_time st -> I st ->
    I (outcome_state (run_loop draws mean_interarrival mean_service_time fuel st)).
Proof using draws_nonneg mean_interarrival_pos mean_service_time_pos.
  intros Hstep. induction fuel as [|fuel IH]; intros st Hok HI; simpl.
  - exact HI.
  - specialize (Hstep st Hok HI).
    destruct (valid_run_step draws mean_interarrival mean_service_time sim_time
                draws_nonneg mean_interarrival_pos mean_service_time_pos st Hok)
      as [[st' E]|(st' & E & Hok')]; rewrite E in *; simpl in *.
    + exact Hstep.
    + apply IH; assumption.
Qed.

End ValidInvariant.

Lemma pending_grants_flat_map (q : list event) :
  pending_grants q
  = flat_map (fun e => match ev_action e with Request_granted r => [r] | _ => [] end) q.
Proof.
  induction q as [|e q IH]; simpl; [reflexivity|].
  destruct (ev_action e); simpl; rewrite IH; reflexivity.
Qed.

Lemma pending_grants_heappush (e : event) (q : list event) :
  Permutation (pending_grants (heappush e q)) (pending_grants (e :: q)).
Proof.
  rewrite !pending_grants_flat_map. apply Permutation_flat_map, heappush_Permutation.
Qed.

Lemma service_ids_heappush (e : event) (q : list event) :
  Permutation (service_ids (heappush e q)) (service_ids (e :: q)).
Proof. unfold service_ids. apply Permutation_flat_map, heappush_Permutation. Qed.

Lemma service_ids_heappush_other (e : event) (q : list event) :
  (forall id, ev_action e <> Timeout_service id) ->
  service_ids (heappush e q) = service_ids q.
Proof.
  intros He. unfold service_ids. induction q as [|y q IH]; simpl.
  - destruct (ev_action e); try reflexivity. exfalso. eapply He. reflexivity.
  - destruct (key_ltb e y); simpl.
    + destruct (ev_action e); try reflexivity. exfalso. eapply He. reflexivity.
    + rewrite IH. reflexivity.
Qed.

Lemma service_ids_timers (q : list event) :
  service_ids q = [] ->
  Forall (fun e => forall id, ev_action e <> Timeout_service id) q.
Proof.
  unfold service_ids. induction q as [|e q IH]; simpl; intros H; [constructor|].
  apply app_eq_nil in H as [H1 H2]. constructor; [|exact (IH H2)].
  intros id E. rewrite E in H1. discriminate.
Qed.

Lemma list_remove_first_Permutation (id : nat) (l l' : list nat) :
  Permutation l (id :: l') -> Permutation (list_remove_first id l) l'.
Proof.
  intros H.
  assert (Hin : In id l).
  { apply (Permutation_in id (Permutation_sym H)). left. reflexivity. }
  assert (Hrm : Permutation l (id :: list_remove_first id l)).
  { clear H. induction l as [|x l IH]; [destruct Hin|]. simpl.
    destruct (x =? id)%nat eqn:E.
    - apply Nat.eqb_eq in E. subst x. reflexivity.
    - destruct Hin as [->|Hin]; [rewrite Nat.eqb_refl in E; discriminate|].
      rewrite (IH Hin) at 1. apply perm_swap. }
  rewrite Hrm in H. exact (Permutation_cons_inv H).
Qed.

Lemma tellers_ok_same (st st' : state) :
  bank_users st' = bank_users st -> env_queue st' = env_queue st ->
  verbose_trace st' = verbose_trace st -> tellers_ok st -> tellers_ok st'.
Proof.
  intros E1 E2 E3 [H1 H2]. constructor; unfold granted_ids in *;
    rewrite ?E1, ?E2, ?E3; assumption.
Qed.

Lemma tellers_ok_schedule (p : nat) (d : Q) (a : action) (st : state) :
  (forall r, a <> Request_granted r) -> (forall id, a <> Timeout_service id) ->
  tellers_ok st -> tellers_ok (schedule p d a st).
Proof.
  intros Hr Hs [H1 H2]. constructor; unfold granted_ids in *; simpl.
  - rewrite pending_grants_heappush_other by exact Hr.
    rewrite service_ids_heappush_other by exact Hs. exact H1.
  - rewrite service_ids_heappush_other by exact Hs. exact H2.
Qed.

Lemma tellers_ok_pop (st : state) (ev : event) (q : list event) :
  env_queue st = ev :: q ->
  (forall r, ev_action ev <> Request_granted r) ->
  (forall id, ev_action ev <> Timeout_service id) ->
  tellers_ok st -> tellers_ok (set_queue q (set_now (ev_time ev) st)).
Proof.
  intros Hq Hr Hs [H1 H2]. unfold granted_ids in *. rewrite Hq in *.
  assert (Eg : pending_grants (ev :: q) = pending_grants q).
  { simpl. destruct (ev_action ev); try reflexivity. exfalso. eapply Hr. reflexivity. }
  assert (Es : service_ids (ev :: q) = service_ids q).
  { unfold service_ids. simpl. destruct (ev_action ev); try reflexivity.
    exfalso. eapply Hs. reflexivity. }
  rewrite Eg, Es in H1. rewrite Es in H2.
  constructor; unfold granted_ids; simpl; assumption.
Qed.

Lemma tellers_ok_emit (l : line) (st : state) :
  (forall id t w, l <> Starts_service id t w) -> (forall id t, l <> Leaves id t) ->
  tellers_ok st -> tellers_ok (emit l st).
Proof.
  intros Hs Hl [H1 H2]. constructor; unfold granted_ids in *; simpl.
  - exact H1.
  - unfold started, departed. rewrite !flat_map_snoc.
    destruct l; simpl; rewrite ?app_nil_r.
    + exact H2.
    + exfalso. eapply Hs. reflexivity.
    + exfalso. eapply Hl. reflexivity.
Qed.

Lemma tellers_ok_trigger_put (st : state) : tellers_ok st -> tellers_ok (trigger_put st).
Proof.
  intros H. destruct (trigger_put_cases st) as [->|(r & rest & _ & _ & ->)]; [exact H|].
  destruct H as [H1 H2]. constructor; unfold granted_ids in *; simpl.
  - rewrite pending_grants_heappush. simpl pending_grants.
    rewrite service_ids_heappush_other by discriminate.
    simpl map. rewrite H1. rewrite <- Permutation_cons_append. reflexivity.
  - rewrite service_ids_heappush_other by discriminate. exact H2.
Qed.

Section TellerFacts.

Variable draws : nat -> Q.
Variables mean_interarrival mean_service_time sim_time : Q.

Hypothesis draws_nonneg : forall n, 0 <= draws n.
Hypothesis mean_interarrival_pos : 0 < mean_interarrival.
Hypothesis mean_service_time_pos : 0 < mean_service_time.

Lemma tellers_ok_step (st : state) :
  valid_run_ok sim_time st -> tellers_ok st ->
  tellers_ok (step_state (step draws mean_interarrival mean_service_time st)).
Proof using draws_nonneg mean_interarrival_pos mean_service_time_pos.
  intros (HQ & HF & HS) H.
  destruct (env_queue st) as [|ev q] eqn:Hq.
  { unfold step. rewrite Hq. exact H. }
  rewrite (step_valid draws mean_interarrival mean_service_time
             draws_nonneg mean_interarrival_pos mean_service_time_pos st ev q Hq).
  pose proof (tellers_ok_pop st ev q Hq) as H1.
  set (st1 := set_queue q (set_now (ev_time ev) st)) in *.
  destruct (ev_action ev) as [| |id|r|id| | |e|] eqn:Hact; simpl step_state;
    try specialize (H1 ltac:(discriminate) ltac:(discriminate) H).
  - apply tellers_ok_schedule; try discriminate.
    apply (tellers_ok_same st1); try reflexivity. exact H1.
  - apply tellers_ok_schedule; try discriminate.
    apply (tellers_ok_same
             (schedule URGENT 0 (Initialize_customer (S (gen_customer_id st)))
                (set_customer_id (S (gen_customer_id st)) st1))); try reflexivity.
    apply tellers_ok_schedule; try discriminate.
    apply (tellers_ok_same st1); try reflexivity. exact H1.
  - unfold bank_request. apply tellers_ok_trigger_put.
    apply (tellers_ok_same (emit (Arrives id (ev_time ev)) st1)); try reflexivity.
    apply tellers_ok_emit; try discriminate. exact H1.
  - clear H1. destruct H as [U1 U2]. unfold granted_ids in U1. rewrite Hq in U1, U2.
    simpl pending_grants in U1. rewrite Hact in U1.
    unfold service_ids in U1, U2. simpl in U1, U2. rewrite Hact in U1, U2.
    simpl in U1, U2. fold (service_ids q) in U1, U2.
    constructor; unfold granted_ids; simpl.
    + rewrite pending_grants_heappush_other by discriminate.
      rewrite service_ids_heappush. unfold service_ids at 1. simpl.
      fold (service_ids q). rewrite U1. apply Permutation_middle.
    + rewrite service_ids_heappush. unfold service_ids at 1. simpl.
      fold (service_ids q). unfold started, departed in *.
      rewrite !flat_map_snoc. simpl. rewrite app_nil_r, length_app. simpl. lia.
  - clear H1. destruct H as [U1 U2]. unfold granted_ids in U1. rewrite Hq in U1, U2.
    simpl pending_grants in U1. rewrite Hact in U1.
    unfold service_ids in U1, U2. simpl in U1, U2. rewrite Hact in U1, U2.
    simpl in U1, U2. fold (service_ids q) in U1, U2.
    constructor; unfold granted_ids; simpl.
    + rewrite !pending_grants_heappush_other by discriminate.
      rewrite !service_ids_heappush_other by discriminate.
      apply list_remove_first_Permutation.
      rewrite U1. symmetry. apply Permutation_middle.
    + rewrite !service_ids_heappush_other by discriminate.
      unfold started, departed in *.
      rewrite !flat_map_snoc. simpl. rewrite app_nil_r, length_app. simpl. lia.
  - apply tellers_ok_trigger_put. exact H1.
  - exact H1.
  - exact H1.
  - exact H1.
Qed.

End TellerFacts.

Lemma initial_state_tellers_ok (num_tellers : Z) (sim_time : Q) (pos : nat) :
  0 < sim_time -> tellers_ok (initial_state num_tellers sim_time pos).
Proof.
  intros HT. constructor; unfold granted_ids;
    rewrite (initial_queue num_tellers sim_time pos HT); reflexivity.
Qed.

(** X16. In every run of a valid configuration, the customers between
    their service-start line and their departure line are exactly those
    holding a teller whose service has begun: at every point of the run
    the service starts printed so far exceed the departures by at most
    [num_tellers], and at the cutoff by exactly the number of tellers in
    use. *)
Theorem customers_in_service_bounded (draws : nat -> Q) (num_tellers : Z)
    (mean_interarrival mean_service_time sim_time : Q) (num_runs : Z)
    (pos fuel : nat) (o : outcome) :
  (forall n, 0 <= draws n) ->
  valid_configuration num_tellers mean_interarrival mean_service_time sim_time num_runs ->
  simulate draws mean_interarrival mean_service_time num_tellers sim_time pos fuel = Ok o ->
  (length (departed (verbose_trace (outcome_state o)))
   <= length (started (verbose_trace (outcome_state o))))%nat
  /\ (Z.of_nat (length (started (verbose_trace (outcome_state o))))
      - Z.of_nat (length (departed (verbose_trace (outcome_state o))))
      <= num_tellers)%Z
  /\ (forall st, o = Stopped st ->
                 length (started (verbose_trace st))
                 = (length (departed (verbose_trace st)) + length (bank_users st))%nat).
Proof.
  intros Hd (Hc & Hmi & Hms & HT & _) H.
  pose proof (simulate_run_ok _ _ _ _ _ _ _ _ H) as (_ & _ & Hcap & Hn).
  pose proof H as Hsim.
  apply simulate_ok in H as (Hc' & _ & ->).
  assert (Ht : tellers_ok
                 (outcome_state (run_loop draws mean_interarrival mean_service_time fuel
                                   (initial_state num_tellers sim_time pos)))).
  { apply (valid_run_invariant draws mean_interarrival mean_service_time sim_time
             Hd Hmi Hms).
    - intros st Hok Hst. apply (tellers_ok_step draws mean_interarrival mean_service_time
                                  sim_time Hd Hmi Hms st Hok Hst).
    - apply initial_state_valid; assumption.
    - apply initial_state_tellers_ok. exact HT. }
  destruct Ht as [U1 U2].
  pose proof (Permutation_length U1) as Hlen. rewrite length_app in Hlen.
  unfold capacity_ok in Hcap. rewrite Hn in Hcap.
  split; [lia|]. split; [lia|].
  intros st Hst. rewrite Hst in *. simpl outcome_state in *.
  destruct (simulate_stopped _ _ _ _ _ _ _ _ Hsim) as [Htimers _].
  unfold granted_ids in Hlen. rewrite (only_timers_no_grant _ Htimers) in Hlen.
  simpl in Hlen. lia.
Qed.

Lemma customers_in_service_bounded_witness :
  exists st,
    simulate example_draws 2 1 1 10 0 100 = Ok (Stopped st)
    /\ length (started (verbose_trace st)) = 4%nat
    /\ length (departed (verbose_trace st)) = 3%nat
    /\ (Z.of_nat (length (started (verbose_trace st)))
        - Z.of_nat (length (departed (verbose_trace st))) <= 1)%Z.
Proof.
  eexists. split; [vm_compute; reflexivity|]. split; [vm_compute; reflexivity|].
  split; [vm_compute; reflexivity|].
  apply (customers_in_service_bounded example_draws 1 2 1 10 1 0 100 (Stopped _)).
  - intros n. unfold example_draws.
    do 8 (destruct n as [|n]; [simpl; lra|]). simpl. destruct n; lra.
  - unfold valid_configuration. repeat split; try lia; lra.
  - vm_compute. reflexivity.
Defined.

(** * A customer leaves one service time after its service starts *)

Lemma started_snoc (tr : list line) (l : line) :
  started (tr ++ [l])
  = started tr ++ match l with Starts_service id _ _ => [id] | _ => [] end.
Proof. unfold started. apply flat_map_snoc. Qed.

(** A record stays one when lines and service times are appended. *)
Lemma service_record_grow (tr tr' : list line) (ss ss' : list Q) (b b' : nat)
    (id : nat) (t s : Q) :
  (b <= b')%nat ->
  service_record tr ss b id t s ->
  service_record (tr ++ tr') (ss ++ ss') b' id t s.
Proof.
  intros Hb (j & k & w & Hj & Hl & Hk & Hs). exists j, k, w.
  split; [lia|]. split; [apply lookup_app_l_Some; exact Hl|].
  split; [|apply lookup_app_l_Some; exact Hs].
  unfold started in *. rewrite flat_map_app. apply lookup_app_l_Some. exact Hk.
Qed.

Lemma service_ok_same (st st' : state) :
  obs_service_times st' = obs_service_times st ->
  verbose_trace st' = verbose_trace st -> env_queue st' = env_queue st ->
  service_ok st -> service_ok st'.
Proof.
  intros E1 E2 E3 [H1 H2 H3]. constructor; rewrite ?E1, ?E2, ?E3; assumption.
Qed.

Lemma service_ok_schedule (p : nat) (d : Q) (a : action) (st : state) :
  (forall id, a <> Timeout_service id) ->
  service_ok st -> service_ok (schedule p d a st).
Proof.
  intros Ha [H1 H2 H3]. constructor; simpl; try assumption.
  apply heappush_Forall. split; [|exact H2].
  simpl. intros id Hid. exfalso. exact (Ha id Hid).
Qed.

Lemma service_ok_pop (st : state) (ev : event) (q : list event) :
  env_queue st = ev :: q ->
  service_ok st -> service_ok (set_queue q (set_now (ev_time ev) st)).
Proof.
  intros Hq [H1 H2 H3]. rewrite Hq in H2. apply Forall_inv_tail in H2.
  constructor; simpl; assumption.
Qed.

Lemma service_ok_trigger_put (st : state) : service_ok st -> service_ok (trigger_put st).
Proof.
  intros H. destruct (trigger_put_cases st) as [->|(r & rest & _ & _ & ->)]; [exact H|].
  apply (service_ok_same (schedule NORMAL 0 (Request_granted r) st)); try reflexivity.
  apply service_ok_schedule; [discriminate | exact H].
Qed.

(** An arrival line. *)
Lemma service_ok_arrives (id : nat) (t : Q) (st : state) :
  service_ok st -> service_ok (emit (Arrives id t) st).
Proof.
  intros [H1 H2 H3]. constructor; simpl.
  - rewrite started_snoc, app_nil_r. exact H1.
  - eapply Forall_impl; [exact H2|]. intros e He x Hx.
    destruct (He x Hx) as (t0 & s & Hr & Et). exists t0, s. split; [|exact Et].
    rewrite <- (app_nil_r (obs_service_times st)).
    apply (service_record_grow _ _ _ _ (length (verbose_trace st))); [|exact Hr].
    rewrite length_app. lia.
  - intros i x t' Hi. apply lookup_snoc_Some in Hi as [[Hlt Hi]|[_ E]]; [|discriminate].
    destruct (H3 i x t' Hi) as (t0 & s & Hr & Et). exists t0, s. split; [|exact Et].
    rewrite <- (app_nil_r (obs_service_times st)).
    apply (service_record_grow _ _ _ _ i); [lia | exact Hr].
Qed.

(** The service start: the line, the service time and the timeout. *)
Lemma service_ok_start (id : nat) (w s d : Q) (st : state) :
  d == s ->
  service_ok st ->
  service_ok
    (schedule NORMAL d (Timeout_service id)
       (set_service_times (obs_service_times st ++ [s])
          (emit (Starts_service id (env_now st) w) st))).
Proof.
  intros Ed [H1 H2 H3].
  assert (Hnew : service_record (verbose_trace st ++ [Starts_service id (env_now st) w])
                   (obs_service_times st ++ [s])
                   (length (verbose_trace st ++ [Starts_service id (env_now st) w]))
                   id (env_now st) s).
  { exists (length (verbose_trace st)), (length (started (verbose_trace st))), w.
    split; [rewrite length_app; simpl; lia|].
    split; [apply list_lookup_middle; reflexivity|].
    split.
    - rewrite started_snoc. apply list_lookup_middle. reflexivity.
    - rewrite <- H1. apply list_lookup_middle. reflexivity. }
  constructor; simpl.
  - rewrite started_snoc, !length_app, H1. reflexivity.
  - apply heappush_Forall. split.
    + simpl. intros x Hx. injection Hx as <-.
      exists (env_now st), s. split; [exact Hnew | rewrite Ed; reflexivity].
    + eapply Forall_impl; [exact H2|]. intros e He x Hx.
      destruct (He x Hx) as (t0 & s0 & Hr & Et). exists t0, s0. split; [|exact Et].
      apply (service_record_grow _ _ _ _ (length (verbose_trace st))); [|exact Hr].
      rewrite length_app. lia.
  - intros i x t' Hi. apply lookup_snoc_Some in Hi as [[Hlt Hi]|[_ E]]; [|discriminate].
    destruct (H3 i x t' Hi) as (t0 & s0 & Hr & Et). exists t0, s0. split; [|exact Et].
    apply (service_record_grow _ _ _ _ i); [lia | exact Hr].
Qed.

(** The departure of the customer whose service timeout is dispatched. *)
Lemma service_ok_leave (st : state) (ev : event) (q : list event) (id : nat) :
  env_queue st = ev :: q -> ev_action ev = Timeout_service id ->
  service_ok st ->
  service_ok (emit (Leaves id (ev_time ev)) (set_queue q (set_now (ev_time ev) st))).
Proof.
  intros Hq Hact [H1 H2 H3]. rewrite Hq in H2.
  pose proof (Forall_inv H2 id Hact) as (t & s & Hr & Et).
  apply Forall_inv_tail in H2.
  constructor; simpl.
  - rewrite started_snoc, app_nil_r. exact H1.
  - eapply Forall_impl; [exact H2|]. intros e He x Hx.
    destruct (He x Hx) as (t0 & s0 & Hr0 & Et0). exists t0, s0. split; [|exact Et0].
    rewrite <- (app_nil_r (obs_service_times st)).
    apply (service_record_grow _ _ _ _ (length (verbose_trace st))); [|exact Hr0].
    rewrite length_app. lia.
  - intros i x t' Hi. apply lookup_snoc_Some in Hi as [[Hlt Hi]|[Hlen E]].
    + destruct (H3 i x t' Hi) as (t0 & s0 & Hr0 & Et0). exists t0, s0. split; [|exact Et0].
      rewrite <- (app_nil_r (obs_service_times st)).
      apply (service_record_grow _ _ _ _ i); [lia | exact Hr0].
    + injection E as <- <-. exists t, s. split; [|exact Et].
      rewrite <- (app_nil_r (obs_service_times st)).
      apply (service_record_grow _ _ _ _ (length (verbose_trace st))); [lia | exact Hr].
Qed.

Section ServiceFacts.

Variable draws : nat -> Q.
Variables mean_interarrival mean_service_time sim_time : Q.

Hypothesis draws_nonneg : forall n, 0 <= draws n.
Hypothesis mean_interarrival_pos : 0 < mean_interarrival.
Hypothesis mean_service_time_pos : 0 < mean_service_time.

Lemma service_ok_step (st : state) :
  valid_run_ok sim_time st -> service_ok st ->
  service_ok (step_state (step draws mean_interarrival mean_service_time st)).
Proof using draws_nonneg mean_interarrival_pos mean_service_time_pos.
  intros (HQ & HF & HS) H.
  destruct (env_queue st) as [|ev q] eqn:Hq.
  { unfold step. rewrite Hq. exact H. }
  rewrite (step_valid draws mean_interarrival mean_service_time
             draws_nonneg mean_interarrival_pos mean_service_time_pos st ev q Hq).
  pose proof (service_ok_pop st ev q Hq H) as H1.
  set (st1 := set_queue q (set_now (ev_time ev) st)) in *.
  destruct (ev_action ev) as [| |id|r|id| | |e|] eqn:Hact; simpl step_state.
  - apply service_ok_schedule; [discriminate|].
    apply (service_ok_same st1); try reflexivity. exact H1.
  - apply service_ok_schedule; [discriminate|].
    apply (service_ok_same
             (schedule URGENT 0 (Initialize_customer (S (gen_customer_id st)))
                (set_customer_id (S (gen_customer_id st)) st1))); try reflexivity.
    apply service_ok_schedule; [discriminate|].
    apply (service_ok_same st1); try reflexivity. exact H1.
  - unfold bank_request. apply service_ok_trigger_put.
    apply (service_ok_same (emit (Arrives id (ev_time ev)) st1)); try reflexivity.
    apply service_ok_arrives. exact H1.
  - pose proof (service_ok_start (req_customer r) (ev_time ev - req_arrival_time r)
                  (draws (random_pos st) / (1 / mean_service_time))
                  (draws (random_pos st) / (1 / mean_service_time))
                  st1 ltac:(reflexivity) H1) as H2.
    destruct H2 as [A1 A2 A3]. constructor; assumption.
  - apply service_ok_schedule; [discriminate|].
    unfold bank_release. apply service_ok_schedule; [discriminate|].
    apply (service_ok_same (emit (Leaves id (ev_time ev)) st1)); try reflexivity.
    apply (service_ok_leave st ev q id Hq Hact H).
  - apply service_ok_trigger_put. exact H1.
  - exact H1.
  - exact H1.
  - exact H1.
Qed.

End ServiceFacts.

Lemma initial_state_service_ok (num_tellers : Z) (sim_time : Q) (pos : nat) :
  0 < sim_time -> service_ok (initial_state num_tellers sim_time pos).
Proof.
  intros HT. constructor.
  - reflexivity.
  - rewrite (initial_queue num_tellers sim_time pos HT).
    repeat constructor; simpl; discriminate.
  - intros i id t' Hi. discriminate.
Qed.

(** X17. In every run of a valid configuration, a customer leaves exactly
    its service time after its service started: every departure line
    follows the same customer's service-start line, and its time is the
    time of that line plus the entry of [service_times] recorded for
    that customer, the one at the customer's position among the service
    starts. *)
Theorem departure_is_start_plus_service (draws : nat -> Q) (num_tellers : Z)
    (mean_interarrival mean_service_time sim_time : Q) (num_runs : Z)
    (pos fuel : nat) (o : outcome) (i : nat) (id : nat) (t' : Q) :
  (forall n, 0 <= draws n) ->
  valid_configuration num_tellers mean_interarrival mean_service_time sim_time num_runs ->
  simulate draws mean_interarrival mean_service_time num_tellers sim_time pos fuel = Ok o ->
  verbose_trace (outcome_state o) !! i = Some (Leaves id t') ->
  exists j k t w s,
    (j < i)%nat
    /\ verbose_trace (outcome_state o) !! j = Some (Starts_service id t w)
    /\ started (verbose_trace (outcome_state o)) !! k = Some id
    /\ obs_service_times (outcome_state o) !! k = Some s
    /\ t' == t + s.
Proof.
  intros Hd (Hc & Hmi & Hms & HT & _) H Hi.
  apply simulate_ok in H as (_ & _ & ->).
  assert (Hs : service_ok
                 (outcome_state (run_loop draws mean_interarrival mean_service_time fuel
                                   (initial_state num_tellers sim_time pos)))).
  { apply (valid_run_invariant draws mean_interarrival mean_service_time sim_time
             Hd Hmi Hms).
    - intros st Hok Hst. apply (service_ok_step draws mean_interarrival mean_service_time
                                  sim_time Hd Hmi Hms st Hok Hst).
    - apply initial_state_valid; [lia | exact HT].
    - apply initial_state_service_ok. exact HT. }
  destruct (s_left _ Hs i id t' Hi) as (t & s & (j & k & w & Hj & Hl & Hk & Hss) & Et).
  exists j, k, t, w, s. auto.
Qed.

Lemma departure_is_start_plus_service_witness :
  exists st,
    simulate example_draws 2 1 1 10 0 100 = Ok (Stopped st)
    /\ verbose_trace st !! 6%nat = Some (Leaves 2 6)
    /\ exists j k t w s,
         (j < 6)%nat
         /\ verbose_trace st !! j = Some (Starts_service 2 t w)
         /\ started (verbose_trace st) !! k = Some 2%nat
         /\ obs_service_times st !! k = Some s
         /\ 6 == t + s.
Proof.
  eexists. split; [vm_compute; reflexivity|]. split; [vm_compute; reflexivity|].
  apply (departure_is_start_plus_service example_draws 1 2 1 10 1 0 100 (Stopped _) 6 2 6).
  - intros n. unfold example_draws.
    do 8 (destruct n as [|n]; [simpl; lra|]). simpl. destruct n; lra.
  - unfold valid_configuration. repeat split; try lia; lra.
  - vm_compute. reflexivity.
  - vm_compute. reflexivity.
Defined.

(** * Enough tellers for everybody *)

Lemma idle_ok_same (st st' : state) :
  bank_users st' = bank_users st -> env_queue st' = env_queue st ->
  verbose_trace st' = verbose_trace st -> bank_capacity st' = bank_capacity st ->
  bank_put_queue st' = bank_put_queue st ->
  obs_waiting_times st' = obs_waiting_times st ->
  idle_ok st -> idle_ok st'.
Proof.
  intros E1 E2 E3 E4 E5 E6 [H1 H2]. constructor; unfold granted_ids in *;
    rewrite ?E1, ?E2, ?E3, ?E4, ?E5, ?E6; assumption.
Qed.

Lemma idle_ok_schedule (p : nat) (d : Q) (a : action) (st : state) :
  (forall r, a <> Request_granted r) ->
  idle_ok st -> idle_ok (schedule p d a st).
Proof.
  intros Ha [H1 H2]. constructor; unfold granted_ids in *; simpl.
  - rewrite pending_grants_heappush_other by exact Ha. exact H1.
  - intros Hc. destruct (H2 Hc) as (A & B & C). split; [exact A|]. split; [|exact C].
    apply heappush_Forall. split; [|exact B].
    simpl. intros r Hr. exfalso. exact (Ha r Hr).
Qed.

Lemma idle_ok_pop (st : state) (ev : event) (q : list event) :
  env_queue st = ev :: q -> (forall r, ev_action ev <> Request_granted r) ->
  idle_ok st -> idle_ok (set_queue q (set_now (ev_time ev) st)).
Proof.
  intros Hq Hev [H1 H2]. unfold granted_ids in *. rewrite Hq in *.
  assert (Eg : pending_grants (ev :: q) = pending_grants q).
  { simpl. destruct (ev_action ev); try reflexivity. exfalso. eapply Hev. reflexivity. }
  rewrite Eg in H1.
  constructor; unfold granted_ids; simpl.
  - exact H1.
  - intros Hc. destruct (H2 Hc) as (A & B & C). split; [exact A|]. split; [|exact C].
    apply Forall_inv_tail in B. exact B.
Qed.

Lemma idle_ok_emit (l : line) (st : state) :
  (forall id t, l <> Arrives id t) ->
  (forall id t w, l <> Starts_service id t w) ->
  idle_ok st -> idle_ok (emit l st).
Proof.
  intros Ha Hs [H1 H2].
  assert (Ea : arrived (verbose_trace st ++ [l]) = arrived (verbose_trace st)).
  { unfold arrived. rewrite flat_map_snoc. destruct l; try apply app_nil_r.
    exfalso. eapply Ha. reflexivity. }
  assert (Es : started (verbose_trace st ++ [l]) = started (verbose_trace st)).
  { unfold started. rewrite flat_map_snoc. destruct l; try apply app_nil_r.
    exfalso. eapply Hs. reflexivity. }
  constructor; unfold granted_ids in *; simpl; rewrite ?Ea, ?Es; assumption.
Qed.

Lemma idle_ok_release (id : nat) (st : state) : idle_ok st -> idle_ok (bank_release id st).
Proof.
  intros [H1 H2]. unfold bank_release. apply idle_ok_schedule; [discriminate|].
  constructor; unfold granted_ids in *; simpl.
  - pose proof (list_remove_first_length id (bank_users st)). lia.
  - exact H2.
Qed.

(** [_trigger_put] with nobody queued, or with somebody queued after
    more customers arrived than there are tellers. *)
Lemma idle_ok_trigger_put (st : state) :
  idle_ok st -> idle_ok (trigger_put st).
Proof.
  intros H. destruct (trigger_put_cases st) as [->|(r & rest & Hpq & _ & ->)]; [exact H|].
  destruct H as [H1 H2]. constructor; unfold granted_ids in *; simpl.
  - rewrite !length_map in *.
    rewrite (Permutation_length (pending_grants_heappush _ _)). simpl.
    rewrite !length_app. simpl. lia.
  - intros Hc. destruct (H2 Hc) as (A & _). rewrite A in Hpq. discriminate.
Qed.

(** A customer's first resumption: it arrives and asks for a teller. *)
Lemma idle_ok_arrive (st : state) (id : nat) :
  arrived (verbose_trace st)
  = started (verbose_trace st) ++ granted_ids st ++ waiting_ids st ->
  idle_ok st ->
  idle_ok (bank_request {| req_customer := id; req_arrival_time := env_now st |}
             (emit (Arrives id (env_now st)) st)).
Proof.
  intros Hfifo [H1 H2].
  assert (Hlen : (length (arrived (verbose_trace st))
                  = length (started (verbose_trace st)) + length (granted_ids st)
                    + length (waiting_ids st))%nat).
  { rewrite Hfifo, !length_app. lia. }
  assert (Ea : arrived (verbose_trace st ++ [Arrives id (env_now st)])
               = arrived (verbose_trace st) ++ [id]).
  { unfold arrived. rewrite flat_map_snoc. reflexivity. }
  assert (Es : started (verbose_trace st ++ [Arrives id (env_now st)])
               = started (verbose_trace st)).
  { unfold started. rewrite flat_map_snoc. apply app_nil_r. }
  unfold bank_request, trigger_put. simpl bank_put_queue. simpl bank_users.
  simpl bank_capacity.
  destruct (bank_put_queue st ++ [_]) as [|r0 rest] eqn:Hpq.
  { destruct (bank_put_queue st); discriminate. }
  destruct (Z.of_nat (length (bank_users st)) <? bank_capacity st)%Z eqn:Hlt.
  - constructor; unfold granted_ids in *; simpl; rewrite ?Ea, ?Es.
    + rewrite !length_map in *.
      rewrite (Permutation_length (pending_grants_heappush _ _)). simpl.
      rewrite !length_app. simpl. lia.
    + intros Hc. rewrite length_app in Hc. simpl in Hc.
      destruct (H2 ltac:(lia)) as (A & B & C).
      rewrite A in Hpq. simpl in Hpq. injection Hpq as <- <-.
      split; [reflexivity|]. split; [|exact C].
      apply heappush_Forall. split; [|exact B].
      simpl. intros r Hr. injection Hr as <-. simpl. lra.
  - apply Z.ltb_ge in Hlt.
    constructor; unfold granted_ids in *; simpl; rewrite ?Ea, ?Es.
    + exact H1.
    + intros Hc. exfalso. rewrite length_app in Hc. simpl in Hc.
      rewrite !length_map in *. lia.
Qed.

(** The customer granted a teller records its wait and prints its
    service start. *)
Lemma idle_ok_start (st : state) (ev : event) (q : list event) (r : request) :
  env_queue st = ev :: q -> ev_action ev = Request_granted r ->
  idle_ok st ->
  idle_ok (emit (Starts_service (req_customer r) (ev_time ev)
                   (ev_time ev - req_arrival_time r))
             (set_waiting_times (obs_waiting_times st ++ [ev_time ev - req_arrival_time r])
                (set_queue q (set_now (ev_time ev) st)))).
Proof.
  intros Hq Hact [H1 H2]. unfold granted_ids in *. rewrite Hq in *.
  simpl pending_grants in H1. rewrite Hact in H1. simpl in H1.
  constructor; unfold granted_ids; simpl.
  - rewrite started_snoc, length_app. simpl. lia.
  - unfold arrived. rewrite flat_map_snoc, app_nil_r. fold (arrived (verbose_trace st)).
    intros Hc. destruct (H2 Hc) as (A & B & C).
    split; [exact A|]. split; [apply Forall_inv_tail in B; exact B|].
    apply Forall_app. split; [exact C|]. constructor; [|constructor].
    apply Forall_inv in B. specialize (B r Hact). lra.
Qed.

Section IdleFacts.

Variable draws : nat -> Q.
Variables mean_interarrival mean_service_time : Q.

Lemma idle_ok_arrivals_loop (st : state) :
  idle_ok st -> idle_ok (resume (customer_arrivals_loop draws mean_interarrival) st).
Proof.
  intros H.
  destruct (arrivals_loop_cases draws mean_interarrival st)
    as (k & d & a & -> & _ & Ha).
  apply idle_ok_schedule.
  - destruct Ha as [->|(e & -> & _)]; discriminate.
  - apply (idle_ok_same st); try reflexivity. exact H.
Qed.

Lemma idle_ok_step (st : state) :
  history_ok st -> idle_ok st ->
  idle_ok (step_state (step draws mean_interarrival mean_service_time st)).
Proof.
  intros Hh H. unfold step.
  destruct (env_queue st) as [|ev q] eqn:Hq; [exact H|].
  pose proof (idle_ok_pop st ev q Hq) as H1.
  set (st1 := set_queue q (set_now (ev_time ev) st)) in *.
  destruct (ev_action ev) as [| |id|r|id| | |e|] eqn:Hact; simpl step_state;
    try specialize (H1 ltac:(discriminate) H).
  - apply idle_ok_arrivals_loop. exact H1.
  - unfold resume, customer_arrivals_resumed, bind, effect.
    apply idle_ok_arrivals_loop.
    apply (idle_ok_schedule URGENT 0 (Initialize_customer _) (set_customer_id _ _));
      [discriminate|].
    apply (idle_ok_same st1); try reflexivity. exact H1.
  - unfold resume, customer_arrive, bind, effect, get_now, ret.
    apply (idle_ok_arrive st1 id); [|exact H1].
    pose proof (h_fifo _ Hh) as Hfifo. unfold granted_ids in *.
    rewrite Hq in Hfifo. simpl pending_grants in Hfifo. rewrite Hact in Hfifo.
    exact Hfifo.
  - pose proof (idle_ok_start st ev q r Hq Hact H) as H2.
    destruct (start_service_cases draws mean_service_time r st1)
      as [[-> _]|(e & k & ss' & -> & _)].
    + apply idle_ok_schedule; [discriminate|].
      eapply idle_ok_same; [| | | | | |exact H2]; reflexivity.
    + apply idle_ok_schedule; [discriminate|]. apply idle_ok_release.
      eapply idle_ok_same; [| | | | | |exact H2]; reflexivity.
  - unfold resume, customer_leave, with_request, bind, effect, get_now, ret.
    apply idle_ok_schedule; [discriminate|]. apply idle_ok_release.
    apply idle_ok_emit; try discriminate. exact H1.
  - apply idle_ok_trigger_put. exact H1.
  - exact H1.
  - exact H1.
  - exact H1.
Qed.

End IdleFacts.

Lemma initial_state_idle_ok (num_tellers : Z) (sim_time : Q) (pos : nat) :
  0 < sim_time -> idle_ok (initial_state num_tellers sim_time pos).
Proof.
  intros HT. constructor; unfold granted_ids;
    rewrite (initial_queue num_tellers sim_time pos HT); simpl.
  - lia.
  - intros _. split; [reflexivity|]. split; [|constructor].
    repeat constructor; simpl; discriminate.
Qed.

(** X18. With a teller for every customer nobody waits: in any run in
    which no more than [num_tellers] customers have arrived, the
    resource's queue is empty and every entry of [waiting_times] is
    zero, each customer being granted its teller at the instant it
    arrives. *)
Theorem no_wait_with_enough_tellers (draws : nat -> Q) (num_tellers : Z)
    (mean_interarrival mean_service_time sim_time : Q) (pos fuel : nat) (o : outcome) :
  simulate draws mean_interarrival mean_service_time num_tellers sim_time pos fuel = Ok o ->
  (Z.of_nat (length (arrived (verbose_trace (outcome_state o)))) <= num_tellers)%Z ->
  bank_put_queue (outcome_state o) = []
  /\ Forall (fun w => w == 0) (obs_waiting_times (outcome_state o)).
Proof.
  intros H Harr.
  pose proof (simulate_run_ok _ _ _ _ _ _ _ _ H) as (_ & _ & _ & Hn).
  apply simulate_ok in H as (Hc & HT & ->).
  destruct (initial_state_ok num_tellers sim_time pos Hc HT) as (Hrun & _).
  assert (Hi : run_ok num_tellers
                 (outcome_state (run_loop draws mean_interarrival mean_service_time fuel
                                   (initial_state num_tellers sim_time pos)))
               /\ idle_ok
                    (outcome_state (run_loop draws mean_interarrival mean_service_time
                                      fuel (initial_state num_tellers sim_time pos)))).
  { apply (run_loop_invariant draws mean_interarrival mean_service_time
             (fun st => run_ok num_tellers st /\ idle_ok st)).
    - intros st [A B]. split.
      + apply run_ok_step, A.
      + apply idle_ok_step; [|exact B]. destruct A as (_ & A & _). exact A.
    - split; [exact Hrun | apply initial_state_idle_ok; exact HT]. }
  destruct Hi as [_ Hi].
  destruct (i_free _ Hi) as (A & _ & C); [rewrite Hn; exact Harr|].
  split; assumption.
Qed.

Lemma no_wait_with_enough_tellers_witness :
  exists st,
    simulate example_draws 2 1 4 10 0 100 = Ok (Stopped st)
    /\ length (arrived (verbose_trace st)) = 4%nat
    /\ Forall (fun w => w == 0) (obs_waiting_times st).
Proof.
  eexists. split; [vm_compute; reflexivity|]. split; [vm_compute; reflexivity|].
  apply (no_wait_with_enough_tellers example_draws 4 2 1 10 0 100 (Stopped _)).
  - vm_compute. reflexivity.
  - vm_compute. discriminate.
Defined.

(** * The random draws a run consumes *)

Lemma draws_ok_started (pos : nat) (st st' : state) :
  Forall (fun e => ev_action e <> Initialize_arrivals) (env_queue st') ->
  random_pos st' = random_pos st -> gen_customer_id st' = gen_customer_id st ->
  obs_service_times st' = obs_service_times st ->
  Forall (fun e => ev_action e <> Initialize_arrivals) (env_queue st)
  /\ random_pos st
     = (pos + 1 + gen_customer_id st + length (obs_service_times st))%nat ->
  draws_ok pos st'.
Proof.
  intros Hq E1 E2 E3 [_ H]. right. split; [exact Hq|]. rewrite E1, E2, E3. exact H.
Qed.

Lemma no_initialize_trigger_put (st : state) :
  Forall (fun e => ev_action e <> Initialize_arrivals) (env_queue st) ->
  Forall (fun e => ev_action e <> Initialize_arrivals) (env_queue (trigger_put st)).
Proof.
  intros H. destruct (trigger_put_cases st) as [->|(r & rest & _ & _ & ->)]; [exact H|].
  simpl. apply heappush_Forall. split; [discriminate | exact H].
Qed.

Lemma trigger_put_draws (st : state) :
  random_pos (trigger_put st) = random_pos st
  /\ gen_customer_id (trigger_put st) = gen_customer_id st
  /\ obs_service_times (trigger_put st) = obs_service_times st.
Proof.
  destruct (trigger_put_cases st) as [->|(r & rest & _ & _ & ->)]; auto.
Qed.

Section DrawFacts.

Variable draws : nat -> Q.
Variables mean_interarrival mean_service_time sim_time : Q.
Variable pos : nat.

Hypothesis draws_nonneg : forall n, 0 <= draws n.
Hypothesis mean_interarrival_pos : 0 < mean_interarrival.
Hypothesis mean_service_time_pos : 0 < mean_service_time.

Lemma draws_ok_step (st : state) :
  valid_run_ok sim_time st -> draws_ok pos st ->
  draws_ok pos (step_state (step draws mean_interarrival mean_service_time st)).
Proof using draws_nonneg mean_interarrival_pos mean_service_time_pos.
  intros (HQ & HF & HS) H.
  destruct (env_queue st) as [|ev q] eqn:Hq.
  { unfold step. rewrite Hq. exact H. }
  rewrite (step_valid draws mean_interarrival mean_service_time
             draws_nonneg mean_interarrival_pos mean_service_time_pos st ev q Hq).
  set (st1 := set_queue q (set_now (ev_time ev) st)) in *.
  destruct H as [(e & q' & Eq & He & Hno & Hp & Hg & Hs)|[Hno Hp]].
  - rewrite Hq in Eq. injection Eq as <- <-. rewrite He. simpl step_state.
    right. simpl. split.
    + apply heappush_Forall. split; [discriminate | exact Hno].
    + rewrite Hp, Hg, Hs. simpl. lia.
  - rewrite Hq in Hno. pose proof (Forall_inv Hno) as Hev.
    apply Forall_inv_tail in Hno.
    destruct (ev_action ev) as [| |id|r|id| | |e|] eqn:Hact; simpl step_state.
    + exfalso. exact (Hev Hact).
    + right. simpl. split.
      * apply heappush_Forall. split; [discriminate|].
        apply heappush_Forall. split; [discriminate | exact Hno].
      * rewrite Hp. lia.
    + unfold bank_request.
      match goal with |- draws_ok _ (trigger_put ?s) =>
        destruct (trigger_put_draws s) as (E1 & E2 & E3);
        pose proof (no_initialize_trigger_put s) as Hq'
      end.
      right. split; [apply Hq'; exact Hno|]. rewrite E1, E2, E3. exact Hp.
    + right. simpl. split.
      * apply heappush_Forall. split; [discriminate | exact Hno].
      * rewrite Hp, length_app. simpl. lia.
    + right. simpl. split.
      * apply heappush_Forall. split; [discriminate|].
        apply heappush_Forall. split; [discriminate | exact Hno].
      * exact Hp.
    + match goal with |- draws_ok _ (trigger_put ?s) =>
        destruct (trigger_put_draws s) as (E1 & E2 & E3);
        pose proof (no_initialize_trigger_put s) as Hq'
      end.
      right. split; [apply Hq'; exact Hno|]. rewrite E1, E2, E3. exact Hp.
    + right. split; [exact Hno | exact Hp].
    + right. split; [exact Hno | exact Hp].
    + right. split; [exact Hno | exact Hp].
Qed.

End DrawFacts.

Lemma initial_state_draws_ok (num_tellers : Z) (sim_time : Q) (pos : nat) :
  0 < sim_time -> draws_ok pos (initial_state num_tellers sim_time pos).
Proof.
  intros HT. left. eexists _, _.
  split; [exact (initial_queue num_tellers sim_time pos HT)|].
  split; [reflexivity|]. split; [repeat constructor; simpl; discriminate|].
  repeat split.
Qed.

Lemma timers_no_arrival (q : list event) :
  Forall (fun e => is_timer (ev_action e) = true) q -> pending_arrivals q = [].
Proof.
  unfold pending_arrivals. induction 1 as [|e q He _ IH]; simpl; [reflexivity|].
  destruct (ev_action e); try discriminate; exact IH.
Qed.

(** X19. A run of a valid configuration that reaches its cutoff has
    consumed exactly one random draw per customer that arrived, one for
    the arrival still to come, and one per service started: the next run
    starts that many positions further in the random stream. *)
Theorem draws_consumed_by_a_run (draws : nat -> Q) (num_tellers : Z)
    (mean_interarrival mean_service_time sim_time : Q) (num_runs : Z)
    (pos fuel : nat) (st : state) :
  (forall n, 0 <= draws n) ->
  valid_configuration num_tellers mean_interarrival mean_service_time sim_time num_runs ->
  simulate draws mean_interarrival mean_service_time num_tellers sim_time pos fuel
  = Ok (Stopped st) ->
  random_pos st
  = (pos + 1 + length (arrived (verbose_trace st))
     + length (started (verbose_trace st)))%nat.
Proof.
  intros Hd (Hc & Hmi & Hms & HT & _) H.
  pose proof (simulate_run_ok _ _ _ _ _ _ _ _ H) as (_ & Hh & _).
  destruct (simulate_stopped _ _ _ _ _ _ _ _ H) as [Htimers Hlen].
  apply simulate_ok in H as (Hc' & _ & H).
  destruct (initial_state_ok num_tellers sim_time pos Hc' HT) as ((HQ & _) & _).
  assert (Hn : queue_ok (outcome_state (run_loop draws mean_interarrival mean_service_time
                                          fuel (initial_state num_tellers sim_time pos)))
               /\ numbering_ok
                    (outcome_state (run_loop draws mean_interarrival mean_service_time
                                      fuel (initial_state num_tellers sim_time pos)))).
  { apply (run_loop_invariant draws mean_interarrival mean_service_time
             (fun s => queue_ok s /\ numbering_ok s)).
    - intros s [A B]. split.
      + apply queue_ok_step, A.
      + apply numbering_ok_step; assumption.
    - split; [exact HQ | apply initial_state_numbering_ok; exact HT]. }
  assert (Hdr : draws_ok pos
                  (outcome_state (run_loop draws mean_interarrival mean_service_time fuel
                                    (initial_state num_tellers sim_time pos)))).
  { apply (valid_run_invariant draws mean_interarrival mean_service_time sim_time
             Hd Hmi Hms).
    - intros s Hok Hs. apply (draws_ok_step draws mean_interarrival mean_service_time
                                sim_time pos Hd Hmi Hms s Hok Hs).
    - apply initial_state_valid; assumption.
    - apply initial_state_draws_ok. exact HT. }
  rewrite <- H in Hn, Hdr. simpl outcome_state in Hn, Hdr.
  destruct Hn as [_ Hn]. pose proof (n_seq _ Hn) as Hseq.
  rewrite (timers_no_arrival _ Htimers), app_nil_r in Hseq.
  assert (Hgen : gen_customer_id st = length (arrived (verbose_trace st))).
  { rewrite Hseq, length_seq. reflexivity. }
  assert (Hss : length (obs_service_times st) = length (started (verbose_trace st))).
  { pose proof (h_waits _ Hh) as Hw. simpl outcome_state in Hw.
    rewrite Hlen, Hw. apply recorded_waits_length. }
  destruct Hdr as [(e & q & Eq & He & _)|[_ Hp]].
  - exfalso. rewrite Eq in Htimers. apply Forall_inv in Htimers.
    rewrite He in Htimers. discriminate.
  - rewrite Hp, Hgen, Hss. reflexivity.
Qed.

Lemma draws_consumed_by_a_run_witness :
  exists st,
    simulate example_draws 2 1 1 10 0 100 = Ok (Stopped st)
    /\ random_pos st = 9%nat
    /\ random_pos st
       = (0 + 1 + length (arrived (verbose_trace st))
          + length (started (verbose_trace st)))%nat.
Proof.
  eexists. split; [vm_compute; reflexivity|]. split; [vm_compute; reflexivity|].
  apply (draws_consumed_by_a_run example_draws 1 2 1 10 1 0 100).
  - intros n. unfold example_draws.
    do 8 (destruct n as [|n]; [simpl; lra|]). simpl. destruct n; lra.
  - unfold valid_configuration. repeat split; try lia; lra.
  - vm_compute. reflexivity.
Defined.

(** * The report *)

Lemma mean_singleton (x : Q) : exists a, mean [x] = Ok a /\ a == x.
Proof.
  eexists. split; [reflexivity|].
  change (Qsum [x]) with (0 + x). change (len [x]) with 1. field.
Qed.

(** X20. The report of [display_results] for the results of
    [run_multiple_simulations]: its second line carries [num_runs], and
    after the sixteen summary lines comes one line per run, in run
    order, the line of run [i + 1] at position [16 + i]; that line is
    the "No customers served" line exactly when the run's
    [waiting_times] list is empty. *)
Theorem report_lists_every_run (sqrt : Q -> Q) (draws : nat -> Q) (num_tellers : Z)
    (mean_interarrival mean_service_time sim_time : Q) (num_runs : Z) (fuel : nat)
    (w w' : world) (l : list run_stats) (h' : heap) (r : overall_stats) :
  run_multiple_simulations draws num_tellers mean_interarrival mean_service_time
    sim_time num_runs fuel w = Returns (l, w') ->
  calculate_overall_statistics sqrt l (world_heap w') = (Ok (Some r), h') ->
  exists out,
    display_results l (Some r) num_tellers = (out, None)
    /\ out !! 1%nat = Some (Final_results num_runs)
    /\ Z.of_nat (length out) = (16 + num_runs)%Z
    /\ forall i s,
         l !! i = Some s ->
         out !! (16 + i)%nat = Some (run_line s)
         /\ (run_line s = Run_without_customers (Z.of_nat i + 1)
             <-> world_heap w' !! waiting_times s = Some [])
         /\ (world_heap w' !! waiting_times s <> Some [] ->
             run_line s = Run_result (Z.of_nat i + 1) (customers_served s)
                            (avg_waiting_time s) (max_waiting_time s)).
Proof.
  unfold run_multiple_simulations. intros Hruns H.
  apply (simulation_runs_results draws num_tellers mean_interarrival mean_service_time
           sim_time fuel _ (world_heap w)) in Hruns as (Hnum & Hres & _ & _ & _);
    [|constructor | constructor | constructor | reflexivity].
  assert (Hv : valid_refs (world_heap w') l).
  { eapply Forall_impl; [exact Hres|]. intros s (ws & ss & Hw & Hs & _). eauto. }
  apply calculate_overall_statistics_returns in H as [Hne H]; [|exact Hv].
  destruct (overall_record_counts sqrt _ _ _ _ H) as (Htotal & _ & _).
  assert (Hlenl : length l = Z.to_nat num_runs).
  { rewrite <- (length_map run_number), Hnum. simpl. rewrite py_range_length.
    f_equal. lia. }
  assert (Hpos : (1 <= num_runs)%Z).
  { destruct l as [|s0 l0]; [congruence|]. simpl length in Hlenl. lia. }
  unfold display_results. eexists. split; [reflexivity|].
  split; [simpl; rewrite Htotal, Hlenl; f_equal; f_equal; lia|].
  split; [rewrite length_app, length_map, Hlenl; simpl length; lia|].
  intros i s Hi.
  assert (Hrun : run_number s = (Z.of_nat i + 1)%Z).
  { assert (Hx : map run_number l !! i = Some (run_number s)).
    { rewrite list_lookup_fmap, Hi. reflexivity. }
    rewrite Hnum in Hx. apply py_range_lookup in Hx. lia. }
  assert (Hs : In s l).
  { apply list_elem_of_In. exact (list_elem_of_lookup_2 _ _ _ Hi). }
  rewrite List.Forall_forall in Hres.
  destruct (Hres s Hs) as (ws & ss & Hw & _ & Hc & _).
  split; [|split].
  - rewrite lookup_app_r by (simpl; lia).
    replace (16 + i - length _)%nat with i by (simpl; lia).
    rewrite list_lookup_fmap, Hi. reflexivity.
  - unfold run_line. rewrite Hw, Hc, Hrun. split.
    + destruct ws as [|x ws]; [reflexivity|]. simpl. discriminate.
    + intros E. injection E as ->. reflexivity.
  - intros Hnot. unfold run_line. rewrite Hc, Hrun.
    destruct ws as [|x ws]; [rewrite Hw in Hnot; congruence|]. reflexivity.
Qed.

Lemma report_lists_every_run_witness :
  exists l w' r h',
    run_multiple_simulations sparse_draws 1 1 1 10 1 100 empty_world = Returns (l, w')
    /\ calculate_overall_statistics example_sqrt l (world_heap w') = (Ok (Some r), h')
    /\ exists out,
         display_results l (Some r) 1 = (out, None)
         /\ out !! 1%nat = Some (Final_results 1)
         /\ Z.of_nat (length out) = (16 + 1)%Z
         /\ forall i s,
              l !! i = Some s ->
              out !! (16 + i)%nat = Some (run_line s)
              /\ (run_line s = Run_without_customers (Z.of_nat i + 1)
                  <-> world_heap w' !! waiting_times s = Some [])
              /\ (world_heap w' !! waiting_times s <> Some [] ->
                  run_line s = Run_result (Z.of_nat i + 1) (customers_served s)
                                 (avg_waiting_time s) (max_waiting_time s)).
Proof.
  eexists _, _, _, _. split; [vm_compute; reflexivity|].
  split; [vm_compute; reflexivity|].
  eapply (report_lists_every_run example_sqrt sparse_draws 1 1 1 10 1 100 empty_world).
  - vm_compute. reflexivity.
  - vm_compute. reflexivity.
Defined.

(** X21. With exactly one run that served a customer, the across-run
    figures are that run's own: [mean_avg_waiting_time],
    [mean_max_waiting_time] and [mean_avg_service_time] equal its
    average wait, maximum wait and average service time, while the
    reported interval is [0, 0], so a positive mean lies outside the
    interval reported for it. *)
Theorem single_qualifying_run (sqrt : Q -> Q) (all_stats : list run_stats)
    (h h' : heap) (r : overall_stats) (s : run_stats) :
  valid_refs h all_stats ->
  List.filter served all_stats = [s] ->
  calculate_overall_statistics sqrt all_stats h = (Ok (Some r), h') ->
  mean_avg_waiting_time r == avg_waiting_time s
  /\ mean_max_waiting_time r == max_waiting_time s
  /\ mean_avg_service_time r == avg_service_time s
  /\ std_avg_waiting_time r = 0
  /\ waiting_time_95ci_low r = 0 /\ waiting_time_95ci_high r = 0
  /\ (0 < avg_waiting_time s -> waiting_time_95ci_high r < mean_avg_waiting_time r).
Proof.
  intros Hv Hf H.
  apply calculate_overall_statistics_returns in H as [Hne H]; [|exact Hv].
  destruct (overall_record_few sqrt all_stats (flattened waiting_times h all_stats)
              (flattened service_times h all_stats) Hne) as (r' & Hr' & Hsd & Hlo & Hhi).
  { rewrite Hf. simpl. lia. }
  rewrite H in Hr'. injection Hr' as <-.
  pose proof (overall_record_inv sqrt _ _ _ _ H) as (Hm & _ & Hx & _).
  cbv zeta in Hm, Hx.
  pose proof (overall_record_service sqrt _ _ _ _ H) as Hs.
  rewrite Hf in Hm, Hx, Hs. cbn [map] in Hm, Hx, Hs.
  destruct (mean_singleton (avg_waiting_time s)) as (a1 & E1 & Q1).
  destruct (mean_singleton (max_waiting_time s)) as (a2 & E2 & Q2).
  destruct (mean_singleton (avg_service_time s)) as (a3 & E3 & Q3).
  rewrite E1 in Hm. rewrite E2 in Hx. rewrite E3 in Hs.
  injection Hm as Hm. injection Hx as Hx. injection Hs as Hs.
  rewrite <- Hm, <- Hx, <- Hs.
  split; [exact Q1|]. split; [exact Q2|]. split; [exact Q3|].
  split; [exact Hsd|]. split; [exact Hlo|]. split; [exact Hhi|].
  intros Hp. rewrite Hhi. lra.
Qed.

Lemma single_qualifying_run_witness :
  exists r h',
    calculate_overall_statistics example_sqrt
      [example_busy_run; example_zero_run] example_heap = (Ok (Some r), h')
    /\ mean_avg_waiting_time r == 3
    /\ waiting_time_95ci_high r < mean_avg_waiting_time r.
Proof.
  eexists _, _. split; [vm_compute; reflexivity|].
  destruct (single_qualifying_run example_sqrt [example_busy_run; example_zero_run]
              example_heap _ _ example_busy_run
              ltac:(repeat constructor; eexists; vm_compute; reflexivity)
              ltac:(reflexivity) ltac:(vm_compute; reflexivity))
    as (A & _ & _ & _ & _ & _ & B).
  split; [exact A|]. apply B. vm_compute. reflexivity.
Defined.
